(** * Entitlement engine of the AI review reply generator

    A shallow embedding of the server side of the Shopify app:
    - [usage.server.ts]   : the per-shop daily usage counter kept in a shop
                            metafield ([getDailyUsage], [saveDailyUsage],
                            [getCurrentUsageCount], [checkAndIncrementUsage]);
    - [billing.server.ts] : [createSubscription] and [checkActiveSubscription];
    - [routes/app._index.tsx] : the page [loader] and the generation [action].

    [authenticate.admin], the Admin GraphQL API, the clock, the submitted
    form and the OpenAI call are the environment.  They are gathered in a
    [World] record; every asynchronous function of the source becomes a
    computation [World -> result A * World] that threads the world (clock,
    stored metafield, log of calls) and either returns or throws.  Time
    passes while a call is awaited: what the clock reads after an [await]
    is not what it read before, the world says how long each call takes.
    For the handlers
    [generateAIReply] (openai.server.ts) is a collaborator whose outcome
    the world fixes; the function itself is modelled in [OpenAI]. *)

From Stdlib Require Import String Ascii List ZArith Lia Bool Arith.
From Stdlib Require Import DecimalString DecimalNat.
From Stdlib Require DecimalFacts.
Import ListNotations.
Open Scope string_scope.

(** ** JavaScript values the code relies on *)

(** The outcome of an awaited call: a value, or what is thrown (an [Error]
    with its message; a thrown value of another kind, such as the [Response]
    [authenticate.admin] throws, is named by a text as well). *)
Inductive result (A : Type) : Type :=
| Ok (a : A)
| Throw (message : string).
Arguments Ok {A} a.
Arguments Throw {A} message.

(** [!s] for a string-or-null: null, undefined and the empty string are
    falsy. *)
Definition falsy_string (s : option string) : bool :=
  match s with
  | None => true
  | Some EmptyString => true
  | Some _ => false
  end.

(** [v || d] on a number-or-null: null, undefined and 0 are falsy. *)
Definition or_default (v : option Z) (d : Z) : Z :=
  match v with
  | None => d
  | Some 0%Z => d
  | Some n => n
  end.

(** [xs.join(sep)]. *)
Fixpoint join (sep : string) (xs : list string) : string :=
  match xs with
  | [] => ""
  | [x] => x
  | x :: rest => x ++ sep ++ join sep rest
  end.

(** [s.split(c)[0]]: the part of [s] before the first occurrence of [c]. *)
Fixpoint split_head (c : ascii) (s : string) : string :=
  match s with
  | EmptyString => ""
  | String a rest => if Ascii.eqb a c then "" else String a (split_head c rest)
  end.

(** ** Time values

    A [Date] is its time value: milliseconds since the epoch, an integer of
    at most 8.64e15 in absolute value, or NaN (an Invalid Date), written
    [None].  Within that range [Date] arithmetic on doubles is exact. *)
Module JsDate.
Local Open Scope Z_scope.

Definition msPerDay : Z := 1000 * 60 * 60 * 24.

(** The largest time value, 100 000 000 days from the epoch. *)
Definition MAX_TIME : Z := 8640000000000000.

(** [TimeClip(t)]: NaN outside the range of time values. *)
Definition TimeClip (t : Z) : option Z :=
  if Z.abs t <=? MAX_TIME then Some t else None.

Definition Day (t : Z) : Z := t / msPerDay.
Definition TimeWithinDay (t : Z) : Z := t mod msPerDay.

(** Year, month (1..12) and day of month (1..31) of a day number, in the
    proleptic Gregorian calendar. *)
Definition civil (day : Z) : Z * Z * Z :=
  let z := day + 719468 in
  let era := z / 146097 in
  let doe := z - era * 146097 in
  let yoe := (doe - doe / 1460 + doe / 36524 - doe / 146096) / 365 in
  let y := yoe + era * 400 in
  let doy := doe - (365 * yoe + yoe / 4 - yoe / 100) in
  let mp := (5 * doy + 2) / 153 in
  let d := doy - (153 * mp + 2) / 5 + 1 in
  let m := if mp <? 10 then mp + 3 else mp - 9 in
  (if m <=? 2 then y + 1 else y, m, d).

Definition digit (n : Z) : ascii := ascii_of_nat (48 + Z.to_nat (n mod 10)).

(** [n] in decimal, on exactly [width] digits. *)
Fixpoint pad (width : nat) (n : Z) : string :=
  match width with
  | O => ""
  | S w => pad w (n / 10) ++ String (digit n) ""
  end.

(** Years 0..9999 print on four digits, the others signed on six. *)
Definition year_string (y : Z) : string :=
  if (0 <=? y) && (y <=? 9999) then pad 4 y
  else if y <? 0 then "-" ++ pad 6 (- y)
  else "+" ++ pad 6 y.

(** [d.toISOString()]: YYYY-MM-DDTHH:mm:ss.sssZ, in UTC. *)
Definition toISOString (t : Z) : string :=
  let '(y, m, d) := civil (Day t) in
  let ms := TimeWithinDay t in
  year_string y ++ "-" ++ pad 2 m ++ "-" ++ pad 2 d ++ "T"
    ++ pad 2 (ms / 3600000) ++ ":" ++ pad 2 (ms / 60000 mod 60) ++ ":"
    ++ pad 2 (ms / 1000 mod 60) ++ "." ++ pad 3 (ms mod 1000) ++ "Z".

(** [Math.ceil(a / b)] for integers [a] and [b > 0]. *)
Definition ceil_div (a b : Z) : Z := - ((- a) / b).
End JsDate.

(** ** Data model *)

(** [interface DailyUsage { count: number; date: string }], the record kept
    as JSON text in the shop metafield [ai_reply.daily_usage].  The counter
    is a non-negative integer. *)
Record DailyUsage : Type := mkDailyUsage {
  count : nat;
  date : string   (* YYYY-MM-DD *)
}.

(** One entry of [currentAppInstallation.activeSubscriptions], with the
    fields the resolver reads.  [createdAt] is the provider's DateTime as the
    time value [new Date(createdAt)] gives it (a DateTime the provider sends
    is a well-formed ISO 8601 instant), [None] when the field is missing,
    null or empty; [trialDays] is the provider's Int, [None] when missing or
    null. *)
Record Subscription : Type := mkSubscription {
  name : string;
  status : string;
  createdAt : option Z;
  trialDays : option Z
}.

(** The payload of [appSubscriptionCreate]: the messages of [userErrors] and
    the confirmation URL.  A response without [data] has neither. *)
Record CreateResponse : Type := mkCreateResponse {
  userErrors : list string;
  confirmationUrl : option string
}.

(** Result of [checkActiveSubscription]. *)
Record EntitlementState : Type := mkEntitlement {
  hasAccess : bool;
  isTrial : bool;
  daysRemaining : option Z
}.

(** Result of [checkAndIncrementUsage]. *)
Record UsageDecision : Type := mkDecision {
  allowed : bool;
  currentCount : nat
}.

(** What the page loader returns. *)
Record LoaderData : Type := mkLoaderData {
  hasSubscription : bool;
  loaderConfirmationUrl : option string;
  usageCount : nat;
  loaderIsTrial : bool;
  loaderDaysRemaining : option Z
}.

(** What the generation action returns. *)
Record ActionData : Type := mkActionData {
  reply : string;
  error : option string
}.

(** The form of a request: [formData.get("message")] and
    [formData.get("tone")], read as strings as the source does, [None] for
    a field the form does not have. *)
Record FormData : Type := mkFormData {
  get_message : option string;
  get_tone : option string
}.

(** The parts of the incoming request the handlers read:
    [new URL(request.url).origin], and what [request.formData()] resolves
    to, or the error it rejects with when the body is not a form. *)
Record Request : Type := mkRequest {
  origin : string;
  formData : result FormData
}.

(** The two fields of the form a request carries; a request whose body is
    not a form has neither. *)
Definition formMessage (request : Request) : option string :=
  match formData request with
  | Ok form => get_message form
  | Throw _ => None
  end.

Definition formTone (request : Request) : option string :=
  match formData request with
  | Ok form => get_tone form
  | Throw _ => None
  end.

(** ** The environment *)

(** Calls that leave the process, in the order of the log (newest first).
    A metafieldsSet call is logged with the time at which it is sent, the
    value it carries and whether the store kept it. *)
Inductive Event : Type :=
| EvActiveSubscriptions
| EvSubscriptionCreate (planName : string) (planTrialDays : Z) (returnUrl : string)
| EvMetafieldQuery
| EvShopIdQuery
| EvMetafieldsSet (time : Z) (value : string) (stored : bool)
| EvGenerate (message tone : string).

(** The world a request runs in.
    - [clock]: what [new Date()] reads now;
    - [elapse]: the passing of time while a call is awaited: a call awaited
      when the clock reads [t] has answered when it reads [elapse t];
    - [authentication]: what [authenticate.admin(request)] answers: the
      admin context, or what it throws;
    - [activeSubscriptions], [subscriptionCreate], [shopId]: what the
      corresponding Admin API calls answer, or the error they throw;
    - [metafieldValue]: the JSON text stored in the usage metafield
      ([None]: no metafield); [metafieldQueryError]: the error the metafield
      query throws, if it does;
    - [metafieldsSetErrors]: the [userErrors] the metafieldsSet mutation
      answers ([Ok []]: the value is stored), or the error it throws;
    - [generation]: the outcome of the OpenAI call for a message and a tone;
    - [trace]: the calls made so far. *)
Record World : Type := mkWorld {
  clock : Z;
  elapse : Z -> Z;
  authentication : Request -> result unit;
  activeSubscriptions : result (list Subscription);
  subscriptionCreate : result CreateResponse;
  metafieldQueryError : option string;
  metafieldValue : option string;
  shopId : result (option string);
  metafieldsSetErrors : result (list string);
  generation : string -> string -> result string;
  trace : list Event
}.

(** An awaited call has answered: time has passed. *)
Definition tick (w : World) : World :=
  mkWorld (elapse w (clock w)) (elapse w) (authentication w)
          (activeSubscriptions w) (subscriptionCreate w)
          (metafieldQueryError w) (metafieldValue w) (shopId w)
          (metafieldsSetErrors w) (generation w) (trace w).

(** An awaited call that leaves the process has answered: the call is in
    the log, and time has passed. *)
Definition add_event (e : Event) (w : World) : World :=
  mkWorld (elapse w (clock w)) (elapse w) (authentication w)
          (activeSubscriptions w) (subscriptionCreate w)
          (metafieldQueryError w) (metafieldValue w) (shopId w)
          (metafieldsSetErrors w) (generation w) (e :: trace w).

Definition set_metafieldValue (v : option string) (w : World) : World :=
  mkWorld (clock w) (elapse w) (authentication w)
          (activeSubscriptions w) (subscriptionCreate w)
          (metafieldQueryError w) v (shopId w)
          (metafieldsSetErrors w) (generation w) (trace w).

Definition set_clock (t : Z) (w : World) : World :=
  mkWorld t (elapse w) (authentication w)
          (activeSubscriptions w) (subscriptionCreate w)
          (metafieldQueryError w) (metafieldValue w) (shopId w)
          (metafieldsSetErrors w) (generation w) (trace w).

(** The calls logged between [w] and a later world [w']. *)
Definition since (w w' : World) : list Event :=
  firstn (length (trace w') - length (trace w)) (trace w').

(** ** Computations: state and exceptions *)

Definition M (A : Type) : Type := World -> result A * World.

Definition ret {A : Type} (a : A) : M A := fun w => (Ok a, w).

Definition throw {A : Type} (message : string) : M A := fun w => (Throw message, w).

Definition bind {A B : Type} (m : M A) (k : A -> M B) : M B :=
  fun w =>
    match m w with
    | (Ok a, w') => k a w'
    | (Throw e, w') => (Throw e, w')
    end.

(** [try { m } catch (error) { h error }]. *)
Definition try_catch {A : Type} (m : M A) (h : string -> M A) : M A :=
  fun w =>
    match m w with
    | (Ok a, w') => (Ok a, w')
    | (Throw e, w') => h e w'
    end.

Notation "x <- m ;; k" := (bind m (fun x => k))
  (at level 61, m at next level, right associativity).

(** *** The collaborators *)

Definition Date_now : M Z := fun w => (Ok (clock w), w).

(** [authenticate.admin(request)]. *)
Definition authenticate_admin (request : Request) : M unit :=
  fun w => (authentication w request, tick w).

(** [request.formData()]. *)
Definition request_formData (request : Request) : M FormData :=
  fun w => (formData request, tick w).

Definition query_activeSubscriptions : M (list Subscription) :=
  fun w => (activeSubscriptions w, add_event EvActiveSubscriptions w).

Definition mutation_appSubscriptionCreate
    (planName : string) (planTrialDays : Z) (returnUrl : string) : M CreateResponse :=
  fun w => (subscriptionCreate w,
            add_event (EvSubscriptionCreate planName planTrialDays returnUrl) w).

(** [responseJson.data?.shop?.metafield?.value]. *)
Definition query_getShopMetafield : M (option string) :=
  fun w => (match metafieldQueryError w with
            | Some e => Throw e
            | None => Ok (metafieldValue w)
            end, add_event EvMetafieldQuery w).

(** [responseJson.data?.shop?.id]. *)
Definition query_getShopId : M (option string) :=
  fun w => (shopId w, add_event EvShopIdQuery w).

(** The metafieldsSet mutation, sent at the time the clock reads: the store
    keeps the value exactly when the mutation answers without user
    errors. *)
Definition mutation_metafieldsSet (value : string) : M (list string) :=
  fun w =>
    match metafieldsSetErrors w with
    | Ok [] =>
        (Ok [], set_metafieldValue (Some value)
                  (add_event (EvMetafieldsSet (clock w) value true) w))
    | Ok errors => (Ok errors, add_event (EvMetafieldsSet (clock w) value false) w)
    | Throw e => (Throw e, add_event (EvMetafieldsSet (clock w) value false) w)
    end.

(** [generateAIReply(message, tone)]. *)
Definition generateAIReply (message tone : string) : M string :=
  fun w => (generation w message tone, add_event (EvGenerate message tone) w).

(** [new Date(t).toISOString().split("T")[0]]: the UTC calendar date of a
    time value, as YYYY-MM-DD. *)
Definition todayDateString (t : Z) : string :=
  split_head "T" (JsDate.toISOString t).

(** *** Observations on worlds and logs *)

Definition set_activeSubscriptions (r : result (list Subscription)) (w : World) : World :=
  mkWorld (clock w) (elapse w) (authentication w) r (subscriptionCreate w)
          (metafieldQueryError w) (metafieldValue w) (shopId w)
          (metafieldsSetErrors w) (generation w) (trace w).

Definition set_authentication (r : Request -> result unit) (w : World) : World :=
  mkWorld (clock w) (elapse w) r
          (activeSubscriptions w) (subscriptionCreate w)
          (metafieldQueryError w) (metafieldValue w) (shopId w)
          (metafieldsSetErrors w) (generation w) (trace w).

(** The time [checkActiveSubscription] reads when it is called in [w]: the
    clock once the subscriptions query has answered. *)
Definition resolver_now (w : World) : Z := elapse w (clock w).

(** The time at which a call of [checkAndIncrementUsage] begun in [w] sends
    its write: the metafield query and the shop id query have answered. *)
Definition write_time (w : World) : Z := elapse w (elapse w (clock w)).

(** The metafield query answers. *)
Definition read_ok (w : World) : bool :=
  match metafieldQueryError w with
  | None => true
  | Some _ => false
  end.

(** The shop id resolves and metafieldsSet stores what it is given. *)
Definition write_ok (w : World) : bool :=
  match shopId w, metafieldsSetErrors w with
  | Ok (Some (String _ _)), Ok [] => true
  | _, _ => false
  end.

Definition is_counter_read (e : Event) : bool :=
  match e with EvMetafieldQuery => true | _ => false end.

Definition is_counter_write (e : Event) : bool :=
  match e with EvMetafieldsSet _ _ _ => true | _ => false end.

Definition is_generation (e : Event) : bool :=
  match e with EvGenerate _ _ => true | _ => false end.

Definition count_events (p : Event -> bool) (es : list Event) : nat :=
  length (filter p es).

(** The newest metafieldsSet of the log that the store accepted: its time
    and the value it stored. *)
Fixpoint last_stored_write (es : list Event) : option (Z * string) :=
  match es with
  | [] => None
  | EvMetafieldsSet t v true :: _ => Some (t, v)
  | _ :: rest => last_stored_write rest
  end.

(** [m] occurs in [s]. *)
Definition occurs_in (m s : string) : Prop :=
  exists pre post, s = pre ++ m ++ post.

(** ** A reference JSON codec for [DailyUsage]

    The text [JSON.stringify] produces for a usage record,
    {"count":N,"date":"D"}, and a reader for that text.  The handlers below
    are parametric in the JSON functions; this codec is the instance the
    examples run on. *)
Module UsageJson.
Definition dquote : ascii := "034"%char.
Definition backslash : ascii := "092"%char.

Definition is_special (c : ascii) : bool :=
  Ascii.eqb c dquote || Ascii.eqb c backslash.

Definition is_digit (c : ascii) : bool :=
  (48 <=? nat_of_ascii c)%nat && (nat_of_ascii c <=? 57)%nat.

(** Quotes and backslashes are escaped with a backslash. *)
Fixpoint escape (s : string) : string :=
  match s with
  | EmptyString => ""
  | String c rest =>
      if is_special c then String backslash (String c (escape rest))
      else String c (escape rest)
  end.

Definition quoted (s : string) : string :=
  String dquote (escape s ++ String dquote "").

Definition decimal (n : nat) : string :=
  NilEmpty.string_of_uint (Nat.to_uint n).

(** What precedes the count, and what stands between the count and the
    body of the date. *)
Definition count_prefix : string := "{" ++ quoted "count" ++ ":".
Definition date_prefix : string :=
  "," ++ quoted "date" ++ ":" ++ String dquote "".

Definition stringify (u : DailyUsage) : string :=
  count_prefix ++ decimal (count u)
    ++ date_prefix ++ escape (date u) ++ String dquote "}".

Fixpoint strip_prefix (p s : string) : option string :=
  match p with
  | EmptyString => Some s
  | String a p' =>
      match s with
      | String b s' => if Ascii.eqb a b then strip_prefix p' s' else None
      | EmptyString => None
      end
  end.

(** The longest prefix of digits, and what follows it. *)
Fixpoint span_digits (s : string) : string * string :=
  match s with
  | EmptyString => ("", "")
  | String c rest =>
      if is_digit c then
        let (ds, r) := span_digits rest in (String c ds, r)
      else ("", s)
  end.

(** The body of a string literal up to its closing quote, unescaped, and
    what follows the quote. *)
Fixpoint read_string (s : string) : option (string * string) :=
  match s with
  | EmptyString => None
  | String c rest =>
      if Ascii.eqb c dquote then Some ("", rest)
      else if Ascii.eqb c backslash then
        match rest with
        | String c' rest' =>
            if is_special c' then
              match read_string rest' with
              | Some (body, r) => Some (String c' body, r)
              | None => None
              end
            else None
        | EmptyString => None
        end
      else
        match read_string rest with
        | Some (body, r) => Some (String c body, r)
        | None => None
        end
  end.

Definition parse (s : string) : option DailyUsage :=
  match strip_prefix count_prefix s with
  | None => None
  | Some s1 =>
      match span_digits s1 with
      | (EmptyString, _) => None
      | (ds, s2) =>
          match NilEmpty.uint_of_string ds, strip_prefix date_prefix s2 with
          | Some n, Some s3 =>
              match read_string s3 with
              | Some (d, "}") => Some (mkDailyUsage (Nat.of_uint n) d)
              | _ => None
              end
          | _, _ => None
          end
      end
  end.
End UsageJson.

(** ** Constants of the source *)

Definition DAILY_LIMIT : nat := 100.

(** The decision the k-th call of a day is expected to get. *)
Definition decision_at (k : nat) : UsageDecision :=
  if (k <=? DAILY_LIMIT)%nat then mkDecision true k
  else mkDecision false DAILY_LIMIT.
Definition PLAN_NAME : string := "pro_monthly".
Definition PLAN_TRIAL_DAYS : Z := 14.
Definition DEFAULT_TRIAL_DAYS : Z := 14.

Definition SUBSCRIPTION_REQUIRED : string :=
  "Subscription required. Your trial has expired or no active subscription found.".
Definition FIELDS_REQUIRED : string := "Message and tone are required".
Definition LIMIT_REACHED : string := "Daily limit of 100 replies reached".
Definition USAGE_CHECK_FAILED : string :=
  "Failed to check usage limit. Please try again.".
Definition NO_CONFIRMATION_URL : string :=
  "No confirmation URL returned from subscription creation".
Definition CREATE_FAILED_PREFIX : string := "Failed to create subscription: ".
Definition SAVE_FAILED_PREFIX : string := "Failed to save metafield: ".
Definition NO_SHOP_ID : string := "Failed to get shop ID".

(** Two worlds in which the usage counter sees the same things: the same
    clock and passing of time, the same stored value and the same answers
    of the metafield and shop queries and of metafieldsSet. *)
Definition same_store (w w' : World) : Prop :=
  clock w = clock w'
  /\ elapse w = elapse w'
  /\ metafieldQueryError w = metafieldQueryError w'
  /\ metafieldValue w = metafieldValue w'
  /\ shopId w = shopId w'
  /\ metafieldsSetErrors w = metafieldsSetErrors w'.

(** ** openai.server.ts

    [generateAIReply] as the source writes it, over an environment that
    holds the configured API key and answers the chat completion call.  The
    function returns its outcome together with the requests it sent.
    [console.error] calls are left out. *)
Module OpenAI.

(** What the [catch] clause may receive. *)
Inductive Thrown : Type :=
| APIError (status : Z) (message : string)
| PlainError (message : string)
| NotAnError.

(** A [try] body: it returns, or something is thrown. *)
Inductive attempt (A : Type) : Type :=
| Returned (a : A)
| Raised (t : Thrown).
Arguments Returned {A} a.
Arguments Raised {A} t.

Record ChatMessage : Type := mkChatMessage {
  role : string;
  content : string
}.

(** The argument of [openai.chat.completions.create]; the temperature 0.7
    is kept as the fraction 7/10. *)
Record ChatRequest : Type := mkChatRequest {
  model : string;
  messages : list ChatMessage;
  temperature : Z * Z;
  max_tokens : Z
}.

(** [process.env.OPENAI_API_KEY], and the outcome of the completion call:
    [completion.choices[0]?.message?.content] ([None] when there is no
    first choice or no content), or what the call throws. *)
Record Env : Type := mkEnv {
  OPENAI_API_KEY : option string;
  completions_create : ChatRequest -> attempt (option string)
}.

Definition newline : string := String "010"%char "".

Definition KEY_MISSING : string := "OPENAI_API_KEY is not configured".
Definition INPUT_REQUIRED : string := "Message and tone are required".
Definition NO_REPLY : string := "No reply generated from OpenAI".
Definition API_ERROR_PREFIX : string := "OpenAI API error: ".
Definition API_ERROR_SUFFIX : string := ". Please check your API key and try again.".
Definition UNEXPECTED : string :=
  "An unexpected error occurred while generating the reply. Please try again.".

Definition systemPrompt (tone : string) : string :=
  "You are a professional customer support agent for an e-commerce business. Generate a "
    ++ tone ++ " reply to customer reviews following these strict rules:"
    ++ newline ++ newline
    ++ "1. Maximum 60 words - be concise and direct" ++ newline
    ++ "2. Match the review sentiment - if positive, be appreciative; if negative, be empathetic and solution-focused" ++ newline
    ++ "3. Use brand-safe language - professional, respectful, and appropriate for all audiences" ++ newline
    ++ "4. No emojis or special characters" ++ newline
    ++ "5. No promises or commitments unless the review specifically requires a resolution or follow-up action" ++ newline
    ++ "6. Focus on acknowledging the customer's feedback and expressing gratitude or addressing concerns appropriately" ++ newline
    ++ newline
    ++ "Write only the reply text, nothing else.".

Definition userPrompt (message : string) : string :=
  "Customer review: " ++ message.

Definition chat_request (message tone : string) : ChatRequest :=
  mkChatRequest "gpt-3.5-turbo"
                [mkChatMessage "system" (systemPrompt tone);
                 mkChatMessage "user" (userPrompt message)]
                (7, 10)%Z 90%Z.

(** [!s] for a string. *)
Definition empty (s : string) : bool :=
  match s with
  | EmptyString => true
  | String _ _ => false
  end.

(** The body of the [try] block.  [trim] is [String.prototype.trim]. *)
Definition body (trim : string -> string) (env : Env) (message tone : string)
  : attempt string * list ChatRequest :=
  if falsy_string (OPENAI_API_KEY env) then (Raised (PlainError KEY_MISSING), [])
  else if empty message || empty tone then (Raised (PlainError INPUT_REQUIRED), [])
  else
    let request := chat_request message tone in
    match completions_create env request with
    | Raised t => (Raised t, [request])
    | Returned (Some (String _ _ as text)) => (Returned (trim text), [request])
    | Returned _ => (Raised (PlainError NO_REPLY), [request])
    end.

(** The [catch] clause: an API error is wrapped, another error is thrown
    again as it is, anything else becomes the generic error. *)
Definition generateAIReply (trim : string -> string) (env : Env) (message tone : string)
  : result string * list ChatRequest :=
  match body trim env message tone with
  | (Returned text, sent) => (Ok text, sent)
  | (Raised (APIError _ m), sent) =>
      (Throw (API_ERROR_PREFIX ++ m ++ API_ERROR_SUFFIX), sent)
  | (Raised (PlainError m), sent) => (Throw m, sent)
  | (Raised NotAnError, sent) => (Throw UNEXPECTED, sent)
  end.

(** A reference [trim] for the examples: it removes the ASCII white space
    (tab, line feed, vertical tab, form feed, carriage return, space) at
    both ends. *)
Definition is_space (c : ascii) : bool :=
  let n := nat_of_ascii c in
  ((9 <=? n)%nat && (n <=? 13)%nat) || (n =? 32)%nat.

Fixpoint trim_start (s : string) : string :=
  match s with
  | String c rest => if is_space c then trim_start rest else s
  | EmptyString => ""
  end.

Fixpoint trim_end (s : string) : string :=
  match s with
  | EmptyString => ""
  | String c rest =>
      match trim_end rest with
      | EmptyString => if is_space c then "" else String c ""
      | kept => String c kept
      end
  end.

Definition trim_ascii (s : string) : string := trim_end (trim_start s).

End OpenAI.

(** *** The calendar behind [getTodayDateString] *)

(** The date part of [toISOString]: year, month and day of the UTC day. *)
Definition isoDate (t : Z) : string :=
  let '(y, m, d) := JsDate.civil (JsDate.Day t) in
  JsDate.year_string y ++ "-" ++ JsDate.pad 2 m ++ "-" ++ JsDate.pad 2 d.

(** The day number of a calendar date: the inverse of [JsDate.civil]. *)
Definition days_from_civil (ymd : Z * Z * Z) : Z :=
  let '(y, m, d) := ymd in
  let y' := if (m <=? 2)%Z then (y - 1)%Z else y in
  let era := (y' / 400)%Z in
  let yoe := (y' - era * 400)%Z in
  let mp := if (2 <? m)%Z then (m - 3)%Z else (m + 9)%Z in
  let doy := ((153 * mp + 2) / 5 + d - 1)%Z in
  let doe := (yoe * 365 + yoe / 4 - yoe / 100 + doy)%Z in
  (era * 146097 + doe - 719468)%Z.

(** [c] does not occur in [s]. *)
Fixpoint free_of (c : ascii) (s : string) : bool :=
  match s with
  | EmptyString => true
  | String a rest => negb (Ascii.eqb a c) && free_of c rest
  end.

(** 0000-01-01T00:00:00.000Z and 10000-01-01T00:00:00.000Z: between them
    [toISOString] prints the year on four digits. *)
Definition YEAR_0 : Z := (-62167219200000)%Z.
Definition YEAR_10000 : Z := 253402300800000%Z.

Definition in_four_digit_years (t : Z) : Prop := (YEAR_0 <= t < YEAR_10000)%Z.


(** ** Example worlds *)

(** A process running in UTC. *)
Definition utc_zone : Z -> bool -> Z := fun _ _ => 0%Z.

(** A process running in the zone of New York around the end of daylight
    saving time in 2025: four hours behind UTC until
    2025-11-02T06:00:00.000Z, five hours behind from then on.  A local time
    that occurs twice is read with the offset before the change. *)
Definition DST_END : Z := 1762063200000.
Definition msPerHour : Z := 3600000.

Definition new_york_zone : Z -> bool -> Z :=
  fun t isUTC =>
    let change := if isUTC then DST_END else (DST_END - 4 * msPerHour)%Z in
    if (t <? change)%Z then (- 4 * msPerHour)%Z else (- 5 * msPerHour)%Z.

(** 2025-11-02T00:00:00.000Z. *)
Definition example_time : Z := 1762041600000.

(** Every awaited call takes 120 ms. *)
Definition round_trip : Z -> Z := fun t => (t + 120)%Z.

(** A shop with a paid subscription, no usage record yet, an
    authenticated session and an Admin API that answers every call. *)
Definition fresh_shop : World :=
  mkWorld example_time round_trip (fun _ => Ok tt)
          (Ok [mkSubscription PLAN_NAME "ACTIVE" None None])
          (Ok (mkCreateResponse [] (Some "https://admin.shopify.com/confirm")))
          None None
          (Ok (Some "gid://shopify/Shop/1")) (Ok [])
          (fun _ _ => Ok "Thank you for your feedback.")
          [].

(** The same shop with a usage record of an earlier day, over the limit. *)
Definition stale_shop : World :=
  set_metafieldValue
    (Some (UsageJson.stringify (mkDailyUsage 250 "2025-11-01"))) fresh_shop.

(** The same shop when the metafield query throws. *)
Definition unreadable_shop : World :=
  mkWorld example_time round_trip (fun _ => Ok tt)
          (Ok [mkSubscription PLAN_NAME "ACTIVE" None None])
          (Ok (mkCreateResponse [] (Some "https://admin.shopify.com/confirm")))
          (Some "fetch failed") None
          (Ok (Some "gid://shopify/Shop/1")) (Ok [])
          (fun _ _ => Ok "Thank you for your feedback.")
          [].

(** A shop whose plan subscription was accepted [age] days before
    [example_time], with the given trial days. *)
Definition trial_shop (age : Z) (days : option Z) : World :=
  set_activeSubscriptions
    (Ok [mkSubscription PLAN_NAME "ACCEPTED"
           (Some (example_time - age * JsDate.msPerDay)%Z) days])
    fresh_shop.

(** A shop whose plan subscription was accepted but carries no creation
    date. *)
Definition undated_trial_shop : World :=
  set_activeSubscriptions
    (Ok [mkSubscription PLAN_NAME "ACCEPTED" None (Some 14%Z)]) fresh_shop.

(** A shop for which the provider rejects the offer with two user errors. *)
Definition rejected_offer_shop : World :=
  mkWorld example_time round_trip (fun _ => Ok tt) (Ok [])
          (Ok (mkCreateResponse ["Price is too low"; "Return URL is invalid"] None))
          None None
          (Ok (Some "gid://shopify/Shop/1")) (Ok [])
          (fun _ _ => Ok "Thank you for your feedback.")
          [].

(** A shop for which the subscriptions query throws. *)
Definition billing_down_shop : World :=
  set_activeSubscriptions (Throw "billing unavailable") fresh_shop.

Definition example_request : Request :=
  mkRequest "https://example.myshopify.com"
            (Ok (mkFormData (Some "Great product, fast delivery!") (Some "Friendly"))).

(** An OpenAI account that answers every request with the same draft, and
    one whose API rejects the key. *)
Definition answering_openai : OpenAI.Env :=
  OpenAI.mkEnv (Some "sk-test")
    (fun _ => OpenAI.Returned (Some "  Thank you for your feedback. ")).

Definition rejecting_openai : OpenAI.Env :=
  OpenAI.mkEnv (Some "sk-test")
    (fun _ => OpenAI.Raised (OpenAI.APIError 401 "Incorrect API key provided")).


(** The shop with a record of today one short of the limit. *)
Definition counting_shop : World :=
  set_metafieldValue
    (Some (UsageJson.stringify (mkDailyUsage 99 "2025-11-02"))) fresh_shop.

(** The shop without any subscription; the provider accepts the offer. *)
Definition no_plan_shop : World := set_activeSubscriptions (Ok []) fresh_shop.

(** The shop listing another app's plan, then a cancelled subscription of
    the plan, then an active one. *)
Definition shadowed_shop : World :=
  set_activeSubscriptions
    (Ok [mkSubscription "other_plan" "ACTIVE" None None;
         mkSubscription PLAN_NAME "CANCELLED" None None;
         mkSubscription PLAN_NAME "ACTIVE" None None])
    fresh_shop.

(** The shop when the generation fails. *)
Definition failing_generation_shop : World :=
  mkWorld example_time round_trip (fun _ => Ok tt)
          (Ok [mkSubscription PLAN_NAME "ACTIVE" None None])
          (Ok (mkCreateResponse [] (Some "https://admin.shopify.com/confirm")))
          None None
          (Ok (Some "gid://shopify/Shop/1")) (Ok [])
          (fun _ _ => Throw "No reply generated from OpenAI")
          [].

(** A request whose form carries no tone. *)
Definition incomplete_request : Request :=
  mkRequest "https://example.myshopify.com"
            (Ok (mkFormData (Some "Great product, fast delivery!") None)).

(** A request whose body is not a form. *)
Definition json_request : Request :=
  mkRequest "https://example.myshopify.com"
            (Throw "Could not parse content as FormData.").

(** The shop when the session of the request is not valid. *)
Definition signed_out_shop : World :=
  set_authentication (fun _ => Throw "302 /auth/login") fresh_shop.

(** A shop whose plan subscription was accepted, with 14 trial days,
    exactly [age] days before the resolver reads the clock. *)
Definition exact_trial_shop (age : Z) : World :=
  set_activeSubscriptions
    (Ok [mkSubscription PLAN_NAME "ACCEPTED"
           (Some (resolver_now fresh_shop - age * JsDate.msPerDay)%Z) (Some 14%Z)])
    fresh_shop.

(** 2025-10-30T16:00:00.000Z, noon in New York, three days before the end
    of daylight saving time; and a shop whose plan subscription was
    accepted, with 14 trial days, exactly five days before the resolver
    reads the clock at that time. *)
Definition autumn_time : Z := 1761840000000.

Definition autumn_trial_shop : World :=
  set_clock (autumn_time - 120)%Z
    (set_activeSubscriptions
       (Ok [mkSubscription PLAN_NAME "ACCEPTED"
              (Some (autumn_time - 5 * JsDate.msPerDay)%Z) (Some 14%Z)])
       fresh_shop).

(** The shop with no usage record, a tenth of a second before the UTC
    midnight that starts 2025-11-02. *)
Definition late_evening_shop : World := set_clock (example_time - 100)%Z fresh_shop.


Section Engine.

(** [JSON.parse] and [JSON.stringify] at the type the source gives them,
    [DailyUsage].  [JSON_parse s = None] when [JSON.parse(s)] throws (the
    source catches it and answers null) or yields null. *)
Variable JSON_parse : string -> option DailyUsage.
Variable JSON_stringify : DailyUsage -> string.

(** The local time zone adjustment of the process, in milliseconds:
    [LocalTZA t true] for a UTC time value, [LocalTZA t false] for a local
    one. *)
Variable LocalTZA : Z -> bool -> Z.

(** *** usage.server.ts *)

Definition getTodayDateString : M string :=
  now <- Date_now ;;
  ret (todayDateString now).

Definition getDailyUsage : M (option DailyUsage) :=
  value <- query_getShopMetafield ;;
  match value with
  | Some (String _ _ as text) => ret (JSON_parse text)
  | _ => ret None
  end.

Definition getShopId : M string :=
  id <- query_getShopId ;;
  match id with
  | Some (String _ _ as shop) => ret shop
  | _ => throw NO_SHOP_ID
  end.

Definition saveDailyUsage (usage : DailyUsage) : M unit :=
  _ <- getShopId ;;
  errors <- mutation_metafieldsSet (JSON_stringify usage) ;;
  if (0 <? length errors)%nat then
    throw (SAVE_FAILED_PREFIX ++ join ", " errors)
  else ret tt.

Definition getCurrentUsageCount : M nat :=
  today <- getTodayDateString ;;
  currentUsage <- getDailyUsage ;;
  match currentUsage with
  | None => ret 0%nat
  | Some usage =>
      if negb (date usage =? today) then ret 0%nat
      else ret (count usage)
  end.

Definition checkAndIncrementUsage : M UsageDecision :=
  today <- getTodayDateString ;;
  currentUsage <- getDailyUsage ;;
  let resetUsage :=
    _ <- saveDailyUsage (mkDailyUsage 1 today) ;;
    ret (mkDecision true 1) in
  match currentUsage with
  | None => resetUsage
  | Some usage =>
      if negb (date usage =? today) then resetUsage
      else if (DAILY_LIMIT <=? count usage)%nat then
        ret (mkDecision false (count usage))
      else
        let updatedUsage := mkDailyUsage (count usage + 1) today in
        _ <- saveDailyUsage updatedUsage ;;
        ret (mkDecision true (count updatedUsage))
  end.

(** *** billing.server.ts *)

Definition createSubscription (returnUrl : string) : M string :=
  response <- mutation_appSubscriptionCreate PLAN_NAME PLAN_TRIAL_DAYS returnUrl ;;
  if (0 <? length (userErrors response))%nat then
    throw (CREATE_FAILED_PREFIX ++ join ", " (userErrors response))
  else
    match confirmationUrl response with
    | Some (String _ _ as url) => ret url
    | _ => throw NO_CONFIRMATION_URL
    end.

Definition LocalTime (t : Z) : Z := (t + LocalTZA t true)%Z.
Definition UTC (t : Z) : Z := (t - LocalTZA t false)%Z.

(** [d.setDate(d.getDate() + n)] on the time value of [d]: the local
    calendar date moves by [n] days and the local time of day is kept; a
    date that leaves the range of time values becomes an Invalid Date. *)
Definition setDate_plus (t n : Z) : option Z :=
  JsDate.TimeClip (UTC (LocalTime t + n * JsDate.msPerDay)%Z).

(** The zone has the same offset from UTC at [t] and, [n] days later, at
    the same local time. *)
Definition same_offset (t n : Z) : Prop :=
  LocalTZA t true = LocalTZA (LocalTime t + n * JsDate.msPerDay)%Z false.

(** No offset from UTC exceeds a day (those in use lie between 12 hours
    behind and 14 hours ahead). *)
Definition offsets_within_a_day : Prop :=
  forall (t : Z) (b : bool), (Z.abs (LocalTZA t b) <= JsDate.msPerDay)%Z.

Definition checkActiveSubscription : M EntitlementState :=
  subscriptions <- query_activeSubscriptions ;;
  match find (fun sub => name sub =? PLAN_NAME) subscriptions with
  | None => ret (mkEntitlement false false None)
  | Some subscription =>
      if status subscription =? "ACTIVE" then
        ret (mkEntitlement true false None)
      else if (status subscription =? "ACCEPTED")
              || (status subscription =? "TRIAL") then
        match createdAt subscription with
        | None => ret (mkEntitlement true true None)
        | Some created =>
            let days := or_default (trialDays subscription) DEFAULT_TRIAL_DAYS in
            let trialEndDate := setDate_plus created days in
            now <- Date_now ;;
            match trialEndDate with
            | Some trialEnd =>
                if (now <=? trialEnd)%Z then
                  ret (mkEntitlement true true
                         (Some (JsDate.ceil_div (trialEnd - now) JsDate.msPerDay)))
                else ret (mkEntitlement false false None)
            | None =>
                (* [now <= trialEndDate] is false for an Invalid Date *)
                ret (mkEntitlement false false None)
            end
        end
      else ret (mkEntitlement false false None)
  end.

(** *** routes/app._index.tsx *)

Definition loader (request : Request) : M LoaderData :=
  let development_access :=
    try_catch
      (usage <- getCurrentUsageCount ;;
       ret (mkLoaderData true None usage false None))
      (fun _ => ret (mkLoaderData true None 0 false None)) in
  _ <- authenticate_admin request ;;
  try_catch
    (subscriptionStatus <- checkActiveSubscription ;;
     if negb (hasAccess subscriptionStatus) then
       try_catch
         (let returnUrl := origin request ++ "/app" in
          url <- createSubscription returnUrl ;;
          ret (mkLoaderData false (Some url) 0 false None))
         (fun _ => development_access)
     else
       try_catch
         (usage <- getCurrentUsageCount ;;
          ret (mkLoaderData true None usage
                 (isTrial subscriptionStatus) (daysRemaining subscriptionStatus)))
         (fun _ =>
            ret (mkLoaderData true None 0
                   (isTrial subscriptionStatus) (daysRemaining subscriptionStatus))))
    (fun _ => development_access).

(** A [return] inside a [try] block leaves the handler: the block yields
    [Some data] for it and [None] to fall through. *)
Definition action (request : Request) : M ActionData :=
  _ <- authenticate_admin request ;;
  early <- try_catch
             (subscriptionStatus <- checkActiveSubscription ;;
              if negb (hasAccess subscriptionStatus) then
                ret (Some (mkActionData "" (Some SUBSCRIPTION_REQUIRED)))
              else ret None)
             (fun _ => ret None) ;;
  match early with
  | Some data => ret data
  | None =>
      form <- request_formData request ;;
      match get_message form, get_tone form with
      | Some (String _ _ as message), Some (String _ _ as tone) =>
          early <- try_catch
                     (usageResult <- checkAndIncrementUsage ;;
                      if negb (allowed usageResult) then
                        ret (Some (mkActionData "" (Some LIMIT_REACHED)))
                      else ret None)
                     (fun _ => ret (Some (mkActionData "" (Some USAGE_CHECK_FAILED)))) ;;
          match early with
          | Some data => ret data
          | None =>
              try_catch
                (text <- generateAIReply message tone ;;
                 ret (mkActionData text None))
                (fun e => ret (mkActionData "" (Some e)))
          end
      | _, _ => ret (mkActionData "" (Some FIELDS_REQUIRED))
      end
  end.

(** *** Runs of the usage counter *)

(** The record [getDailyUsage] finds in the store. *)
Definition stored_record (w : World) : option DailyUsage :=
  match metafieldValue w with
  | Some (String _ _ as text) => JSON_parse text
  | _ => None
  end.

(** Sequential calls of [checkAndIncrementUsage], the k-th one made when
    the clock reads the k-th time of the list. *)
Fixpoint calls_at (times : list Z) (w : World)
  : list (result UsageDecision) * World :=
  match times with
  | [] => ([], w)
  | t :: rest =>
      let (r, w1) := checkAndIncrementUsage (set_clock t w) in
      let (rs, w2) := calls_at rest w1 in
      (r :: rs, w2)
  end.

(** Worlds reached from an empty store by calls of
    [checkAndIncrementUsage], with the worlds in which those calls began
    (newest first); between two calls the environment may move the clock
    and change how long calls take and how the Admin API answers, but only
    a call writes the store or the log. *)
Inductive reached : list World -> World -> Prop :=
| reach_init (w : World) :
    metafieldValue w = None -> trace w = [] -> reached [] w
| reach_env (starts : list World) (w w' : World) :
    reached starts w ->
    metafieldValue w' = metafieldValue w -> trace w' = trace w ->
    reached starts w'
| reach_call (starts : list World) (w : World) :
    reached starts w -> reached (w :: starts) (snd (checkAndIncrementUsage w)).

(** The three ways [saveDailyUsage] ends: the shop id does not resolve, the
    mutation fails, or the value is stored. *)
Definition save_outcome (usage : DailyUsage) (w : World) : result unit * World :=
  let text := JSON_stringify usage in
  let w1 := add_event EvShopIdQuery w in
  match shopId w with
  | Ok (Some (String _ _)) =>
      match metafieldsSetErrors w with
      | Ok [] =>
          (Ok tt, set_metafieldValue (Some text)
                    (add_event (EvMetafieldsSet (clock w1) text true) w1))
      | Ok errors =>
          (Throw (SAVE_FAILED_PREFIX ++ join ", " errors),
           add_event (EvMetafieldsSet (clock w1) text false) w1)
      | Throw e => (Throw e, add_event (EvMetafieldsSet (clock w1) text false) w1)
      end
  | Ok _ => (Throw NO_SHOP_ID, w1)
  | Throw e => (Throw e, w1)
  end.

(** A write of [usage] followed, when it succeeds, by the answer
    allowed with its count. *)
Definition save_and_allow (usage : DailyUsage) (w : World)
  : result UsageDecision * World :=
  match save_outcome usage w with
  | (Ok _, w') => (Ok (mkDecision true (count usage)), w')
  | (Throw e, w') => (Throw e, w')
  end.

(** The world after a stored write of [usage] that follows the read. *)
Definition after_write (usage : DailyUsage) (w : World) : World :=
  set_metafieldValue (Some (JSON_stringify usage))
    (add_event (EvMetafieldsSet (write_time w) (JSON_stringify usage) true)
       (add_event EvShopIdQuery (add_event EvMetafieldQuery w))).

(** The store of a healthy world after [n] calls made on [day], starting
    from no record. *)
Definition counter_state (n : nat) (day : string) (w : World) : Prop :=
  read_ok w = true /\ write_ok w = true /\
  stored_record w =
    match n with
    | O => None
    | S _ => Some (mkDailyUsage (Nat.min n DAILY_LIMIT) day)
    end.

(** A value handed to metafieldsSet at time [t] by a call begun in [w0] is
    the text of a record with a count in 1..[DAILY_LIMIT], dated the day
    on which the call began; [t] is the time at which that call sends its
    write. *)
Definition good_write (w0 : World) (t : Z) (v : string) : Prop :=
  exists u, v = JSON_stringify u
            /\ (1 <= count u <= DAILY_LIMIT)%nat
            /\ date u = todayDateString (clock w0)
            /\ t = write_time w0.

(** Every logged write is a good one of a call made, and the store holds
    what the newest accepted write put there. *)
Definition store_invariant (starts : list World) (w : World) : Prop :=
  (forall t v b, In (EvMetafieldsSet t v b) (trace w) ->
     exists w0, In w0 starts /\ good_write w0 t v)
  /\ metafieldValue w = option_map snd (last_stored_write (trace w)).

(** The classification [checkActiveSubscription] computes from the
    subscription it selected and the time it reads. *)
Definition entitlement_of (now : Z) (selected : option Subscription)
  : EntitlementState :=
  match selected with
  | None => mkEntitlement false false None
  | Some subscription =>
      if status subscription =? "ACTIVE" then mkEntitlement true false None
      else if (status subscription =? "ACCEPTED")
              || (status subscription =? "TRIAL") then
        match createdAt subscription with
        | None => mkEntitlement true true None
        | Some created =>
            match setDate_plus created
                    (or_default (trialDays subscription) DEFAULT_TRIAL_DAYS) with
            | Some trialEnd =>
                if (now <=? trialEnd)%Z then
                  mkEntitlement true true
                    (Some (JsDate.ceil_div (trialEnd - now) JsDate.msPerDay))
                else mkEntitlement false false None
            | None => mkEntitlement false false None
            end
        end
      else mkEntitlement false false None
  end.

(** The subscription the resolver selects: the first one named
    [PLAN_NAME]. *)
Definition selected_subscription (subscriptions : list Subscription)
  : option Subscription :=
  find (fun sub => name sub =? PLAN_NAME) subscriptions.

(** The form fields when both are present and non-empty. *)
Definition form_fields (request : Request) : option (string * string) :=
  match formMessage request, formTone request with
  | Some (String _ _ as message), Some (String _ _ as tone) => Some (message, tone)
  | _, _ => None
  end.

(** The last step of [action]: the generation call and the answer built
    from its outcome. *)
Definition generation_step (message tone : string) (w : World)
  : result ActionData * World :=
  (Ok (match generation w message tone with
       | Ok text => mkActionData text None
       | Throw e => mkActionData "" (Some e)
       end),
   add_event (EvGenerate message tone) w).

(** [action] from the reading of the form on: the form validation, the
    usage gate, then the generation. *)
Definition counter_gate (request : Request) (w : World)
  : result ActionData * World :=
  match formData request with
  | Throw e => (Throw e, tick w)
  | Ok _ =>
      match form_fields request with
      | None => (Ok (mkActionData "" (Some FIELDS_REQUIRED)), tick w)
      | Some (message, tone) =>
          match checkAndIncrementUsage (tick w) with
          | (Ok decision, w') =>
              if allowed decision then generation_step message tone w'
              else (Ok (mkActionData "" (Some LIMIT_REACHED)), w')
          | (Throw _, w') => (Ok (mkActionData "" (Some USAGE_CHECK_FAILED)), w')
          end
      end
  end.

(** The worlds a handler goes through: the one in which its body starts,
    when [authenticate.admin] has returned, and, for the action, the one
    in which the usage counter is called, when the subscription check has
    answered and the form has been read. *)
Definition authenticated (w : World) : World := tick w.

Definition form_read (request : Request) (w : World) : World :=
  snd (request_formData request (snd (checkActiveSubscription (authenticated w)))).

(** [action] once [authenticate.admin] has returned: the subscription
    gate, then the rest. *)
Definition action_body (request : Request) (w0 : World)
  : result ActionData * World :=
  let w1 := add_event EvActiveSubscriptions w0 in
  match fst (checkActiveSubscription w0) with
  | Ok st =>
      if hasAccess st then counter_gate request w1
      else (Ok (mkActionData "" (Some SUBSCRIPTION_REQUIRED)), w1)
  | Throw _ => counter_gate request w1
  end.

(** The loader's answer for a shop it lets in: the usage count when the
    counter can be read, 0 when reading it throws. *)
Definition peek_data (trial : bool) (days : option Z) (w : World)
  : result LoaderData * World :=
  (Ok (mkLoaderData true None
         (match fst (getCurrentUsageCount w) with
          | Ok n => n
          | Throw _ => 0%nat
          end) trial days),
   add_event EvMetafieldQuery w).

(** [loader] once [authenticate.admin] has returned. *)
Definition loader_body (request : Request) (w0 : World)
  : result LoaderData * World :=
  let w1 := add_event EvActiveSubscriptions w0 in
  match fst (checkActiveSubscription w0) with
  | Ok st =>
      if hasAccess st then peek_data (isTrial st) (daysRemaining st) w1
      else
        match createSubscription (origin request ++ "/app") w1 with
        | (Ok url, w2) => (Ok (mkLoaderData false (Some url) 0 false None), w2)
        | (Throw _, w2) => peek_data false None w2
        end
  | Throw _ => peek_data false None w1
  end.

(** Today's stored record has reached the limit: the one case in which
    [checkAndIncrementUsage] reads without writing. *)
Definition at_limit_today (w : World) : Prop :=
  exists u, stored_record w = Some u
            /\ date u = todayDateString (clock w)
            /\ (DAILY_LIMIT <= count u)%nat.

(** ** Properties *)

(** JSON round trip on usage records, and the text of a record is not the
    empty string (it starts with a brace). *)
Hypothesis JSON_roundtrip :
  forall u : DailyUsage, JSON_parse (JSON_stringify u) = Some u.
Hypothesis JSON_stringify_nonempty :
  forall u : DailyUsage, JSON_stringify u <> "".

(** The process runs in a zone with a fixed offset from UTC (no daylight
    saving change), as a server set to UTC does. *)
Variable zoneOffset : Z.
Hypothesis LocalTZA_fixed : forall (t : Z) (b : bool), LocalTZA t b = zoneOffset.

(** *** Logs only grow *)

Lemma since_extends (w w' : World) (new : list Event) :
  trace w' = (new ++ trace w)%list -> since w w' = new.
Proof.
  intros H. unfold since. rewrite H, length_app.
  replace (length new + length (trace w) - length (trace w))%nat
    with (length new + 0)%nat by lia.
  rewrite firstn_app_2. simpl. apply app_nil_r.
Qed.

(** *** What each function of usage.server.ts does to the world *)

Lemma getDailyUsage_run (w : World) :
  getDailyUsage w =
    (match metafieldQueryError w with
     | Some e => Throw e
     | None => Ok (stored_record w)
     end, add_event EvMetafieldQuery w).
Proof.
  unfold getDailyUsage, bind, query_getShopMetafield, stored_record, ret.
  destruct (metafieldQueryError w); [reflexivity|].
  destruct (metafieldValue w) as [[|c text]|]; reflexivity.
Qed.

Lemma saveDailyUsage_run (usage : DailyUsage) (w : World) :
  saveDailyUsage usage w = save_outcome usage w.
Proof.
  unfold saveDailyUsage, save_outcome, getShopId, bind, query_getShopId,
    mutation_metafieldsSet, throw, ret.
  destruct (shopId w) as [[[|c id]|]|e]; simpl; try reflexivity.
  destruct (metafieldsSetErrors w) as [[|m errors]|e]; reflexivity.
Qed.

Lemma check_read_throws (w : World) (e : string) :
  metafieldQueryError w = Some e ->
  checkAndIncrementUsage w = (Throw e, add_event EvMetafieldQuery w).
Proof.
  intros H. unfold checkAndIncrementUsage, getTodayDateString, Date_now, bind, ret.
  rewrite getDailyUsage_run, H. reflexivity.
Qed.

Lemma check_reset (w : World) :
  metafieldQueryError w = None ->
  (stored_record w = None \/
   exists u, stored_record w = Some u /\ date u <> todayDateString (clock w)) ->
  checkAndIncrementUsage w =
    save_and_allow (mkDailyUsage 1 (todayDateString (clock w)))
      (add_event EvMetafieldQuery w).
Proof.
  intros Hr Hs.
  unfold checkAndIncrementUsage, getTodayDateString, Date_now, bind, ret, save_and_allow.
  rewrite getDailyUsage_run, Hr.
  destruct Hs as [Hs | [u [Hs Hd]]]; rewrite Hs.
  - rewrite saveDailyUsage_run.
    destruct (save_outcome _ _) as [[[]|e] w']; reflexivity.
  - apply String.eqb_neq in Hd. rewrite Hd. cbn [negb].
    rewrite saveDailyUsage_run.
    destruct (save_outcome _ _) as [[[]|e] w']; reflexivity.
Qed.

Lemma check_deny (w : World) (u : DailyUsage) :
  metafieldQueryError w = None ->
  stored_record w = Some u -> date u = todayDateString (clock w) ->
  (DAILY_LIMIT <= count u)%nat ->
  checkAndIncrementUsage w =
    (Ok (mkDecision false (count u)), add_event EvMetafieldQuery w).
Proof.
  intros Hr Hs Hd Hc.
  unfold checkAndIncrementUsage, getTodayDateString, Date_now, bind, ret.
  rewrite getDailyUsage_run, Hr, Hs.
  apply String.eqb_eq in Hd. rewrite Hd. cbn [negb].
  apply Nat.leb_le in Hc. rewrite Hc. reflexivity.
Qed.

Lemma check_increment (w : World) (u : DailyUsage) :
  metafieldQueryError w = None ->
  stored_record w = Some u -> date u = todayDateString (clock w) ->
  (count u < DAILY_LIMIT)%nat ->
  checkAndIncrementUsage w =
    save_and_allow (mkDailyUsage (count u + 1) (todayDateString (clock w)))
      (add_event EvMetafieldQuery w).
Proof.
  intros Hr Hs Hd Hc.
  unfold checkAndIncrementUsage, getTodayDateString, Date_now, bind, ret, save_and_allow.
  rewrite getDailyUsage_run, Hr, Hs.
  apply String.eqb_eq in Hd. rewrite Hd. cbn [negb].
  apply Nat.leb_gt in Hc. rewrite Hc.
  rewrite saveDailyUsage_run.
  destruct (save_outcome _ _) as [[[]|e] w']; reflexivity.
Qed.

Lemma save_and_allow_ok (usage : DailyUsage) (w : World) :
  write_ok w = true ->
  save_and_allow usage (add_event EvMetafieldQuery w) =
    (Ok (mkDecision true (count usage)), after_write usage w).
Proof.
  unfold write_ok, save_and_allow, save_outcome, after_write. simpl.
  destruct (shopId w) as [[[|c id]|]|e]; try discriminate.
  destruct (metafieldsSetErrors w) as [[|m errors]|e]; try discriminate.
  reflexivity.
Qed.

Lemma stored_record_after_write (usage : DailyUsage) (w : World) :
  stored_record (after_write usage w) = Some usage.
Proof.
  unfold stored_record, after_write. simpl.
  destruct (JSON_stringify usage) eqn:E.
  - now apply JSON_stringify_nonempty in E.
  - rewrite <- E. apply JSON_roundtrip.
Qed.

Lemma stored_record_set_clock (t : Z) (w : World) :
  stored_record (set_clock t w) = stored_record w.
Proof. reflexivity. Qed.

(** *** Sequential calls within one day *)

Lemma read_ok_None (w : World) : read_ok w = true -> metafieldQueryError w = None.
Proof. unfold read_ok. now destruct (metafieldQueryError w). Qed.

Lemma decision_at_allowed (k : nat) :
  (k <= DAILY_LIMIT)%nat -> decision_at k = mkDecision true k.
Proof. intros H. unfold decision_at. apply Nat.leb_le in H. now rewrite H. Qed.

Lemma decision_at_denied (k : nat) :
  (DAILY_LIMIT < k)%nat -> decision_at k = mkDecision false DAILY_LIMIT.
Proof. intros H. unfold decision_at. apply Nat.leb_gt in H. now rewrite H. Qed.

Lemma counter_state_after_write (n : nat) (day : string) (usage : DailyUsage) (w : World) :
  read_ok w = true -> write_ok w = true ->
  usage = mkDailyUsage (Nat.min (S n) DAILY_LIMIT) day ->
  counter_state (S n) day (after_write usage w).
Proof.
  intros Hr Hw ->. repeat split; try assumption.
  apply stored_record_after_write.
Qed.

Lemma call_step (n : nat) (day : string) (t : Z) (w : World) :
  counter_state n day w -> todayDateString t = day ->
  exists w',
    checkAndIncrementUsage (set_clock t w) = (Ok (decision_at (S n)), w')
    /\ counter_state (S n) day w'
    /\ (exists new, trace w' = (new ++ trace w)%list
          /\ count_events is_counter_write new
             = (Nat.min (S n) DAILY_LIMIT - Nat.min n DAILY_LIMIT)%nat)
    /\ ((DAILY_LIMIT <= n)%nat -> w' = add_event EvMetafieldQuery (set_clock t w)).
Proof.
  intros (Hr & Hw & Hs) Ht.
  assert (Hq : metafieldQueryError (set_clock t w) = None)
    by (apply read_ok_None; exact Hr).
  assert (Hc : clock (set_clock t w) = t) by reflexivity.
  destruct n as [|n].
  - (* first call of the day: no record *)
    exists (after_write (mkDailyUsage 1 day) (set_clock t w)).
    rewrite check_reset; [| exact Hq | left; exact Hs].
    rewrite Hc, Ht, save_and_allow_ok by exact Hw.
    split; [reflexivity|]. split; [|split].
    + apply (counter_state_after_write 0); auto.
    + eexists [_; _; _]. split; reflexivity.
    + unfold DAILY_LIMIT. lia.
  - destruct (Nat.lt_ge_cases (S n) DAILY_LIMIT) as [Hlt | Hge].
    + (* below the limit: increment *)
      assert (Hmin : Nat.min (S n) DAILY_LIMIT = S n) by lia.
      rewrite Hmin in Hs.
      exists (after_write (mkDailyUsage (S n + 1) day) (set_clock t w)).
      rewrite (check_increment _ _ Hq Hs); [| simpl; congruence | exact Hlt].
      rewrite Hc, Ht, save_and_allow_ok by exact Hw.
      cbn [count]. replace (S n + 1)%nat with (S (S n)) by lia.
      rewrite decision_at_allowed by lia.
      split; [reflexivity|]. split; [|split].
      * apply counter_state_after_write; auto. f_equal. lia.
      * eexists [_; _; _]. split; [reflexivity|].
        unfold count_events. cbn [filter is_counter_write length]. lia.
      * lia.
    + (* at the limit: denied, nothing written *)
      assert (Hmin : Nat.min (S n) DAILY_LIMIT = DAILY_LIMIT) by lia.
      rewrite Hmin in Hs.
      exists (add_event EvMetafieldQuery (set_clock t w)).
      rewrite (check_deny _ _ Hq Hs); [| simpl; congruence | simpl; lia].
      cbn [count]. rewrite decision_at_denied by lia.
      split; [reflexivity|]. split; [|split].
      * split; [exact Hr|]. split; [exact Hw|].
        change (stored_record (add_event EvMetafieldQuery (set_clock t w)))
          with (stored_record w).
        rewrite Hs. f_equal. f_equal. lia.
      * eexists [_]. split; [reflexivity|].
        unfold count_events. cbn [filter is_counter_write length]. lia.
      * reflexivity.
Qed.

Lemma calls_at_run (times : list Z) :
  forall (n : nat) (day : string) (w : World),
    counter_state n day w ->
    Forall (fun t => todayDateString t = day) times ->
    fst (calls_at times w)
      = map (fun k => Ok (decision_at k)) (seq (S n) (length times))
    /\ counter_state (n + length times) day (snd (calls_at times w))
    /\ exists new,
         trace (snd (calls_at times w)) = (new ++ trace w)%list
         /\ count_events is_counter_write new
            = (Nat.min (n + length times) DAILY_LIMIT - Nat.min n DAILY_LIMIT)%nat.
Proof.
  induction times as [|t rest IH]; intros n day w Hst Hday.
  - cbn [calls_at fst snd length seq map]. rewrite Nat.add_0_r.
    split; [reflexivity|]. split; [exact Hst|].
    exists []. split; [reflexivity|]. cbn. lia.
  - inversion Hday as [|t0 rest0 Ht Hrest]; subst.
    destruct (call_step n _ t w Hst eq_refl) as (w1 & Hrun & Hst1 & (new1 & Htr1 & Hcnt1) & _).
    destruct (IH (S n) _ w1 Hst1 Hrest) as (Hres & Hst2 & (new2 & Htr2 & Hcnt2)).
    cbn [calls_at]. rewrite Hrun.
    destruct (calls_at rest w1) as [rs w2] eqn:E.
    cbn [fst snd] in *. cbn [length seq map].
    split; [now rewrite Hres|]. split.
    + now replace (n + S (length rest))%nat with (S n + length rest)%nat by lia.
    + exists (new2 ++ new1)%list. split.
      * now rewrite Htr2, Htr1, app_assoc.
      * unfold count_events in *. rewrite filter_app, length_app, Hcnt1, Hcnt2.
        replace (n + S (length rest))%nat with (S n + length rest)%nat by lia.
        lia.
Qed.

Lemma getCurrentUsageCount_run (w : World) :
  getCurrentUsageCount w =
    (match metafieldQueryError w with
     | Some e => Throw e
     | None =>
         Ok (match stored_record w with
             | Some usage =>
                 if date usage =? todayDateString (clock w) then count usage
                 else 0%nat
             | None => 0%nat
             end)
     end, add_event EvMetafieldQuery w).
Proof.
  unfold getCurrentUsageCount, getTodayDateString, Date_now, bind, ret.
  rewrite getDailyUsage_run.
  destruct (metafieldQueryError w); [reflexivity|].
  destruct (stored_record w) as [u|]; [|reflexivity].
  now destruct (date u =? todayDateString (clock w)).
Qed.

(** C1. Starting a day with no stored usage record, on a store whose reads
    and writes succeed, N sequential calls of [checkAndIncrementUsage] made
    on that day answer allowed with counts 1, 2, ... while the count is at
    most [DAILY_LIMIT], and denied with count [DAILY_LIMIT] afterwards
    ([decision_at]); the log holds min N [DAILY_LIMIT] writes, and a call
    made after [DAILY_LIMIT] calls only reads: it leaves the world as it
    was but for that read; after the first call [getCurrentUsageCount]
    answers 1. *)
Theorem sequential_calls_within_a_day :
  forall (w : World) (day : string) (times : list Z),
    read_ok w = true -> write_ok w = true -> stored_record w = None ->
    Forall (fun t => todayDateString t = day) times ->
    fst (calls_at times w)
      = map (fun k => Ok (decision_at k)) (seq 1 (length times))
    /\ count_events is_counter_write (since w (snd (calls_at times w)))
       = Nat.min (length times) DAILY_LIMIT
    /\ (forall pre t post,
          times = (pre ++ t :: post)%list -> (DAILY_LIMIT <= length pre)%nat ->
          checkAndIncrementUsage (set_clock t (snd (calls_at pre w)))
            = (Ok (mkDecision false DAILY_LIMIT),
               add_event EvMetafieldQuery (set_clock t (snd (calls_at pre w)))))
    /\ (forall t rest t',
          times = t :: rest -> todayDateString t' = day ->
          fst (getCurrentUsageCount
                 (set_clock t' (snd (checkAndIncrementUsage (set_clock t w)))))
            = Ok 1%nat).
Proof.
  intros w day times Hr Hw Hs Hday.
  assert (H0 : counter_state 0 day w) by (repeat split; assumption).
  destruct (calls_at_run times 0 day w H0 Hday) as (Hres & _ & (new & Htr & Hcnt)).
  split; [exact Hres|]. split; [|split].
  - rewrite (since_extends _ _ _ Htr), Hcnt. cbn [Nat.add]. unfold DAILY_LIMIT. lia.
  - intros pre t post -> Hlen.
    apply Forall_app in Hday. destruct Hday as [Hpre Hpost].
    inversion Hpost as [|t0 rest0 Ht _]; subst.
    destruct (calls_at_run pre 0 _ w H0 Hpre) as (_ & Hstk & _).
    destruct (call_step _ _ t _ Hstk eq_refl) as (w1 & Hrun & _ & _ & Hsame).
    rewrite Hrun, decision_at_denied by (cbn [Nat.add]; lia).
    rewrite Hsame by (cbn [Nat.add]; lia). reflexivity.
  - intros t rest t' -> Ht'.
    assert (Ht : todayDateString t = day) by (now inversion Hday).
    destruct (call_step 0 _ t w H0 Ht) as (w1 & Hrun & (Hr1 & _ & Hs1) & _).
    rewrite Hrun. cbn [snd].
    rewrite getCurrentUsageCount_run. cbn [fst].
    change (metafieldQueryError (set_clock t' w1)) with (metafieldQueryError w1).
    rewrite (read_ok_None _ Hr1).
    rewrite stored_record_set_clock, Hs1. cbn [date count clock set_clock].
    rewrite Ht', String.eqb_refl. reflexivity.
Qed.

(** *** First use and daily reset *)

Lemma save_and_allow_bind (usage : DailyUsage) (w : World) :
  save_and_allow usage w
    = (_ <- saveDailyUsage usage ;; ret (mkDecision true (count usage))) w.
Proof.
  unfold save_and_allow, bind, ret. rewrite saveDailyUsage_run.
  destruct (save_outcome usage w) as [[[]|e] w']; reflexivity.
Qed.

(** C5. When the metafield query answers and the stored value is absent,
    empty, fails to parse, or parses to a record of another day, whatever
    its count, [getDailyUsage] answers without throwing and
    [checkAndIncrementUsage] does exactly this: it saves the fresh record
    of count 1 dated today and answers allowed with count 1.  Where the
    write goes through, the store then holds that fresh record. *)
Theorem stale_or_missing_record_resets :
  forall (w : World),
    metafieldQueryError w = None ->
    (metafieldValue w = None
     \/ metafieldValue w = Some ""
     \/ (exists text, metafieldValue w = Some text /\ JSON_parse text = None)
     \/ (exists text u,
           metafieldValue w = Some text /\ text <> ""
           /\ JSON_parse text = Some u
           /\ date u <> todayDateString (clock w))) ->
    let fresh := mkDailyUsage 1 (todayDateString (clock w)) in
    (exists found, fst (getDailyUsage w) = Ok found)
    /\ checkAndIncrementUsage w
       = (_ <- saveDailyUsage fresh ;; ret (mkDecision true 1))
           (add_event EvMetafieldQuery w)
    /\ (write_ok w = true ->
        fst (checkAndIncrementUsage w) = Ok (mkDecision true 1)
        /\ metafieldValue (snd (checkAndIncrementUsage w))
           = Some (JSON_stringify fresh)
        /\ stored_record (snd (checkAndIncrementUsage w)) = Some fresh).
Proof.
  intros w Hq Hv fresh.
  assert (Hs : stored_record w = None \/
               exists u, stored_record w = Some u
                         /\ date u <> todayDateString (clock w)).
  { unfold stored_record.
    destruct Hv as [Hv | [Hv | [(text & Hv & Hp) | (text & u & Hv & Hne & Hp & Hd)]]];
      rewrite Hv.
    - now left.
    - now left.
    - left. now destruct text.
    - right. exists u. destruct text; [congruence|]. now split. }
  split; [|split].
  - rewrite getDailyUsage_run, Hq. now eexists.
  - rewrite (check_reset w Hq Hs). apply (save_and_allow_bind fresh).
  - intros Hw. rewrite (check_reset w Hq Hs), (save_and_allow_ok _ _ Hw).
    cbn [fst snd]. split; [reflexivity|]. split; [reflexivity|].
    apply stored_record_after_write.
Qed.

(** *** What a call does to the store *)

Lemma last_stored_write_In (es : list Event) (t : Z) (v : string) :
  last_stored_write es = Some (t, v) -> In (EvMetafieldsSet t v true) es.
Proof.
  induction es as [|e es IH]; [discriminate|].
  destruct e as [| | | | t0 v0 [|] |]; cbn [last_stored_write]; intros H;
    try (right; now apply IH).
  left. now inversion H.
Qed.

(** A call either only reads, or reads and then saves a record with a
    count in 1..[DAILY_LIMIT] dated today. *)
Lemma check_world_cases (w : World) :
  snd (checkAndIncrementUsage w) = add_event EvMetafieldQuery w
  \/ exists usage,
       (1 <= count usage <= DAILY_LIMIT)%nat
       /\ date usage = todayDateString (clock w)
       /\ snd (checkAndIncrementUsage w)
          = snd (save_outcome usage (add_event EvMetafieldQuery w)).
Proof.
  assert (Hsave : forall usage w0,
             snd (save_and_allow usage w0) = snd (save_outcome usage w0)).
  { intros usage w0. unfold save_and_allow.
    now destruct (save_outcome usage w0) as [[[]|e] w']. }
  destruct (metafieldQueryError w) as [e|] eqn:Hq.
  - left. now rewrite (check_read_throws w e Hq).
  - assert (Hfresh : (1 <= 1 <= DAILY_LIMIT)%nat) by (unfold DAILY_LIMIT; lia).
    destruct (stored_record w) as [u|] eqn:Hs.
    + destruct (String.eqb_spec (date u) (todayDateString (clock w))) as [Hd|Hd].
      * destruct (Nat.lt_ge_cases (count u) DAILY_LIMIT) as [Hlt|Hge].
        -- right. exists (mkDailyUsage (count u + 1) (todayDateString (clock w))).
           rewrite (check_increment w u Hq Hs Hd Hlt), Hsave.
           cbn [count date]. repeat split; lia.
        -- left. now rewrite (check_deny w u Hq Hs Hd Hge).
      * right. exists (mkDailyUsage 1 (todayDateString (clock w))).
        rewrite (check_reset w Hq), Hsave by (right; now exists u).
        cbn [count date]. repeat split; lia.
    + right. exists (mkDailyUsage 1 (todayDateString (clock w))).
      rewrite (check_reset w Hq), Hsave by now left.
      cbn [count date]. repeat split; lia.
Qed.

(** *** billing.server.ts *)

Lemma append_assoc (a b c : string) : (a ++ b) ++ c = a ++ b ++ c.
Proof. induction a as [|x a IH]; [reflexivity|]. simpl. now rewrite IH. Qed.

Lemma occurs_in_self_prefix (m post : string) : occurs_in m (m ++ post).
Proof. now exists "", post. Qed.

Lemma occurs_in_append_l (m p s : string) : occurs_in m s -> occurs_in m (p ++ s).
Proof.
  intros (pre & post & ->). exists (p ++ pre), post. now rewrite append_assoc.
Qed.

Lemma occurs_in_join (sep m : string) (xs : list string) :
  In m xs -> occurs_in m (join sep xs).
Proof.
  induction xs as [|x rest IH]; [intros []|].
  intros [-> | Hin].
  - destruct rest as [|y rest]; cbn [join].
    + exists "", "". cbn. induction m as [|c m IHm]; [reflexivity|].
      cbn. now rewrite <- IHm.
    + apply occurs_in_self_prefix.
  - destruct rest as [|y rest]; [destruct Hin|].
    change (join sep (x :: y :: rest)) with (x ++ sep ++ join sep (y :: rest)).
    now apply occurs_in_append_l, occurs_in_append_l, IH.
Qed.

(** C8. On an answer of the provider, [createSubscription] throws the
    error whose message is the fixed prefix followed by all the provider's
    error messages, joined, each of them occurring in it, when the answer
    has user errors; throws the missing-confirmation-URL error, a message
    no list of provider errors can produce, when it has neither errors nor
    a (non-empty) confirmation URL; and returns the provider's confirmation
    URL otherwise. *)
Theorem createSubscription_outcomes :
  forall (returnUrl : string) (w : World) (response : CreateResponse),
    subscriptionCreate w = Ok response ->
    (userErrors response <> [] ->
       fst (createSubscription returnUrl w)
         = Throw (CREATE_FAILED_PREFIX ++ join ", " (userErrors response))
       /\ forall m, In m (userErrors response) ->
            occurs_in m (CREATE_FAILED_PREFIX ++ join ", " (userErrors response)))
    /\ (userErrors response = [] ->
        falsy_string (confirmationUrl response) = true ->
        fst (createSubscription returnUrl w) = Throw NO_CONFIRMATION_URL)
    /\ (userErrors response = [] ->
        forall url, confirmationUrl response = Some url -> url <> "" ->
        fst (createSubscription returnUrl w) = Ok url)
    /\ (forall errors : list string,
          NO_CONFIRMATION_URL <> CREATE_FAILED_PREFIX ++ join ", " errors).
Proof.
  intros returnUrl w response Hresp.
  unfold createSubscription, bind, mutation_appSubscriptionCreate, throw, ret.
  rewrite Hresp.
  split; [|split; [|split]].
  - intros Herr. destruct (userErrors response) as [|m errors] eqn:E; [congruence|].
    cbn [length Nat.ltb Nat.leb fst]. split; [reflexivity|].
    intros m' Hin. now apply occurs_in_append_l, occurs_in_join.
  - intros -> Hurl. cbn [length Nat.ltb Nat.leb].
    destruct (confirmationUrl response) as [[|c url]|]; try reflexivity.
    discriminate.
  - intros -> url -> Hne. cbn [length Nat.ltb Nat.leb].
    destruct url as [|c url]; [congruence | reflexivity].
  - intros errors. discriminate.
Qed.

Lemma checkActiveSubscription_run (w : World) :
  checkActiveSubscription w =
    (match activeSubscriptions w with
     | Ok subscriptions =>
         Ok (entitlement_of (resolver_now w) (selected_subscription subscriptions))
     | Throw e => Throw e
     end, add_event EvActiveSubscriptions w).
Proof.
  unfold checkActiveSubscription, bind, query_activeSubscriptions, ret, Date_now,
    entitlement_of, selected_subscription, resolver_now.
  destruct (activeSubscriptions w) as [subscriptions|e]; [|reflexivity].
  destruct (find _ subscriptions) as [sub|]; [|reflexivity].
  destruct (status sub =? "ACTIVE"); [reflexivity|].
  destruct ((status sub =? "ACCEPTED") || (status sub =? "TRIAL")); [|reflexivity].
  destruct (createdAt sub) as [created|]; [|reflexivity].
  cbn [clock add_event].
  destruct (setDate_plus created _) as [trialEnd|]; [|reflexivity].
  now destruct (elapse w (clock w) <=? trialEnd)%Z.
Qed.

(** C9. When the selected subscription is ACCEPTED or TRIAL and has no
    creation date, the resolver answers access on trial, with no days
    remaining figure. *)
Theorem trial_without_createdAt_fails_open :
  forall (w : World) (subscriptions : list Subscription) (sub : Subscription),
    activeSubscriptions w = Ok subscriptions ->
    selected_subscription subscriptions = Some sub ->
    status sub = "ACCEPTED" \/ status sub = "TRIAL" ->
    createdAt sub = None ->
    fst (checkActiveSubscription w) = Ok (mkEntitlement true true None).
Proof.
  intros w subscriptions sub Hsubs Hsel Hst Hc.
  rewrite checkActiveSubscription_run, Hsubs, Hsel. cbn [fst entitlement_of].
  destruct Hst as [-> | ->]; cbn; now rewrite Hc.
Qed.

(** *** The trial window *)

Lemma setDate_plus_same_offset (t n : Z) :
  same_offset t n -> setDate_plus t n = JsDate.TimeClip (t + n * JsDate.msPerDay)%Z.
Proof.
  unfold same_offset, setDate_plus, UTC, LocalTime. intros <-. f_equal. lia.
Qed.

Lemma same_offset_fixed (t n : Z) : same_offset t n.
Proof. unfold same_offset. now rewrite !LocalTZA_fixed. Qed.

Lemma setDate_plus_fixed (t n : Z) :
  setDate_plus t n = JsDate.TimeClip (t + n * JsDate.msPerDay)%Z.
Proof. apply setDate_plus_same_offset, same_offset_fixed. Qed.

Lemma TimeClip_Some (t t' : Z) :
  JsDate.TimeClip t = Some t' -> t' = t /\ (Z.abs t <= JsDate.MAX_TIME)%Z.
Proof.
  unfold JsDate.TimeClip.
  destruct (Z.leb_spec (Z.abs t) JsDate.MAX_TIME) as [Hle|Hgt]; [|discriminate].
  intros H. split; [congruence | exact Hle].
Qed.

(** [v || d] keeps a figure that is given and not zero, and replaces a
    missing one and zero alike. *)
Lemma or_default_given (n d : Z) : n <> 0%Z -> or_default (Some n) d = n.
Proof. intros H. now destruct n. Qed.

Lemma or_default_falsy (d : Z) :
  or_default None d = d /\ or_default (Some 0%Z) d = d.
Proof. now split. Qed.

(** [ceil_div] is the ceiling of the quotient; on a non-negative span it
    is 0 only for the empty span. *)
Lemma ceil_div_days (d : Z) :
  (0 <= d)%Z ->
  let n := JsDate.ceil_div d JsDate.msPerDay in
  ((n - 1) * JsDate.msPerDay < d <= n * JsDate.msPerDay)%Z
  /\ (n = 0%Z <-> d = 0%Z).
Proof.
  intros Hd n. subst n. unfold JsDate.ceil_div.
  assert (Hpos : (0 < JsDate.msPerDay)%Z) by reflexivity.
  pose proof (Z.div_mod (- d) JsDate.msPerDay ltac:(lia)) as Hdiv.
  pose proof (Z.mod_pos_bound (- d) JsDate.msPerDay Hpos) as Hmod.
  set (q := (- d / JsDate.msPerDay)%Z) in *.
  set (r := (- d mod JsDate.msPerDay)%Z) in *.
  split; [nia|].
  split; intros H; [nia|].
  subst d. reflexivity.
Qed.

(** The trial branch of the resolver when the zone has the same offset at
    both ends of the trial: the window ends [days] days after the creation
    date, [days] being the provider's figure when it is neither missing nor
    zero and [DEFAULT_TRIAL_DAYS] otherwise; when that instant is a time
    value, access is granted up to and including it, with the ceiling of
    the remaining time in days. *)
Lemma trial_window_same_offset (w : World) (subscriptions : list Subscription)
    (sub : Subscription) (created : Z) :
  activeSubscriptions w = Ok subscriptions ->
  selected_subscription subscriptions = Some sub ->
  status sub = "ACCEPTED" \/ status sub = "TRIAL" ->
  createdAt sub = Some created ->
  same_offset created (or_default (trialDays sub) DEFAULT_TRIAL_DAYS) ->
  let now := resolver_now w in
  let trialEnd :=
    (created + or_default (trialDays sub) DEFAULT_TRIAL_DAYS * JsDate.msPerDay)%Z in
  fst (checkActiveSubscription w) =
    Ok (if (Z.abs trialEnd <=? JsDate.MAX_TIME)%Z && (now <=? trialEnd)%Z then
          mkEntitlement true true
            (Some (JsDate.ceil_div (trialEnd - now) JsDate.msPerDay))
        else mkEntitlement false false None).
Proof.
  intros Hsubs Hsel Hst Hc Hzone now trialEnd.
  rewrite checkActiveSubscription_run, Hsubs, Hsel. cbn [fst entitlement_of].
  destruct Hst as [-> | ->]; cbn [String.eqb Ascii.eqb Bool.eqb orb];
    rewrite Hc, (setDate_plus_same_offset _ _ Hzone); unfold JsDate.TimeClip;
    fold trialEnd; now destruct (Z.abs trialEnd <=? JsDate.MAX_TIME)%Z.
Qed.

(** The same in a fixed-offset zone. *)
Lemma trial_window (w : World) (subscriptions : list Subscription)
    (sub : Subscription) (created : Z) :
  activeSubscriptions w = Ok subscriptions ->
  selected_subscription subscriptions = Some sub ->
  status sub = "ACCEPTED" \/ status sub = "TRIAL" ->
  createdAt sub = Some created ->
  let now := resolver_now w in
  let trialEnd :=
    (created + or_default (trialDays sub) DEFAULT_TRIAL_DAYS * JsDate.msPerDay)%Z in
  fst (checkActiveSubscription w) =
    Ok (if (Z.abs trialEnd <=? JsDate.MAX_TIME)%Z && (now <=? trialEnd)%Z then
          mkEntitlement true true
            (Some (JsDate.ceil_div (trialEnd - now) JsDate.msPerDay))
        else mkEntitlement false false None).
Proof.
  intros Hsubs Hsel Hst Hc.
  apply (trial_window_same_offset w subscriptions sub created Hsubs Hsel Hst Hc).
  apply same_offset_fixed.
Qed.

(** C2 (amended). The classification table of the resolver, for the
    subscription it selects among those the provider lists (the first one
    named [PLAN_NAME]), with [now] the time the resolver reads: none
    selected gives no access; ACTIVE gives access, not on trial; DECLINED
    gives no access and no trial, whatever its creation date; ACCEPTED
    created twenty days before [now] with 14 trial days gives no access,
    in any zone; and ACCEPTED created five days before [now] with 14 trial
    days gives access on trial with 9 days remaining when the zone of the
    process has the same offset from UTC at the creation date and at the
    end of the trial (and the instant nine days after [now] is still a time
    value). *)
Theorem subscription_classification_table :
  forall (w : World) (subscriptions : list Subscription),
    activeSubscriptions w = Ok subscriptions ->
    let now := resolver_now w in
    (selected_subscription subscriptions = None ->
       fst (checkActiveSubscription w) = Ok (mkEntitlement false false None))
    /\ (forall sub,
          selected_subscription subscriptions = Some sub ->
          (status sub = "ACTIVE" ->
             fst (checkActiveSubscription w) = Ok (mkEntitlement true false None))
          /\ (status sub = "ACCEPTED" ->
              createdAt sub = Some (now - 5 * JsDate.msPerDay)%Z ->
              trialDays sub = Some 14%Z ->
              same_offset (now - 5 * JsDate.msPerDay)%Z 14 ->
              (Z.abs (now + 9 * JsDate.msPerDay) <= JsDate.MAX_TIME)%Z ->
              fst (checkActiveSubscription w)
                = Ok (mkEntitlement true true (Some 9%Z)))
          /\ (status sub = "ACCEPTED" ->
              createdAt sub = Some (now - 20 * JsDate.msPerDay)%Z ->
              trialDays sub = Some 14%Z ->
              offsets_within_a_day ->
              fst (checkActiveSubscription w)
                = Ok (mkEntitlement false false None))
          /\ (status sub = "DECLINED" ->
              fst (checkActiveSubscription w)
                = Ok (mkEntitlement false false None))).
Proof.
  intros w subscriptions Hsubs now. split.
  - intros Hsel. now rewrite checkActiveSubscription_run, Hsubs, Hsel.
  - intros sub Hsel. split; [|split; [|split]].
    + intros Hst. rewrite checkActiveSubscription_run, Hsubs, Hsel.
      cbn [fst entitlement_of]. now rewrite Hst.
    + intros Hst Hc Hd Hzone Hrange.
      assert (Hzone' : same_offset (now - 5 * JsDate.msPerDay)%Z
                         (or_default (trialDays sub) DEFAULT_TRIAL_DAYS))
        by (rewrite Hd; exact Hzone).
      rewrite (trial_window_same_offset w subscriptions sub _ Hsubs Hsel
                 (or_introl Hst) Hc Hzone'), Hd.
      cbn [or_default DEFAULT_TRIAL_DAYS]. fold now.
      replace (now - 5 * JsDate.msPerDay + 14 * JsDate.msPerDay)%Z
        with (now + 9 * JsDate.msPerDay)%Z by lia.
      replace (now + 9 * JsDate.msPerDay - now)%Z
        with (9 * JsDate.msPerDay)%Z by lia.
      apply Z.leb_le in Hrange. rewrite Hrange.
      assert (Hle : (now <=? now + 9 * JsDate.msPerDay)%Z = true)
        by (apply Z.leb_le; unfold JsDate.msPerDay; lia).
      rewrite Hle. reflexivity.
    + intros Hst Hc Hd Hzone.
      rewrite checkActiveSubscription_run, Hsubs, Hsel.
      cbn [fst entitlement_of]. rewrite Hst, Hc, Hd.
      cbn [String.eqb Ascii.eqb Bool.eqb orb or_default DEFAULT_TRIAL_DAYS].
      fold now.
      destruct (setDate_plus (now - 20 * JsDate.msPerDay) 14) as [trialEnd|] eqn:E;
        [|reflexivity].
      unfold setDate_plus in E. apply TimeClip_Some in E. destruct E as [-> _].
      unfold UTC, LocalTime.
      pose proof (Hzone (now - 20 * JsDate.msPerDay)%Z true) as H1.
      pose proof (Hzone (now - 20 * JsDate.msPerDay
                         + LocalTZA (now - 20 * JsDate.msPerDay) true
                         + 14 * JsDate.msPerDay)%Z false) as H2.
      assert (Hgt : (now <=? now - 20 * JsDate.msPerDay
                             + LocalTZA (now - 20 * JsDate.msPerDay) true
                             + 14 * JsDate.msPerDay
                             - LocalTZA (now - 20 * JsDate.msPerDay
                                         + LocalTZA (now - 20 * JsDate.msPerDay) true
                                         + 14 * JsDate.msPerDay) false)%Z = false)
        by (apply Z.leb_gt; unfold JsDate.msPerDay in *; lia).
      now rewrite Hgt.
    + intros Hst. rewrite checkActiveSubscription_run, Hsubs, Hsel.
      cbn [fst entitlement_of]. now rewrite Hst.
Qed.

(** *** routes/app._index.tsx *)

Lemma action_run (request : Request) (w : World) :
  action request w =
    match authentication w request with
    | Ok _ => action_body request (authenticated w)
    | Throw e => (Throw e, authenticated w)
    end.
Proof.
  unfold action. unfold bind at 1. unfold authenticated, authenticate_admin.
  cbn [snd].
  destruct (authentication w request) as [[]|e]; [|reflexivity].
  set (w0 := tick w).
  unfold action_body, bind, try_catch, ret.
  rewrite checkActiveSubscription_run. cbn [fst].
  unfold counter_gate, form_fields, formMessage, formTone, generation_step,
    generateAIReply, request_formData.
  destruct (activeSubscriptions w0) as [subscriptions|e];
    [destruct (hasAccess (entitlement_of (resolver_now w0)
                            (selected_subscription subscriptions)));
       cbn [negb]; [|reflexivity] |];
    (destruct (formData request) as [form|e']; [|reflexivity];
     destruct (get_message form) as [[|c m]|]; try reflexivity;
     destruct (get_tone form) as [[|c' t]|]; try reflexivity;
     destruct (checkAndIncrementUsage _) as [[d|e''] w']; [|reflexivity];
     destruct (allowed d); cbn [negb]; [|reflexivity];
     now destruct (generation w' _ _)).
Qed.

Lemma action_authenticated (request : Request) (w : World) :
  authentication w request = Ok tt ->
  action request w = action_body request (authenticated w).
Proof. intros H. now rewrite action_run, H. Qed.

Lemma action_unauthenticated (request : Request) (w : World) (e : string) :
  authentication w request = Throw e -> action request w = (Throw e, authenticated w).
Proof. intros H. now rewrite action_run, H. Qed.

Lemma authentication_cases (request : Request) (w : World) :
  authentication w request = Ok tt \/ exists e, authentication w request = Throw e.
Proof.
  destruct (authentication w request) as [[]|e]; [now left | right; now exists e].
Qed.

Lemma count_events_app (p : Event -> bool) (l1 l2 : list Event) :
  count_events p (l1 ++ l2) = (count_events p l1 + count_events p l2)%nat.
Proof. unfold count_events. now rewrite filter_app, length_app. Qed.

Lemma count_events_none (p : Event -> bool) (l : list Event) (e : Event) :
  count_events p l = 0%nat -> In e l -> p e = false.
Proof.
  unfold count_events. induction l as [|x l IH]; [intros _ []|].
  cbn [filter]. destruct (p x) eqn:E; [discriminate|].
  intros H [<- | Hin]; [exact E | now apply IH].
Qed.

Lemma save_outcome_trace (usage : DailyUsage) (w : World) :
  exists new,
    trace (snd (save_outcome usage w)) = (new ++ trace w)%list
    /\ count_events is_generation new = 0%nat
    /\ count_events is_counter_read new = 0%nat
    /\ (count_events is_counter_write new <= 1)%nat.
Proof.
  unfold save_outcome.
  destruct (shopId w) as [[[|c id]|]|e];
    try (exists [EvShopIdQuery]; split; [reflexivity|]; cbn; repeat split; lia).
  destruct (metafieldsSetErrors w) as [[|m errors]|e];
    eexists [_; _]; (split; [reflexivity|]); cbn; repeat split; lia.
Qed.

Lemma save_and_allow_allowed (usage : DailyUsage) (w : World) (d : UsageDecision) :
  fst (save_and_allow usage w) = Ok d -> allowed d = true.
Proof.
  unfold save_and_allow. destruct (save_outcome usage w) as [[[]|e] w']; cbn [fst].
  - intros H. now inversion H.
  - discriminate.
Qed.

(** What a call adds to the log: one read, at most one write, nothing
    else that matters to the handler. *)
Lemma check_trace (w : World) :
  exists new,
    trace (snd (checkAndIncrementUsage w)) = (new ++ trace w)%list
    /\ count_events is_generation new = 0%nat
    /\ count_events is_counter_read new = 1%nat
    /\ (count_events is_counter_write new <= 1)%nat.
Proof.
  destruct (check_world_cases w) as [-> | (usage & _ & _ & ->)].
  - exists [EvMetafieldQuery]. cbn. repeat split; lia.
  - destruct (save_outcome_trace usage (add_event EvMetafieldQuery w))
      as (new & Htr & Hg & Hr & Hw).
    exists (new ++ [EvMetafieldQuery])%list. rewrite Htr, !count_events_app, Hg, Hr.
    cbn. split; [now rewrite <- app_assoc|]. repeat split; lia.
Qed.

(** A denied call wrote nothing. *)
Lemma check_denied_world (w : World) (d : UsageDecision) :
  fst (checkAndIncrementUsage w) = Ok d -> allowed d = false ->
  snd (checkAndIncrementUsage w) = add_event EvMetafieldQuery w.
Proof.
  intros Hres Hden.
  assert (Hno : forall usage w0,
             checkAndIncrementUsage w = save_and_allow usage w0 -> False).
  { intros usage w0 E. rewrite E in Hres.
    apply save_and_allow_allowed in Hres. congruence. }
  destruct (metafieldQueryError w) as [e|] eqn:Hq.
  - now rewrite (check_read_throws w e Hq).
  - destruct (stored_record w) as [u|] eqn:Hs.
    + destruct (String.eqb_spec (date u) (todayDateString (clock w))) as [Hd|Hd].
      * destruct (Nat.lt_ge_cases (count u) DAILY_LIMIT) as [Hlt|Hge].
        -- exfalso. exact (Hno _ _ (check_increment w u Hq Hs Hd Hlt)).
        -- now rewrite (check_deny w u Hq Hs Hd Hge).
      * exfalso. apply (Hno (mkDailyUsage 1 (todayDateString (clock w)))
                          (add_event EvMetafieldQuery w)).
        apply check_reset; [exact Hq | right; now exists u].
    + exfalso. apply (Hno (mkDailyUsage 1 (todayDateString (clock w)))
                        (add_event EvMetafieldQuery w)).
      apply check_reset; [exact Hq | now left].
Qed.

Lemma form_fields_unparsed (request : Request) (e : string) :
  formData request = Throw e -> form_fields request = None.
Proof. unfold form_fields, formMessage. now intros ->. Qed.

(** The handler from the reading of the form on: what it logs and when
    it generates. *)
Lemma counter_gate_trace (request : Request) (w : World) :
  exists new,
    trace (snd (counter_gate request w)) = (new ++ trace w)%list
    /\ (count_events is_counter_read new <= 1)%nat
    /\ (count_events is_counter_write new <= 1)%nat
    /\ (count_events is_generation new = 0%nat
        \/ exists c, fst (checkAndIncrementUsage (tick w)) = Ok (mkDecision true c))
    /\ (forall d, fst (checkAndIncrementUsage (tick w)) = Ok d -> allowed d = false ->
          count_events is_generation new = 0%nat
          /\ metafieldValue (snd (counter_gate request w)) = metafieldValue w)
    /\ (forall e, fst (checkAndIncrementUsage (tick w)) = Throw e ->
          form_fields request <> None ->
          count_events is_generation new = 0%nat
          /\ fst (counter_gate request w)
             = Ok (mkActionData "" (Some USAGE_CHECK_FAILED))).
Proof.
  unfold counter_gate.
  destruct (formData request) as [form|e0] eqn:Hform.
  - destruct (form_fields request) as [[message tone]|].
    + destruct (check_trace (tick w)) as (new & Htr & Hg & Hr & Hw).
      pose proof (check_denied_world (tick w)) as Hden.
      destruct (checkAndIncrementUsage (tick w)) as [[d|e] w'] eqn:E;
        cbn [fst snd] in *.
      * destruct d as [[|] c]; cbn [allowed].
        -- exists ([EvGenerate message tone] ++ new)%list.
           rewrite !count_events_app, Hr.
           split; [cbn; now rewrite Htr|].
           split; [cbn; lia|]. split; [cbn; lia|].
           split; [right; now exists c|].
           split; [intros d Hd Hfalse; inversion Hd; subst; discriminate|].
           intros e He. discriminate.
        -- exists new. rewrite Hr.
           split; [exact Htr|]. split; [lia|]. split; [lia|].
           split; [now left|].
           split; [|intros e He; discriminate].
           intros d Hd Hfalse. split; [exact Hg|].
           cbn [snd]. now rewrite (Hden _ eq_refl eq_refl).
      * exists new. rewrite Hr.
        split; [exact Htr|]. split; [lia|]. split; [lia|].
        split; [now left|].
        split; [intros d Hd; discriminate|].
        intros e0 _ _. now split.
    + exists []. split; [reflexivity|]. cbn.
      split; [lia|]. split; [lia|]. split; [now left|].
      split; [intros d _ _; now split|].
      intros e _ Hne. congruence.
  - exists []. split; [reflexivity|]. cbn.
    split; [lia|]. split; [lia|]. split; [now left|].
    split; [intros d _ _; now split|].
    intros e _ Hne. now rewrite (form_fields_unparsed request e0 Hform) in Hne.
Qed.

Lemma checkActiveSubscription_world (w : World) :
  snd (checkActiveSubscription w) = add_event EvActiveSubscriptions w.
Proof. now rewrite checkActiveSubscription_run. Qed.

Lemma In_generation (message tone : string) (l : list Event) :
  In (EvGenerate message tone) l -> count_events is_generation l <> 0%nat.
Proof.
  intros Hin Hz. pose proof (count_events_none _ _ _ Hz Hin). discriminate.
Qed.

Lemma form_read_world (request : Request) (w : World) :
  form_read request w = tick (add_event EvActiveSubscriptions (authenticated w)).
Proof. unfold form_read. now rewrite checkActiveSubscription_world. Qed.

(** The gates of [action] once [authenticate.admin] has returned. *)
Lemma action_body_gates (request : Request) (w0 : World) :
  let w1 := tick (add_event EvActiveSubscriptions w0) in
  let calls := since w0 (snd (action_body request w0)) in
  (forall st, fst (checkActiveSubscription w0) = Ok st -> hasAccess st = false ->
     fst (action_body request w0) = Ok (mkActionData "" (Some SUBSCRIPTION_REQUIRED))
     /\ calls = [EvActiveSubscriptions]
     /\ metafieldValue (snd (action_body request w0)) = metafieldValue w0)
  /\ (forall d, fst (checkAndIncrementUsage w1) = Ok d -> allowed d = false ->
        count_events is_generation calls = 0%nat
        /\ metafieldValue (snd (action_body request w0)) = metafieldValue w0)
  /\ (forall message tone, In (EvGenerate message tone) calls ->
        (forall st, fst (checkActiveSubscription w0) = Ok st -> hasAccess st = true)
        /\ exists c, fst (checkAndIncrementUsage w1) = Ok (mkDecision true c))
  /\ (count_events is_counter_read calls <= 1)%nat
  /\ (count_events is_counter_write calls <= 1)%nat.
Proof.
  intros w1 calls. subst w1 calls. unfold action_body. cbv zeta.
  set (w1 := add_event EvActiveSubscriptions w0).
  assert (Hdenied :
    since w0 w1 = [EvActiveSubscriptions]) by (now apply since_extends).
  destruct (counter_gate_trace request w1)
    as (new & Htr & Hr & Hw & Hgen & Hden & _).
  assert (Hgate : since w0 (snd (counter_gate request w1))
                  = (new ++ [EvActiveSubscriptions])%list).
  { apply since_extends. rewrite Htr. subst w1. cbn [trace add_event].
    now rewrite <- app_assoc. }
  assert (Hcases :
    (exists st, fst (checkActiveSubscription w0) = Ok st /\ hasAccess st = false)
    \/ (forall st, fst (checkActiveSubscription w0) = Ok st -> hasAccess st = true)).
  { destruct (fst (checkActiveSubscription w0)) as [st|e].
    - destruct (hasAccess st) eqn:E.
      + right. intros st' H. now inversion H; subst.
      + left. now exists st.
    - right. discriminate. }
  destruct Hcases as [(st & Hst & Hno) | Hyes].
  - (* the resolver denies *)
    rewrite Hst, Hno. cbn [fst snd]. rewrite Hdenied.
    split; [intros _ _ _; repeat split|].
    split; [intros d _ _; now split|].
    split; [|cbn; lia].
    intros message tone [Hin | []]. discriminate.
  - (* the resolver lets the request through *)
    assert (Hrun :
      match fst (checkActiveSubscription w0) with
      | Ok st =>
          if hasAccess st then counter_gate request w1
          else (Ok (mkActionData "" (Some SUBSCRIPTION_REQUIRED)), w1)
      | Throw _ => counter_gate request w1
      end = counter_gate request w1).
    { destruct (fst (checkActiveSubscription w0)) as [st|e]; [|reflexivity].
      now rewrite (Hyes st eq_refl). }
    rewrite Hrun, Hgate, !count_events_app.
    split.
    { intros st Hst Hno. rewrite (Hyes st Hst) in Hno. discriminate. }
    split.
    { intros d Hd Hfalse. destruct (Hden d Hd Hfalse) as [Hz Hval].
      rewrite Hz, Hval. now split. }
    split; [|cbn; lia].
    intros message tone Hin. split; [exact Hyes|].
    destruct Hgen as [Hz | Hok]; [|exact Hok].
    apply in_app_or in Hin. destruct Hin as [Hin | [Hin | []]]; [|discriminate].
    now apply In_generation in Hin.
Qed.

(** C3. In the generation action, with [w0] the world in which the body
    of the handler starts ([authenticate.admin] has returned) and [w1] the
    world in which the usage counter is called (the subscription check has
    answered and the form has been read):
    - when the resolver answers no access, the handler answers the
      subscription-required denial and the only call it made is the
      subscription query: no counter read or write, no generation;
    - when [checkAndIncrementUsage] answers not allowed, no generation call
      is made and the stored counter is what it was;
    - a generation call is made only if the request was authenticated, the
      resolver did not answer no access and [checkAndIncrementUsage]
      answered allowed;
    - a request reads the counter at most once and writes it at most
      once. *)
Theorem action_gate_ordering :
  forall (request : Request) (w : World),
    let w0 := authenticated w in
    let w1 := form_read request w in
    let calls := since w (snd (action request w)) in
    (forall st, authentication w request = Ok tt ->
       fst (checkActiveSubscription w0) = Ok st -> hasAccess st = false ->
       fst (action request w) = Ok (mkActionData "" (Some SUBSCRIPTION_REQUIRED))
       /\ calls = [EvActiveSubscriptions]
       /\ metafieldValue (snd (action request w)) = metafieldValue w)
    /\ (forall d, fst (checkAndIncrementUsage w1) = Ok d -> allowed d = false ->
          count_events is_generation calls = 0%nat
          /\ metafieldValue (snd (action request w)) = metafieldValue w)
    /\ (forall message tone, In (EvGenerate message tone) calls ->
          authentication w request = Ok tt
          /\ (forall st, fst (checkActiveSubscription w0) = Ok st -> hasAccess st = true)
          /\ exists c, fst (checkAndIncrementUsage w1) = Ok (mkDecision true c))
    /\ (count_events is_counter_read calls <= 1)%nat
    /\ (count_events is_counter_write calls <= 1)%nat.
Proof.
  intros request w w0 w1 calls. subst w0 w1 calls.
  rewrite form_read_world.
  destruct (authentication_cases request w) as [Hauth | [e Hauth]].
  - rewrite (action_authenticated request w Hauth).
    change (since w (snd (action_body request (authenticated w))))
      with (since (authenticated w) (snd (action_body request (authenticated w)))).
    change (metafieldValue w) with (metafieldValue (authenticated w)).
    destruct (action_body_gates request (authenticated w))
      as (Hdeny & Hlimit & Hgen & Hr & Hw).
    split; [intros st _; exact (Hdeny st)|].
    split; [exact Hlimit|].
    split; [|split; [exact Hr | exact Hw]].
    intros message tone Hin. split; [exact Hauth | exact (Hgen message tone Hin)].
  - rewrite (action_unauthenticated request w e Hauth). cbn [fst snd].
    rewrite (since_extends w (authenticated w) []) by reflexivity.
    split; [intros st H; congruence|].
    split; [intros d _ _; now split|].
    split; [intros message tone []|].
    cbn. split; lia.
Qed.

(** *** What the handlers do when a collaborator throws *)

(** The usage counter never looks at the subscriptions. *)
Lemma check_frame (r : result (list Subscription)) (w : World) :
  checkAndIncrementUsage (set_activeSubscriptions r w)
    = (fst (checkAndIncrementUsage w),
       set_activeSubscriptions r (snd (checkAndIncrementUsage w))).
Proof.
  destruct w as [c el auth subs create qerr value shop seterr gen tr].
  unfold checkAndIncrementUsage, getTodayDateString, Date_now, getDailyUsage,
    saveDailyUsage, getShopId, bind, ret, throw, query_getShopMetafield,
    query_getShopId, mutation_metafieldsSet, set_activeSubscriptions,
    add_event, set_metafieldValue.
  cbn [clock elapse authentication activeSubscriptions subscriptionCreate
       metafieldQueryError metafieldValue shopId metafieldsSetErrors generation
       trace fst snd].
  destruct qerr as [e|]; [reflexivity|].
  destruct value as [[|ch text]|];
    try destruct (JSON_parse (String ch text)) as [u|];
    try destruct (negb (date u =? todayDateString c));
    try destruct (DAILY_LIMIT <=? count u)%nat;
    try reflexivity;
    destruct shop as [[[|ch' id]|]|e]; try reflexivity;
    destruct seterr as [[|m errors]|e]; reflexivity.
Qed.

Lemma counter_gate_frame (r : result (list Subscription)) (request : Request) (w : World) :
  counter_gate request (set_activeSubscriptions r w)
    = (fst (counter_gate request w),
       set_activeSubscriptions r (snd (counter_gate request w))).
Proof.
  unfold counter_gate.
  destruct (formData request) as [form|e0]; [|reflexivity].
  destruct (form_fields request) as [[message tone]|]; [|reflexivity].
  change (tick (set_activeSubscriptions r w))
    with (set_activeSubscriptions r (tick w)).
  rewrite check_frame.
  destruct (checkAndIncrementUsage (tick w)) as [[d|e] w']; cbn [fst snd];
    [|reflexivity].
  destruct (allowed d); reflexivity.
Qed.

Lemma peek_try (trial : bool) (days : option Z) (w : World) :
  try_catch
    (usage <- getCurrentUsageCount ;;
     ret (mkLoaderData true None usage trial days))
    (fun _ => ret (mkLoaderData true None 0 trial days)) w
  = peek_data trial days w.
Proof.
  unfold try_catch, bind, ret, peek_data.
  rewrite getCurrentUsageCount_run. cbn [fst].
  now destruct (metafieldQueryError w).
Qed.

Lemma loader_run (request : Request) (w : World) :
  loader request w =
    match authentication w request with
    | Ok _ => loader_body request (authenticated w)
    | Throw e => (Throw e, authenticated w)
    end.
Proof.
  unfold loader. unfold bind at 1. unfold authenticated, authenticate_admin.
  cbn [snd].
  destruct (authentication w request) as [[]|e]; [|reflexivity].
  set (w0 := tick w). unfold loader_body.
  unfold try_catch at 1. unfold bind at 1.
  rewrite checkActiveSubscription_run. cbn [fst].
  destruct (activeSubscriptions w0) as [subscriptions|e].
  - destruct (hasAccess (entitlement_of (resolver_now w0)
                           (selected_subscription subscriptions)));
      cbn [negb].
    + now rewrite peek_try.
    + unfold try_catch at 1. unfold bind at 1.
      destruct (createSubscription _ _) as [[url|e] w2]; [reflexivity|].
      cbv beta iota. now rewrite peek_try.
  - apply peek_try.
Qed.

Lemma loader_authenticated (request : Request) (w : World) :
  authentication w request = Ok tt ->
  loader request w = loader_body request (authenticated w).
Proof. intros H. now rewrite loader_run, H. Qed.

Lemma form_fields_present (request : Request) (message tone : string) :
  formMessage request = Some message -> message <> "" ->
  formTone request = Some tone -> tone <> "" ->
  form_fields request = Some (message, tone).
Proof.
  unfold form_fields. intros -> Hm -> Ht.
  destruct message; [congruence|]. now destruct tone; [congruence|].
Qed.

Lemma form_parsed (request : Request) (message : string) :
  formMessage request = Some message -> exists form, formData request = Ok form.
Proof.
  unfold formMessage. destruct (formData request) as [form|e]; [|discriminate].
  intros _. now exists form.
Qed.

Lemma save_outcome_fails (usage : DailyUsage) (w w0 : World) :
  write_ok w = false ->
  shopId w0 = shopId w -> metafieldsSetErrors w0 = metafieldsSetErrors w ->
  exists e, fst (save_and_allow usage w0) = Throw e.
Proof.
  unfold write_ok, save_and_allow, save_outcome. intros H -> ->.
  destruct (shopId w) as [[[|c id]|]|e]; try (now eexists).
  destruct (metafieldsSetErrors w) as [[|m errors]|e];
    [discriminate | now eexists | now eexists].
Qed.

(** Without a record of today at the limit, a call attempts a write. *)
Lemma check_attempts_write (w : World) :
  metafieldQueryError w = None -> ~ at_limit_today w ->
  exists usage,
    checkAndIncrementUsage w = save_and_allow usage (add_event EvMetafieldQuery w).
Proof.
  intros Hq Hnot.
  destruct (stored_record w) as [u|] eqn:Hs.
  - destruct (String.eqb_spec (date u) (todayDateString (clock w))) as [Hd|Hd].
    + destruct (Nat.lt_ge_cases (count u) DAILY_LIMIT) as [Hlt|Hge].
      * eexists. now apply (check_increment w u).
      * exfalso. apply Hnot. now exists u.
    + eexists. apply check_reset; [exact Hq | right; now exists u].
  - eexists. apply check_reset; [exact Hq | now left].
Qed.

(** Past the subscription gate, [action] is the rest of the handler. *)
Lemma action_through_gate (request : Request) (w : World) :
  authentication w request = Ok tt ->
  (forall st, fst (checkActiveSubscription (authenticated w)) = Ok st ->
     hasAccess st = true) ->
  action request w
    = counter_gate request (add_event EvActiveSubscriptions (authenticated w)).
Proof.
  intros Hauth Hyes. rewrite (action_authenticated request w Hauth).
  unfold action_body. cbv zeta.
  destruct (fst (checkActiveSubscription (authenticated w))) as [st|e];
    [|reflexivity].
  now rewrite (Hyes st eq_refl).
Qed.

(** C6 (amended). In the generation action, for an authenticated request
    that passed the subscription gate and carries both form fields, every
    failure of the usage counter is handled the same way: whether the
    increment write fails or the read path itself throws,
    [checkAndIncrementUsage] throws, the handler answers the generic
    usage-check failure and makes no generation call.  A throwing read is
    tolerated only by the page loader, which then shows the shop as
    subscribed with a usage count of 0. *)
Theorem usage_counter_failure_denies :
  forall (request : Request) (w : World) (message tone : string),
    formMessage request = Some message -> message <> "" ->
    formTone request = Some tone -> tone <> "" ->
    authentication w request = Ok tt ->
    let w0 := authenticated w in
    (forall st, fst (checkActiveSubscription w0) = Ok st -> hasAccess st = true) ->
    let w1 := form_read request w in
    let denied :=
      fst (action request w) = Ok (mkActionData "" (Some USAGE_CHECK_FAILED))
      /\ count_events is_generation (since w (snd (action request w))) = 0%nat in
    (* the increment write fails *)
    (metafieldQueryError w = None -> ~ at_limit_today w1 -> write_ok w = false ->
       (exists e, fst (checkAndIncrementUsage w1) = Throw e) /\ denied)
    (* the read path throws *)
    /\ (forall e, metafieldQueryError w = Some e ->
          fst (checkAndIncrementUsage w1) = Throw e /\ denied)
    (* any throw of the counter *)
    /\ (forall e, fst (checkAndIncrementUsage w1) = Throw e -> denied)
    (* the loader with a throwing read *)
    /\ (forall e st,
          metafieldQueryError w = Some e ->
          fst (checkActiveSubscription w0) = Ok st -> hasAccess st = true ->
          fst (loader request w)
            = Ok (mkLoaderData true None 0 (isTrial st) (daysRemaining st))).
Proof.
  intros request w message tone Hm Hmne Ht Htne Hauth w0 Hyes w1 denied.
  assert (Hform : form_fields request = Some (message, tone))
    by now apply form_fields_present.
  subst w1. rewrite form_read_world. fold w0.
  set (w1 := add_event EvActiveSubscriptions w0).
  assert (Hany : forall e, fst (checkAndIncrementUsage (tick w1)) = Throw e -> denied).
  { intros e He. subst denied.
    rewrite (action_through_gate request w Hauth Hyes). fold w0. fold w1.
    destruct (counter_gate_trace request w1) as (new & Htr & _ & _ & _ & _ & Hthrow).
    destruct (Hthrow e He) as [Hz Hres]; [congruence|].
    split; [exact Hres|].
    rewrite (since_extends w _ (new ++ [EvActiveSubscriptions])%list).
    - rewrite count_events_app, Hz. reflexivity.
    - rewrite Htr. subst w1 w0. cbn [trace add_event authenticated tick].
      now rewrite <- app_assoc. }
  split; [|split; [|split]].
  - intros Hq Hnot Hw.
    assert (He : exists e, fst (checkAndIncrementUsage (tick w1)) = Throw e).
    { destruct (check_attempts_write (tick w1) Hq Hnot) as [usage ->].
      now apply (save_outcome_fails usage w). }
    split; [exact He|]. destruct He as [e He]. now apply (Hany e).
  - intros e Hq.
    assert (He : fst (checkAndIncrementUsage (tick w1)) = Throw e).
    { now rewrite (check_read_throws (tick w1) e Hq). }
    split; [exact He | now apply (Hany e)].
  - exact Hany.
  - intros e st Hq Hst Hacc.
    rewrite (loader_authenticated request w Hauth). unfold loader_body. fold w0.
    rewrite Hst, Hacc. cbv zeta. unfold peek_data. cbn [fst].
    rewrite getCurrentUsageCount_run. cbn [fst].
    change (metafieldQueryError (add_event EvActiveSubscriptions w0))
      with (metafieldQueryError w).
    now rewrite Hq.
Qed.

(** C7. When the subscription check throws, both handlers go on as they
    do for a shop with a paid, active subscription: the page loader answers
    that the shop is subscribed (no confirmation URL, not on trial), and
    the generation action gives the same answer, makes the same calls and
    leaves the same stored counter as it does when the provider lists an
    ACTIVE subscription for the plan. *)
Theorem subscription_check_failure_fails_open :
  forall (request : Request) (w : World) (e : string),
    authentication w request = Ok tt ->
    fst (checkActiveSubscription (authenticated w)) = Throw e ->
    let paid :=
      set_activeSubscriptions
        (Ok [mkSubscription PLAN_NAME "ACTIVE" None None]) w in
    fst (checkActiveSubscription (authenticated paid))
      = Ok (mkEntitlement true false None)
    /\ (exists usage,
          fst (loader request w) = Ok (mkLoaderData true None usage false None))
    /\ fst (loader request w) = fst (loader request paid)
    /\ fst (action request w) = fst (action request paid)
    /\ since w (snd (action request w)) = since paid (snd (action request paid))
    /\ metafieldValue (snd (action request w))
       = metafieldValue (snd (action request paid)).
Proof.
  intros request w e Hauth Hthrow paid.
  assert (Hpaid : fst (checkActiveSubscription (authenticated paid))
                  = Ok (mkEntitlement true false None))
    by (subst paid; now rewrite checkActiveSubscription_run).
  split; [exact Hpaid|].
  assert (Hauth' : authentication paid request = Ok tt) by exact Hauth.
  rewrite (loader_authenticated request w Hauth),
    (loader_authenticated request paid Hauth'),
    (action_authenticated request w Hauth),
    (action_authenticated request paid Hauth').
  unfold loader_body, action_body. rewrite Hthrow, Hpaid.
  cbn [hasAccess isTrial daysRemaining]. cbv zeta.
  change (add_event EvActiveSubscriptions (authenticated paid))
    with (set_activeSubscriptions
            (Ok [mkSubscription PLAN_NAME "ACTIVE" None None])
            (add_event EvActiveSubscriptions (authenticated w))).
  rewrite counter_gate_frame. cbn [fst snd].
  split; [|split; [|split; [|split]]]; try reflexivity.
  - unfold peek_data. cbn [fst]. now eexists.
  - unfold peek_data. cbn [fst]. now rewrite !getCurrentUsageCount_run.
Qed.

(** *** More on usage.server.ts *)

(** The counter reads nothing but the clock, the stored value and the
    answers of the store. *)
Lemma check_same_store (w w' : World) :
  same_store w w' ->
  fst (checkAndIncrementUsage w) = fst (checkAndIncrementUsage w')
  /\ same_store (snd (checkAndIncrementUsage w)) (snd (checkAndIncrementUsage w')).
Proof.
  destruct w as [c el auth subs create qerr value shop seterr gen tr].
  destruct w' as [c' el' auth' subs' create' qerr' value' shop' seterr' gen' tr'].
  unfold same_store.
  cbn [clock elapse metafieldQueryError metafieldValue shopId metafieldsSetErrors].
  intros (<- & <- & <- & <- & <- & <-).
  unfold checkAndIncrementUsage, getTodayDateString, Date_now, getDailyUsage,
    saveDailyUsage, getShopId, bind, ret, throw, query_getShopMetafield,
    query_getShopId, mutation_metafieldsSet, add_event, set_metafieldValue.
  cbn [clock elapse authentication activeSubscriptions subscriptionCreate
       metafieldQueryError metafieldValue shopId metafieldsSetErrors generation
       trace fst snd].
  destruct qerr as [e|]; [repeat split|].
  destruct value as [[|ch text]|];
    try destruct (JSON_parse (String ch text)) as [u|];
    try destruct (negb (date u =? todayDateString c));
    try destruct (DAILY_LIMIT <=? count u)%nat;
    try (repeat split; fail);
    destruct shop as [[[|ch' id]|]|e]; try (repeat split; fail);
    destruct seterr as [[|m errors]|e]; repeat split.
Qed.

(** X1. Showing the count does not consume quota: a call of
    [checkAndIncrementUsage] made at any time [t] after
    [getCurrentUsageCount] gets the same answer and leaves the same stored
    value as one made at [t] without it; [getCurrentUsageCount] leaves the
    stored value as it is, and asking again at [t] gives the count a first
    asking at [t] gives. *)
Theorem peek_does_not_consume :
  forall (w : World) (t : Z),
    let peeked := set_clock t (snd (getCurrentUsageCount w)) in
    fst (checkAndIncrementUsage peeked) = fst (checkAndIncrementUsage (set_clock t w))
    /\ metafieldValue (snd (checkAndIncrementUsage peeked))
       = metafieldValue (snd (checkAndIncrementUsage (set_clock t w)))
    /\ metafieldValue (snd (getCurrentUsageCount w)) = metafieldValue w
    /\ fst (getCurrentUsageCount peeked) = fst (getCurrentUsageCount (set_clock t w)).
Proof.
  intros w t peeked.
  assert (Hsame : same_store peeked (set_clock t w))
    by (subst peeked; rewrite getCurrentUsageCount_run; repeat split).
  destruct (check_same_store _ _ Hsame) as (Hres & _ & _ & _ & Hval & _).
  split; [exact Hres|]. split; [exact Hval|].
  split; [now rewrite getCurrentUsageCount_run|].
  subst peeked. now rewrite !getCurrentUsageCount_run.
Qed.

Lemma save_and_allow_inv (usage : DailyUsage) (w : World) (d : UsageDecision) :
  fst (save_and_allow usage (add_event EvMetafieldQuery w)) = Ok d ->
  d = mkDecision true (count usage)
  /\ snd (save_and_allow usage (add_event EvMetafieldQuery w)) = after_write usage w.
Proof.
  unfold save_and_allow, save_outcome, after_write.
  cbn [shopId metafieldsSetErrors clock add_event].
  destruct (shopId w) as [[[|c id]|]|e]; try discriminate.
  destruct (metafieldsSetErrors w) as [[|m errors]|e]; try discriminate.
  cbn [fst snd]. intros H. inversion H. now split.
Qed.

(** X2. The count a call reports is the count then shown: whenever
    [checkAndIncrementUsage] returns a decision, allowed or not,
    [getCurrentUsageCount] called next, at any time of the day on which
    the call began, answers the decision's [currentCount]. *)
Theorem reported_count_is_shown_count :
  forall (w : World) (d : UsageDecision) (t' : Z),
    fst (checkAndIncrementUsage w) = Ok d ->
    todayDateString t' = todayDateString (clock w) ->
    fst (getCurrentUsageCount (set_clock t' (snd (checkAndIncrementUsage w))))
      = Ok (currentCount d).
Proof.
  intros w d t' Hres Hday.
  rewrite getCurrentUsageCount_run. cbn [fst].
  destruct (metafieldQueryError w) as [e|] eqn:Hq.
  { rewrite (check_read_throws w e Hq) in Hres. discriminate. }
  assert (Hwrite : forall usage,
             date usage = todayDateString (clock w) ->
             checkAndIncrementUsage w
               = save_and_allow usage (add_event EvMetafieldQuery w) ->
             match metafieldQueryError (set_clock t' (snd (checkAndIncrementUsage w))) with
             | Some e => Throw e
             | None =>
                 Ok match stored_record (set_clock t' (snd (checkAndIncrementUsage w))) with
                    | Some usage0 =>
                        if date usage0
                           =? todayDateString
                                (clock (set_clock t' (snd (checkAndIncrementUsage w))))
                        then count usage0 else 0%nat
                    | None => 0%nat
                    end
             end = Ok (currentCount d)).
  { intros usage Hd E. rewrite E in *.
    destruct (save_and_allow_inv usage w d Hres) as [-> ->].
    rewrite stored_record_set_clock, stored_record_after_write.
    cbn [metafieldQueryError set_clock after_write set_metafieldValue add_event clock].
    rewrite Hq, Hd, Hday, String.eqb_refl. reflexivity. }
  destruct (stored_record w) as [u|] eqn:Hs.
  - destruct (String.eqb_spec (date u) (todayDateString (clock w))) as [Hd|Hd].
    + destruct (Nat.lt_ge_cases (count u) DAILY_LIMIT) as [Hlt|Hge].
      * apply (Hwrite (mkDailyUsage (count u + 1) (todayDateString (clock w))));
          [reflexivity | now apply check_increment].
      * rewrite (check_deny w u Hq Hs Hd Hge) in *. cbn [fst snd] in *.
        inversion Hres; subst d.
        rewrite stored_record_set_clock.
        change (stored_record (add_event EvMetafieldQuery w)) with (stored_record w).
        cbn [metafieldQueryError set_clock add_event clock currentCount].
        rewrite Hq, Hs, Hday, Hd, String.eqb_refl. reflexivity.
    + apply (Hwrite (mkDailyUsage 1 (todayDateString (clock w))));
        [reflexivity | apply check_reset; [exact Hq | right; now exists u]].
  - apply (Hwrite (mkDailyUsage 1 (todayDateString (clock w))));
      [reflexivity | apply check_reset; [exact Hq | now left]].
Qed.

(** X3. On a record of today and a store that answers: below the limit the
    call is allowed, reports the stored count plus one and stores it (99
    goes to 100); at or above the limit it is denied, reports the stored
    count itself, whatever it is, and only reads. *)
Theorem call_on_todays_record :
  forall (w : World) (u : DailyUsage),
    metafieldQueryError w = None -> write_ok w = true ->
    stored_record w = Some u -> date u = todayDateString (clock w) ->
    ((count u < DAILY_LIMIT)%nat ->
       fst (checkAndIncrementUsage w) = Ok (mkDecision true (count u + 1))
       /\ stored_record (snd (checkAndIncrementUsage w))
          = Some (mkDailyUsage (count u + 1) (todayDateString (clock w))))
    /\ ((DAILY_LIMIT <= count u)%nat ->
          checkAndIncrementUsage w
            = (Ok (mkDecision false (count u)), add_event EvMetafieldQuery w)).
Proof.
  intros w u Hq Hw Hs Hd. split.
  - intros Hlt. rewrite (check_increment w u Hq Hs Hd Hlt), (save_and_allow_ok _ _ Hw).
    cbn [fst snd count]. split; [reflexivity | apply stored_record_after_write].
  - intros Hge. exact (check_deny w u Hq Hs Hd Hge).
Qed.

(** X4. Save then read: when [saveDailyUsage] returns, the store holds the
    JSON text of the record it was given, whatever it held before, and
    [getDailyUsage] called next reads that record back. *)
Theorem save_then_get :
  forall (usage : DailyUsage) (w : World),
    fst (saveDailyUsage usage w) = Ok tt ->
    metafieldQueryError w = None ->
    metafieldValue (snd (saveDailyUsage usage w)) = Some (JSON_stringify usage)
    /\ fst (getDailyUsage (snd (saveDailyUsage usage w))) = Ok (Some usage).
Proof.
  intros usage w Hok Hq. rewrite saveDailyUsage_run in *.
  unfold save_outcome in *.
  destruct (shopId w) as [[[|c id]|]|e]; try discriminate.
  destruct (metafieldsSetErrors w) as [[|m errors]|e]; try discriminate.
  cbn [snd]. split; [reflexivity|].
  rewrite getDailyUsage_run. cbn [fst].
  cbn [metafieldQueryError set_metafieldValue add_event]. rewrite Hq.
  unfold stored_record. cbn [metafieldValue set_metafieldValue].
  destruct (JSON_stringify usage) eqn:E.
  - now apply JSON_stringify_nonempty in E.
  - now rewrite <- E, JSON_roundtrip.
Qed.

(** X5. How [saveDailyUsage] fails.  When the shop id query throws, or
    answers no id or an empty one, the save throws (the query's error, or
    the no-shop-id error) and metafieldsSet is never called: the only call
    made is the shop id query.  When metafieldsSet answers user errors, the
    save throws the fixed prefix followed by all their messages, joined,
    each of them occurring in the message. *)
Theorem saveDailyUsage_failures :
  forall (usage : DailyUsage) (w : World),
    (forall e, shopId w = Throw e ->
       saveDailyUsage usage w = (Throw e, add_event EvShopIdQuery w))
    /\ (shopId w = Ok None \/ shopId w = Ok (Some "") ->
        saveDailyUsage usage w = (Throw NO_SHOP_ID, add_event EvShopIdQuery w))
    /\ (forall id errors,
          shopId w = Ok (Some id) -> id <> "" ->
          metafieldsSetErrors w = Ok errors -> errors <> [] ->
          fst (saveDailyUsage usage w)
            = Throw (SAVE_FAILED_PREFIX ++ join ", " errors)
          /\ forall m, In m errors ->
               occurs_in m (SAVE_FAILED_PREFIX ++ join ", " errors)).
Proof.
  intros usage w. rewrite saveDailyUsage_run. unfold save_outcome.
  split; [|split].
  - intros e ->. reflexivity.
  - intros [-> | ->]; reflexivity.
  - intros id errors -> Hid -> Herr.
    destruct id as [|c id]; [congruence|].
    destruct errors as [|m errors]; [congruence|].
    cbn [fst]. split; [reflexivity|].
    intros m' Hin. now apply occurs_in_append_l, occurs_in_join.
Qed.

Lemma at_limit_today_dec (w : World) : at_limit_today w \/ ~ at_limit_today w.
Proof.
  unfold at_limit_today.
  destruct (stored_record w) as [u|]; [|right; intros (u & H & _); discriminate].
  destruct (String.eqb_spec (date u) (todayDateString (clock w))) as [Hd|Hd].
  - destruct (Nat.lt_ge_cases (count u) DAILY_LIMIT) as [Hlt|Hge].
    + right. intros (u' & H & _ & Hc). inversion H; subst. lia.
    + left. now exists u.
  - right. intros (u' & H & Hd' & _). inversion H; subst. contradiction.
Qed.

(** X6. [checkAndIncrementUsage] throws exactly when the metafield query
    throws, or when a write is due (there is no record of today at the
    limit) and the store cannot take it.  In particular a shop at its limit
    is answered, not failed, even when the store refuses writes. *)
Theorem check_throws_iff :
  forall (w : World),
    (exists e, fst (checkAndIncrementUsage w) = Throw e)
    <-> (metafieldQueryError w <> None
         \/ (~ at_limit_today w /\ write_ok w = false)).
Proof.
  intros w. split.
  - intros [e He].
    destruct (metafieldQueryError w) as [e0|] eqn:Hq; [left; discriminate|].
    right. destruct (at_limit_today_dec w) as [(u & Hs & Hd & Hc) | Hnot].
    + rewrite (check_deny w u Hq Hs Hd Hc) in He. discriminate.
    + split; [exact Hnot|].
      destruct (check_attempts_write w Hq Hnot) as [usage E].
      destruct (write_ok w) eqn:Hw; [|reflexivity].
      rewrite E, (save_and_allow_ok _ _ Hw) in He. discriminate.
  - intros [Hq | [Hnot Hw]].
    + destruct (metafieldQueryError w) as [e|] eqn:E; [|congruence].
      exists e. now rewrite (check_read_throws w e E).
    + destruct (metafieldQueryError w) as [e|] eqn:Hq.
      * exists e. now rewrite (check_read_throws w e Hq).
      * destruct (check_attempts_write w Hq Hnot) as [usage ->].
        now apply (save_outcome_fails usage w).
Qed.

(** *** More on billing.server.ts *)

Lemma ceil_div_nonneg (d : Z) : (0 <= d)%Z -> (0 <= JsDate.ceil_div d JsDate.msPerDay)%Z.
Proof.
  intros Hd. destruct (ceil_div_days d Hd) as [[_ Hup] _].
  assert (0 < JsDate.msPerDay)%Z by reflexivity. nia.
Qed.

Lemma ceil_div_mono (a b : Z) :
  (a <= b)%Z -> (JsDate.ceil_div a JsDate.msPerDay <= JsDate.ceil_div b JsDate.msPerDay)%Z.
Proof.
  intros H. unfold JsDate.ceil_div.
  assert (- b / JsDate.msPerDay <= - a / JsDate.msPerDay)%Z
    by (apply Z.div_le_mono; [reflexivity | lia]).
  lia.
Qed.

Lemma ceil_div_le (d k : Z) :
  (d <= k * JsDate.msPerDay)%Z -> (JsDate.ceil_div d JsDate.msPerDay <= k)%Z.
Proof.
  intros H. unfold JsDate.ceil_div.
  assert (- k <= - d / JsDate.msPerDay)%Z
    by (apply Z.div_le_lower_bound; [reflexivity | lia]).
  lia.
Qed.

(** X7. Shape of every answer of the resolver: a trial answer is an access
    answer; an answer without access is neither a trial nor carries days
    remaining; and days remaining, when given, come with access on trial
    and are never negative. *)
Theorem entitlement_shape :
  forall (w : World) (st : EntitlementState),
    fst (checkActiveSubscription w) = Ok st ->
    (isTrial st = true -> hasAccess st = true)
    /\ (hasAccess st = false -> isTrial st = false /\ daysRemaining st = None)
    /\ (forall n, daysRemaining st = Some n ->
          hasAccess st = true /\ isTrial st = true /\ (0 <= n)%Z).
Proof.
  intros w st. rewrite checkActiveSubscription_run. cbn [fst].
  destruct (activeSubscriptions w) as [subscriptions|e]; [|discriminate].
  intros H. inversion H as [Hst]. clear H Hst. unfold entitlement_of.
  destruct (selected_subscription subscriptions) as [sub|];
    [|repeat split; try discriminate; auto].
  destruct (status sub =? "ACTIVE"); [repeat split; try discriminate; auto|].
  destruct ((status sub =? "ACCEPTED") || (status sub =? "TRIAL"));
    [|repeat split; try discriminate; auto].
  destruct (createdAt sub) as [created|]; [|repeat split; try discriminate; auto].
  destruct (setDate_plus created (or_default (trialDays sub) DEFAULT_TRIAL_DAYS))
    as [trialEnd|]; [|repeat split; try discriminate; auto].
  destruct (Z.leb_spec (resolver_now w) trialEnd)
    as [Hle|Hgt]; [|repeat split; try discriminate; auto].
  cbn [hasAccess isTrial daysRemaining].
  split; [auto|]. split; [discriminate|].
  intros n Hn. inversion Hn. repeat split. apply ceil_div_nonneg. lia.
Qed.

(** X8. With the provider's data unchanged, time only takes away: if the
    resolver grants access (or a trial) when it reads a later time it
    grants it when it reads any earlier time, and the days remaining
    reported later are at most those reported earlier. *)
Theorem entitlement_decays :
  forall (w w' : World) (st st' : EntitlementState),
    activeSubscriptions w = activeSubscriptions w' ->
    (resolver_now w <= resolver_now w')%Z ->
    fst (checkActiveSubscription w) = Ok st ->
    fst (checkActiveSubscription w') = Ok st' ->
    (hasAccess st' = true -> hasAccess st = true)
    /\ (isTrial st' = true -> isTrial st = true)
    /\ (forall n n', daysRemaining st = Some n -> daysRemaining st' = Some n' ->
          (n' <= n)%Z).
Proof.
  intros w w' st st' Hsubs Hclock.
  rewrite !checkActiveSubscription_run, <- Hsubs. cbn [fst].
  destruct (activeSubscriptions w) as [subscriptions|e]; [|discriminate].
  intros H H'. inversion H as [Hst]. inversion H' as [Hst']. clear H H' Hst Hst'.
  unfold entitlement_of.
  destruct (selected_subscription subscriptions) as [sub|];
    [|repeat split; try discriminate; auto].
  destruct (status sub =? "ACTIVE"); [repeat split; try discriminate; auto|].
  destruct ((status sub =? "ACCEPTED") || (status sub =? "TRIAL"));
    [|repeat split; try discriminate; auto].
  destruct (createdAt sub) as [created|]; [|repeat split; try discriminate; auto].
  destruct (setDate_plus created (or_default (trialDays sub) DEFAULT_TRIAL_DAYS))
    as [trialEnd|]; [|repeat split; try discriminate; auto].
  destruct (Z.leb_spec (resolver_now w') trialEnd) as [Hle'|Hgt'];
    destruct (Z.leb_spec (resolver_now w) trialEnd) as [Hle|Hgt];
    cbn [hasAccess isTrial daysRemaining];
    try (repeat split; try discriminate; auto; fail); try lia.
  split; [auto|]. split; [auto|].
  intros n n' Hn Hn'. inversion Hn. inversion Hn'. apply ceil_div_mono. lia.
Qed.

(** X9. In a fixed-offset zone, once the creation date has passed when
    the resolver reads the clock, the days remaining of a trial never
    exceed its length: the provider's trial days, or [DEFAULT_TRIAL_DAYS]
    when they are missing or zero. *)
Theorem days_remaining_within_trial :
  forall (w : World) (subscriptions : list Subscription) (sub : Subscription)
         (created n : Z) (st : EntitlementState),
    activeSubscriptions w = Ok subscriptions ->
    selected_subscription subscriptions = Some sub ->
    createdAt sub = Some created -> (created <= resolver_now w)%Z ->
    fst (checkActiveSubscription w) = Ok st ->
    daysRemaining st = Some n ->
    (0 <= n <= or_default (trialDays sub) DEFAULT_TRIAL_DAYS)%Z.
Proof.
  intros w subscriptions sub created n st Hsubs Hsel Hc Hpast Hres Hn.
  rewrite checkActiveSubscription_run, Hsubs, Hsel in Hres. cbn [fst] in Hres.
  inversion Hres as [Hst]. clear Hres. subst st. unfold entitlement_of in Hn.
  destruct (status sub =? "ACTIVE"); [discriminate|].
  destruct ((status sub =? "ACCEPTED") || (status sub =? "TRIAL")); [|discriminate].
  rewrite Hc, setDate_plus_fixed in Hn.
  destruct (JsDate.TimeClip _) as [trialEnd|] eqn:Hclip; [|discriminate].
  apply TimeClip_Some in Hclip. destruct Hclip as [-> _].
  destruct (Z.leb_spec (resolver_now w)
              (created + or_default (trialDays sub) DEFAULT_TRIAL_DAYS * JsDate.msPerDay))
    as [Hle|Hgt]; [|discriminate].
  cbn [daysRemaining] in Hn. inversion Hn. split.
  - apply ceil_div_nonneg. lia.
  - apply ceil_div_le. lia.
Qed.

Lemma selected_after_others (others rest : list Subscription) (sub : Subscription) :
  (forall s, In s others -> name s <> PLAN_NAME) -> name sub = PLAN_NAME ->
  selected_subscription (others ++ sub :: rest) = Some sub.
Proof.
  intros Hothers Hsub. unfold selected_subscription.
  induction others as [|o others IH]; cbn [app find].
  - now rewrite Hsub, String.eqb_refl.
  - assert (Ho : name o <> PLAN_NAME) by (apply Hothers; now left).
    apply String.eqb_neq in Ho. rewrite Ho.
    apply IH. intros s Hin. apply Hothers. now right.
Qed.

Lemma selected_none (subscriptions : list Subscription) :
  (forall s, In s subscriptions -> name s <> PLAN_NAME) ->
  selected_subscription subscriptions = None.
Proof.
  intros H. unfold selected_subscription.
  induction subscriptions as [|o l IH]; [reflexivity|]. cbn [find].
  assert (Ho : name o <> PLAN_NAME) by (apply H; now left).
  apply String.eqb_neq in Ho. rewrite Ho. apply IH.
  intros s Hin. apply H. now right.
Qed.

(** X10. Only the first subscription named [PLAN_NAME] counts.  The
    resolver answers as it does when the provider lists that subscription
    alone: subscriptions of other names before it and whatever follows it,
    including an ACTIVE subscription of the same name, change nothing.
    With no subscription of that name it answers no access. *)
Theorem first_named_subscription_decides :
  forall (w : World) (others rest : list Subscription) (sub : Subscription),
    (forall s, In s others -> name s <> PLAN_NAME) ->
    (name sub = PLAN_NAME ->
       activeSubscriptions w = Ok (others ++ sub :: rest)%list ->
       fst (checkActiveSubscription w)
         = fst (checkActiveSubscription (set_activeSubscriptions (Ok [sub]) w)))
    /\ (activeSubscriptions w = Ok others ->
        fst (checkActiveSubscription w) = Ok (mkEntitlement false false None)).
Proof.
  intros w others rest sub Hothers. split.
  - intros Hsub Hsubs. rewrite !checkActiveSubscription_run, Hsubs. cbn [fst].
    cbn [activeSubscriptions set_activeSubscriptions clock].
    rewrite (selected_after_others others rest sub Hothers Hsub).
    change [sub] with ([] ++ sub :: [])%list.
    rewrite (selected_after_others [] [] sub); [reflexivity | intros s [] | exact Hsub].
  - intros Hsubs. rewrite checkActiveSubscription_run, Hsubs. cbn [fst].
    now rewrite (selected_none others Hothers).
Qed.

Lemma createSubscription_world (returnUrl : string) (w : World) :
  snd (createSubscription returnUrl w)
    = add_event (EvSubscriptionCreate PLAN_NAME PLAN_TRIAL_DAYS returnUrl) w.
Proof.
  unfold createSubscription, bind, mutation_appSubscriptionCreate, throw, ret.
  destruct (subscriptionCreate w) as [response|e]; [|reflexivity].
  destruct (0 <? length (userErrors response))%nat; [reflexivity|].
  now destruct (confirmationUrl response) as [[|c url]|].
Qed.

(** X11. The offer and the resolver agree.  [createSubscription] sends the
    provider exactly one offer, whatever comes back, and an error thrown by
    the call goes to the caller unchanged.  In a fixed-offset zone, a
    subscription carrying the name and the trial days of that offer, once
    ACCEPTED, is the one the resolver selects, and it gives access exactly
    up to the creation date plus the offer's trial days, that instant
    being a time value. *)
Theorem offer_matches_resolver :
  forall (returnUrl : string) (w : World),
    (forall e, subscriptionCreate w = Throw e ->
       fst (createSubscription returnUrl w) = Throw e)
    /\ exists offerName offerDays,
         since w (snd (createSubscription returnUrl w))
           = [EvSubscriptionCreate offerName offerDays returnUrl]
         /\ forall (w' : World) (created : Z) (st : EntitlementState),
              activeSubscriptions w'
                = Ok [mkSubscription offerName "ACCEPTED" (Some created) (Some offerDays)] ->
              fst (checkActiveSubscription w') = Ok st ->
              let trialEnd := (created + offerDays * JsDate.msPerDay)%Z in
              (hasAccess st = true
               <-> ((Z.abs trialEnd <= JsDate.MAX_TIME)%Z
                    /\ (resolver_now w' <= trialEnd)%Z)).
Proof.
  intros returnUrl w. split.
  - intros e He. unfold createSubscription, bind, mutation_appSubscriptionCreate.
    now rewrite He.
  - exists PLAN_NAME, PLAN_TRIAL_DAYS. split.
    + rewrite createSubscription_world. now apply since_extends.
    + intros w' created st Hsubs Hres trialEnd.
      rewrite (trial_window w' _ _ created Hsubs eq_refl (or_introl eq_refl) eq_refl)
        in Hres.
      change (or_default _ DEFAULT_TRIAL_DAYS) with PLAN_TRIAL_DAYS in Hres.
      fold trialEnd in Hres.
      destruct (Z.leb_spec (Z.abs trialEnd) JsDate.MAX_TIME) as [Hin|Hout];
        destruct (Z.leb_spec (resolver_now w') trialEnd) as [Hle|Hgt];
        cbn [andb] in Hres; injection Hres as <-; cbn [hasAccess];
        split; intros H; try easy; exfalso; lia.
Qed.

(** *** More on routes/app._index.tsx *)

Lemma peek_data_trace (trial : bool) (days : option Z) (w : World) :
  exists data,
    peek_data trial days w = (Ok data, add_event EvMetafieldQuery w)
    /\ hasSubscription data = true.
Proof. unfold peek_data. now eexists. Qed.

(** Once [authenticate.admin] has returned, the loader answers, and it
    only looks. *)
Lemma loader_body_only_looks (request : Request) (w : World) :
  (exists data, fst (loader_body request w) = Ok data)
  /\ count_events is_counter_write (since w (snd (loader_body request w))) = 0%nat
  /\ count_events is_generation (since w (snd (loader_body request w))) = 0%nat
  /\ (count_events is_counter_read (since w (snd (loader_body request w))) <= 1)%nat.
Proof.
  unfold loader_body. cbv zeta.
  set (w1 := add_event EvActiveSubscriptions w).
  assert (Hpeek : forall trial days (w0 : World) (new : list Event),
             trace w0 = (new ++ trace w)%list ->
             count_events is_counter_write new = 0%nat ->
             count_events is_generation new = 0%nat ->
             count_events is_counter_read new = 0%nat ->
             (exists data, fst (peek_data trial days w0) = Ok data)
             /\ count_events is_counter_write (since w (snd (peek_data trial days w0))) = 0%nat
             /\ count_events is_generation (since w (snd (peek_data trial days w0))) = 0%nat
             /\ (count_events is_counter_read (since w (snd (peek_data trial days w0))) <= 1)%nat).
  { intros trial days w0 new Htr Hw Hg Hr.
    destruct (peek_data_trace trial days w0) as (data & -> & _). cbn [fst snd].
    rewrite (since_extends w _ (EvMetafieldQuery :: new))
      by (cbn [trace add_event]; now rewrite Htr).
    change (EvMetafieldQuery :: new) with ([EvMetafieldQuery] ++ new)%list.
    rewrite !count_events_app, Hw, Hg, Hr. cbn.
    split; [now exists data|]. repeat split; lia. }
  assert (H1 : trace w1 = ([EvActiveSubscriptions] ++ trace w)%list) by reflexivity.
  destruct (fst (checkActiveSubscription w)) as [st|e];
    [destruct (hasAccess st)|];
    try (apply (Hpeek _ _ w1 [EvActiveSubscriptions] H1); reflexivity).
  pose proof (createSubscription_world (origin request ++ "/app") w1) as Hcw.
  destruct (createSubscription (origin request ++ "/app") w1) as [[url|e] w2];
    cbn [snd] in Hcw; subst w2.
  - cbn [fst snd].
    rewrite (since_extends w _ [EvSubscriptionCreate PLAN_NAME PLAN_TRIAL_DAYS
                                  (origin request ++ "/app"); EvActiveSubscriptions])
      by reflexivity.
    split; [now eexists|]. cbn. repeat split; lia.
  - apply (Hpeek _ _ _ [EvSubscriptionCreate PLAN_NAME PLAN_TRIAL_DAYS
                          (origin request ++ "/app"); EvActiveSubscriptions]);
      reflexivity.
Qed.

(** X12. The page loader throws only what [authenticate.admin] throws, and
    then it has made no call; once authenticated it always answers,
    whatever the other collaborators do.  And it only looks: it never
    writes the usage counter, never calls the generation, and reads the
    counter at most once. *)
Theorem loader_throws_only_unauthenticated :
  forall (request : Request) (w : World),
    (forall e, authentication w request = Throw e ->
       fst (loader request w) = Throw e /\ since w (snd (loader request w)) = [])
    /\ (authentication w request = Ok tt -> exists data, fst (loader request w) = Ok data)
    /\ count_events is_counter_write (since w (snd (loader request w))) = 0%nat
    /\ count_events is_generation (since w (snd (loader request w))) = 0%nat
    /\ (count_events is_counter_read (since w (snd (loader request w))) <= 1)%nat.
Proof.
  intros request w.
  destruct (authentication_cases request w) as [Hauth | [e Hauth]].
  - rewrite (loader_authenticated request w Hauth).
    change (since w (snd (loader_body request (authenticated w))))
      with (since (authenticated w) (snd (loader_body request (authenticated w)))).
    destruct (loader_body_only_looks request (authenticated w))
      as (Hans & Hw & Hg & Hr).
    split; [intros e He; congruence|].
    split; [intros _; exact Hans|].
    split; [exact Hw|]. split; [exact Hg | exact Hr].
  - rewrite loader_run, Hauth. cbn [fst snd].
    rewrite (since_extends w (authenticated w) []) by reflexivity.
    split; [intros e' He'; split; congruence|].
    split; [intros H; congruence|].
    cbn. repeat split; lia.
Qed.

(** X13. What the page loader answers, once authenticated, when the
    resolver answers.  With access: the shop is shown as subscribed, with
    the resolver's trial flag and days remaining and the count
    [getCurrentUsageCount] gives.  Without access it sends an offer whose
    return URL is the request's origin followed by /app: when the offer
    succeeds the shop is shown as not subscribed, with the confirmation URL
    and a count of 0, and the counter is not read; when the offer throws
    the shop is shown as subscribed. *)
Theorem loader_outcomes :
  forall (request : Request) (w : World) (st : EntitlementState),
    authentication w request = Ok tt ->
    let w0 := authenticated w in
    fst (checkActiveSubscription w0) = Ok st ->
    let w1 := snd (checkActiveSubscription w0) in
    let returnUrl := origin request ++ "/app" in
    (hasAccess st = true ->
       forall n, fst (getCurrentUsageCount w1) = Ok n ->
         fst (loader request w)
           = Ok (mkLoaderData true None n (isTrial st) (daysRemaining st)))
    /\ (hasAccess st = false ->
        forall url, fst (createSubscription returnUrl w1) = Ok url ->
          fst (loader request w) = Ok (mkLoaderData false (Some url) 0 false None)
          /\ since w (snd (loader request w))
             = [EvSubscriptionCreate PLAN_NAME PLAN_TRIAL_DAYS returnUrl;
                EvActiveSubscriptions])
    /\ (hasAccess st = false ->
        forall e, fst (createSubscription returnUrl w1) = Throw e ->
          exists n, fst (loader request w) = Ok (mkLoaderData true None n false None)).
Proof.
  intros request w st Hauth w0 Hst w1 returnUrl. subst w1 returnUrl.
  rewrite checkActiveSubscription_world, (loader_authenticated request w Hauth).
  unfold loader_body. fold w0. rewrite Hst. cbv zeta.
  split; [|split].
  - intros -> n Hn. unfold peek_data. cbn [fst]. now rewrite Hn.
  - intros -> url Hurl.
    pose proof (createSubscription_world (origin request ++ "/app")
                  (add_event EvActiveSubscriptions w0)) as Hcw.
    destruct (createSubscription _ _) as [[url'|e] w2]; cbn [fst snd] in *;
      [|discriminate].
    inversion Hurl; subst. split; [reflexivity|]. now apply since_extends.
  - intros -> e He.
    destruct (createSubscription _ _) as [[url'|e'] w2]; cbn [fst] in *;
      [discriminate|].
    unfold peek_data. cbn [fst]. now eexists.
Qed.

Lemma check_generation (w : World) :
  generation (snd (checkAndIncrementUsage w)) = generation w.
Proof.
  destruct (check_world_cases w) as [-> | (usage & _ & _ & ->)]; [reflexivity|].
  unfold save_outcome. cbn [shopId metafieldsSetErrors add_event].
  destruct (shopId w) as [[[|c id]|]|e]; try reflexivity.
  now destruct (metafieldsSetErrors w) as [[|m errors]|e].
Qed.

(** The handler from the reading of the form on, when the form can be
    read, answers. *)
Lemma counter_gate_answers (request : Request) (w0 w1 : World) (form : FormData) :
  formData request = Ok form ->
  trace w1 = (EvActiveSubscriptions :: trace w0)%list ->
  exists data,
    fst (counter_gate request w1) = Ok data
    /\ (error data <> None -> reply data = "")
    /\ (error data = None ->
        count_events is_generation (since w0 (snd (counter_gate request w1)))
        = 1%nat).
Proof.
  intros Hform H1. unfold counter_gate. rewrite Hform.
  destruct (form_fields request) as [[message tone]|];
    [|eexists; cbn [fst error reply]; repeat split; discriminate].
  destruct (check_trace (tick w1)) as (new & Htr & Hg & _ & _).
  destruct (checkAndIncrementUsage (tick w1)) as [[d|e] w2]; cbn [snd] in Htr;
    [|eexists; cbn [fst error reply]; repeat split; discriminate].
  destruct (allowed d);
    [|eexists; cbn [fst error reply]; repeat split; discriminate].
  unfold generation_step. cbn [fst snd].
  rewrite (since_extends w0 _ ([EvGenerate message tone] ++ new ++ [EvActiveSubscriptions])%list)
    by (cbn [trace add_event app]; rewrite Htr; cbn [trace tick]; rewrite H1;
        now rewrite <- app_assoc).
  rewrite !count_events_app, Hg.
  destruct (generation w2 message tone) as [text|e]; eexists;
    (split; [reflexivity|]); cbn [error reply]; split; intros H;
    try reflexivity; try discriminate; congruence.
Qed.

(** X14. The generation action throws in two cases only, both outside its
    [try] blocks: when [authenticate.admin] throws, and then no call was
    made; and when the request was let through the subscription gate and
    [request.formData()] rejects, and then the only call made is the
    subscriptions query and the stored counter is untouched.  In every
    other case it answers a reply or an error: an answer with an error has
    an empty reply, and an answer without error comes from a generation
    call that was made. *)
Theorem action_throws_only_outside_try :
  forall (request : Request) (w : World),
    let w0 := authenticated w in
    let calls := since w (snd (action request w)) in
    (forall e, authentication w request = Throw e ->
       fst (action request w) = Throw e /\ calls = [])
    /\ (forall e, authentication w request = Ok tt ->
          (forall st, fst (checkActiveSubscription w0) = Ok st -> hasAccess st = true) ->
          formData request = Throw e ->
          fst (action request w) = Throw e
          /\ calls = [EvActiveSubscriptions]
          /\ metafieldValue (snd (action request w)) = metafieldValue w)
    /\ (authentication w request = Ok tt ->
        (exists st, fst (checkActiveSubscription w0) = Ok st /\ hasAccess st = false)
        \/ (exists form, formData request = Ok form) ->
        exists data,
          fst (action request w) = Ok data
          /\ (error data <> None -> reply data = "")
          /\ (error data = None -> count_events is_generation calls = 1%nat)).
Proof.
  intros request w w0 calls. subst calls. split; [|split].
  - intros e Hauth. rewrite (action_unauthenticated request w e Hauth).
    cbn [fst snd]. split; [reflexivity|]. now apply since_extends.
  - intros e Hauth Hyes Hform.
    rewrite (action_through_gate request w Hauth Hyes). fold w0.
    unfold counter_gate. rewrite Hform. cbn [fst snd].
    split; [reflexivity|]. split; [now apply since_extends | reflexivity].
  - intros Hauth Hcases. rewrite (action_authenticated request w Hauth). fold w0.
    change (since w (snd (action_body request w0)))
      with (since w0 (snd (action_body request w0))).
    unfold action_body. cbv zeta.
    assert (Hgate : (exists form, formData request = Ok form) ->
              exists data,
                fst (counter_gate request (add_event EvActiveSubscriptions w0)) = Ok data
                /\ (error data <> None -> reply data = "")
                /\ (error data = None ->
                    count_events is_generation
                      (since w0 (snd (counter_gate request
                                        (add_event EvActiveSubscriptions w0))))
                    = 1%nat)).
    { intros [form Hform].
      now apply (counter_gate_answers request w0 _ form). }
    assert (Hdeny : exists data,
              (Ok (mkActionData "" (Some SUBSCRIPTION_REQUIRED)) : result ActionData)
                = Ok data
              /\ (error data <> None -> reply data = "")
              /\ (error data = None ->
                  count_events is_generation
                    (since w0 (add_event EvActiveSubscriptions w0)) = 1%nat)).
    { eexists. split; [reflexivity|]. cbn [error reply]. split; [reflexivity|].
      discriminate. }
    destruct (fst (checkActiveSubscription w0)) as [st|e].
    + destruct (hasAccess st) eqn:Hacc; [|exact Hdeny].
      apply Hgate. destruct Hcases as [(st' & Hst' & Hno) | Hform]; [|exact Hform].
      inversion Hst'; subst. congruence.
    + apply Hgate. destruct Hcases as [(st' & Hst' & _) | Hform]; [|exact Hform].
      discriminate.
Qed.

(** X15. An authenticated request that passes the subscription gate with a
    form that has no message or no tone (missing or empty) is answered that
    both are required, before the usage counter is consulted: the only call
    made is the subscriptions query, so nothing is charged. *)
Theorem missing_fields_cost_nothing :
  forall (request : Request) (w : World) (form : FormData),
    authentication w request = Ok tt ->
    (forall st, fst (checkActiveSubscription (authenticated w)) = Ok st ->
       hasAccess st = true) ->
    formData request = Ok form ->
    falsy_string (formMessage request) = true
    \/ falsy_string (formTone request) = true ->
    fst (action request w) = Ok (mkActionData "" (Some FIELDS_REQUIRED))
    /\ since w (snd (action request w)) = [EvActiveSubscriptions]
    /\ metafieldValue (snd (action request w)) = metafieldValue w.
Proof.
  intros request w form Hauth Hyes Hparsed Hmissing.
  rewrite (action_through_gate request w Hauth Hyes). unfold counter_gate.
  assert (Hform : form_fields request = None).
  { unfold form_fields.
    destruct (formMessage request) as [[|c m]|]; try reflexivity;
      destruct (formTone request) as [[|c' t]|]; try reflexivity.
    destruct Hmissing; discriminate. }
  rewrite Hparsed, Hform. cbn [fst snd]. split; [reflexivity|].
  split; [now apply since_extends | reflexivity].
Qed.

(** X16. No refund: once both gates are passed, the action's answer is the
    generation's text, or the generation's error message with an empty
    reply, and in both cases the stored counter is the one left by
    [checkAndIncrementUsage]: a generation that fails has still used up a
    unit of the day's quota. *)
Theorem generation_failure_still_counts :
  forall (request : Request) (w : World) (message tone : string)
         (d : UsageDecision),
    formMessage request = Some message -> message <> "" ->
    formTone request = Some tone -> tone <> "" ->
    authentication w request = Ok tt ->
    (forall st, fst (checkActiveSubscription (authenticated w)) = Ok st ->
       hasAccess st = true) ->
    let w1 := form_read request w in
    fst (checkAndIncrementUsage w1) = Ok d -> allowed d = true ->
    fst (action request w)
      = Ok (match generation w message tone with
            | Ok text => mkActionData text None
            | Throw e => mkActionData "" (Some e)
            end)
    /\ metafieldValue (snd (action request w))
       = metafieldValue (snd (checkAndIncrementUsage w1))
    /\ since (snd (checkAndIncrementUsage w1)) (snd (action request w))
       = [EvGenerate message tone].
Proof.
  intros request w message tone d Hm Hmne Ht Htne Hauth Hyes w1 Hd Hallowed.
  subst w1. rewrite form_read_world in *.
  rewrite (action_through_gate request w Hauth Hyes). unfold counter_gate.
  destruct (form_parsed request message Hm) as [form Hparsed].
  rewrite Hparsed, (form_fields_present request message tone Hm Hmne Ht Htne).
  pose proof (check_generation
                (tick (add_event EvActiveSubscriptions (authenticated w)))) as Hgen.
  destruct (checkAndIncrementUsage
              (tick (add_event EvActiveSubscriptions (authenticated w))))
    as [[d'|e] w2]; cbn [fst snd] in *; [|discriminate].
  inversion Hd; subst d'. rewrite Hallowed. unfold generation_step. cbn [fst snd].
  rewrite Hgen. cbn [generation add_event tick authenticated].
  split; [reflexivity|]. split; [reflexivity|]. now apply since_extends.
Qed.

(** *** openai.server.ts *)

Lemma empty_false (s : string) : s <> "" -> OpenAI.empty s = false.
Proof. now destruct s. Qed.

(** X17. [generateAIReply] sends nothing until it is ready: without a
    configured API key it throws the key error, whatever the inputs, and
    with a key but an empty message or tone it throws the input error, in
    both cases without any request; with a key and both inputs it sends
    exactly one request, the one built from the message and the tone. *)
Theorem openai_request_guard :
  forall (trim : string -> string) (env : OpenAI.Env) (message tone : string),
    (falsy_string (OpenAI.OPENAI_API_KEY env) = true ->
       OpenAI.generateAIReply trim env message tone
         = (Throw OpenAI.KEY_MISSING, []))
    /\ (falsy_string (OpenAI.OPENAI_API_KEY env) = false ->
        message = "" \/ tone = "" ->
        OpenAI.generateAIReply trim env message tone
          = (Throw OpenAI.INPUT_REQUIRED, []))
    /\ (falsy_string (OpenAI.OPENAI_API_KEY env) = false ->
        message <> "" -> tone <> "" ->
        snd (OpenAI.generateAIReply trim env message tone)
          = [OpenAI.chat_request message tone]).
Proof.
  intros trim env message tone.
  unfold OpenAI.generateAIReply, OpenAI.body.
  split; [|split].
  - intros ->. reflexivity.
  - intros -> [-> | ->]; [reflexivity|].
    now rewrite orb_true_r.
  - intros -> Hm Ht. rewrite (empty_false _ Hm), (empty_false _ Ht). cbn [orb].
    destruct (OpenAI.completions_create env _) as [[[|c text]|]|[status m|m|]];
      reflexivity.
Qed.

(** X18. [generateAIReply] returns a text exactly when a key is
    configured, message and tone are not empty and the completion carries a
    non-empty content; the text is then that content, trimmed. *)
Theorem openai_returns_trimmed_content :
  forall (trim : string -> string) (env : OpenAI.Env) (message tone text : string),
    fst (OpenAI.generateAIReply trim env message tone) = Ok text
    <-> (falsy_string (OpenAI.OPENAI_API_KEY env) = false
         /\ message <> "" /\ tone <> ""
         /\ exists reply,
              reply <> ""
              /\ OpenAI.completions_create env (OpenAI.chat_request message tone)
                 = OpenAI.Returned (Some reply)
              /\ text = trim reply).
Proof.
  intros trim env message tone text.
  unfold OpenAI.generateAIReply, OpenAI.body. split.
  - destruct (falsy_string (OpenAI.OPENAI_API_KEY env)); [discriminate|].
    destruct message as [|c m]; [discriminate|].
    destruct tone as [|c' t]; [discriminate|]. cbn [OpenAI.empty orb].
    destruct (OpenAI.completions_create env _) as [[[|c0 reply]|]|[status e|e|]];
      cbn [fst]; try discriminate.
    intros H. inversion H. repeat split; try discriminate.
    exists (String c0 reply). repeat split. discriminate.
  - intros (-> & Hm & Ht & reply & Hr & -> & ->).
    rewrite (empty_false _ Hm), (empty_false _ Ht). cbn [orb].
    now destruct reply.
Qed.

(** X19. What [generateAIReply] throws once the request is sent: an API
    error is thrown as a new error whose message wraps the API's message
    between a fixed prefix and a fixed suffix; any other error is thrown
    again with its message unchanged; a thrown value that is not an error
    becomes the generic message; and a completion with no content, or an
    empty one, becomes the no-reply error. *)
Theorem openai_error_messages :
  forall (trim : string -> string) (env : OpenAI.Env) (message tone : string),
    falsy_string (OpenAI.OPENAI_API_KEY env) = false ->
    message <> "" -> tone <> "" ->
    let outcome := OpenAI.completions_create env (OpenAI.chat_request message tone) in
    let thrown := fst (OpenAI.generateAIReply trim env message tone) in
    (forall status m, outcome = OpenAI.Raised (OpenAI.APIError status m) ->
       thrown = Throw (OpenAI.API_ERROR_PREFIX ++ m ++ OpenAI.API_ERROR_SUFFIX)
       /\ occurs_in m (OpenAI.API_ERROR_PREFIX ++ m ++ OpenAI.API_ERROR_SUFFIX))
    /\ (forall m, outcome = OpenAI.Raised (OpenAI.PlainError m) -> thrown = Throw m)
    /\ (outcome = OpenAI.Raised OpenAI.NotAnError -> thrown = Throw OpenAI.UNEXPECTED)
    /\ (outcome = OpenAI.Returned None \/ outcome = OpenAI.Returned (Some "") ->
        thrown = Throw OpenAI.NO_REPLY).
Proof.
  intros trim env message tone Hkey Hm Ht outcome thrown. subst outcome thrown.
  unfold OpenAI.generateAIReply, OpenAI.body.
  rewrite Hkey, (empty_false _ Hm), (empty_false _ Ht). cbn [orb].
  split; [|split; [|split]].
  - intros status m ->. cbn [fst]. split; [reflexivity|].
    apply occurs_in_append_l, occurs_in_self_prefix.
  - intros m ->. reflexivity.
  - intros ->. reflexivity.
  - intros [-> | ->]; reflexivity.
Qed.

Lemma form_fields_inv (request : Request) (message tone : string) :
  form_fields request = Some (message, tone) ->
  formMessage request = Some message /\ message <> ""
  /\ formTone request = Some tone /\ tone <> "".
Proof.
  unfold form_fields.
  destruct (formMessage request) as [[|c m]|]; try discriminate;
    destruct (formTone request) as [[|c' t]|]; try discriminate.
  intros H. inversion H. repeat split; discriminate.
Qed.

(** X20. The action calls the generation only with the message and the
    tone of the form, both non-empty.  So, with an API key configured,
    [generateAIReply] called from the action always gets past its own input
    check and sends its request. *)
Theorem action_generates_from_form_fields :
  forall (request : Request) (w : World) (message tone : string),
    In (EvGenerate message tone) (since w (snd (action request w))) ->
    formMessage request = Some message /\ message <> ""
    /\ formTone request = Some tone /\ tone <> ""
    /\ forall (trim : string -> string) (env : OpenAI.Env),
         falsy_string (OpenAI.OPENAI_API_KEY env) = false ->
         snd (OpenAI.generateAIReply trim env message tone)
           = [OpenAI.chat_request message tone].
Proof.
  intros request w message tone Hin.
  assert (Hfields : formMessage request = Some message /\ message <> ""
                    /\ formTone request = Some tone /\ tone <> "").
  { destruct (authentication_cases request w) as [Hauth | [e Hauth]];
      [|rewrite (action_unauthenticated request w e Hauth) in Hin;
        cbn [snd] in Hin;
        rewrite (since_extends w (authenticated w) []) in Hin by reflexivity;
        destruct Hin].
    rewrite (action_authenticated request w Hauth) in Hin.
    change (since w (snd (action_body request (authenticated w))))
      with (since (authenticated w) (snd (action_body request (authenticated w))))
      in Hin.
    set (w0 := authenticated w) in *. unfold action_body in Hin. cbv zeta in Hin.
    set (w1 := add_event EvActiveSubscriptions w0) in *.
    assert (Hgate : In (EvGenerate message tone)
                       (since w0 (snd (counter_gate request w1))) ->
                    form_fields request = Some (message, tone)).
    { unfold counter_gate.
      destruct (formData request) as [form|e0];
        [|cbn [snd]; rewrite (since_extends w0 (tick w1) [EvActiveSubscriptions])
            by reflexivity;
          intros [H | []]; discriminate].
      destruct (form_fields request) as [[m t]|].
      - destruct (check_trace (tick w1)) as (new & Htr & Hg & _ & _).
        assert (Hnew : ~ In (EvGenerate message tone) (new ++ [EvActiveSubscriptions])).
        { intros H. apply in_app_or in H. destruct H as [H | [H | []]]; [|discriminate].
          pose proof (count_events_none _ _ _ Hg H). discriminate. }
        assert (Hsince : since w0 (snd (checkAndIncrementUsage (tick w1)))
                         = (new ++ [EvActiveSubscriptions])%list).
        { apply since_extends. rewrite Htr. subst w1. cbn [trace add_event tick].
          now rewrite <- app_assoc. }
        destruct (checkAndIncrementUsage (tick w1)) as [[d|e] w2]; cbn [snd] in *.
        + destruct (allowed d); cbn [snd].
          * unfold generation_step. cbn [snd].
            rewrite (since_extends w0 _ ([EvGenerate m t] ++ new ++ [EvActiveSubscriptions])%list)
              by (cbn [trace add_event app]; rewrite Htr; subst w1;
                  cbn [trace add_event tick]; now rewrite <- app_assoc).
            intros [H | H]; [now inversion H | contradiction].
          * rewrite Hsince. contradiction.
        + rewrite Hsince. contradiction.
      - cbn [snd]. rewrite (since_extends w0 (tick w1) [EvActiveSubscriptions])
          by reflexivity.
        intros [H | []]. discriminate. }
    apply form_fields_inv.
    destruct (fst (checkActiveSubscription w0)) as [st|e]; [|now apply Hgate].
    destruct (hasAccess st); [now apply Hgate|].
    cbn [snd] in Hin. rewrite (since_extends w0 w1 [EvActiveSubscriptions]) in Hin
      by reflexivity.
    destruct Hin as [H | []]. discriminate. }
  destruct Hfields as (Hm & Hmne & Ht & Htne). repeat split; try assumption.
  intros trim env Hkey.
  unfold OpenAI.generateAIReply, OpenAI.body.
  rewrite Hkey, (empty_false _ Hmne), (empty_false _ Htne). cbn [orb].
  destruct (OpenAI.completions_create env _) as [[[|c text]|]|[status m|m|]];
    reflexivity.
Qed.

(** *** The calendar behind [getTodayDateString] *)

Local Open Scope Z_scope.

Lemma days_from_civil_civil (z : Z) : days_from_civil (JsDate.civil z) = z.
Proof.
  unfold days_from_civil, JsDate.civil.
  set (z0 := z + 719468).
  set (era := z0 / 146097).
  set (doe := z0 - era * 146097).
  assert (Hdoe : 0 <= doe < 146097)
    by (subst doe era; Z.div_mod_to_equations; lia).
  set (yoe := (doe - doe / 1460 + doe / 36524 - doe / 146096) / 365).
  set (doy := doe - (365 * yoe + yoe / 4 - yoe / 100)).
  assert (Hy : 0 <= yoe <= 399 /\ 0 <= doy <= 365)
    by (subst yoe doy; Z.div_mod_to_equations; lia).
  set (mp := (5 * doy + 2) / 153).
  assert (Hmp : 0 <= mp <= 11) by (subst mp; Z.div_mod_to_equations; lia).
  destruct (Z.ltb_spec mp 10) as [Hlt|Hge].
  - replace (mp + 3 <=? 2) with false by (symmetry; apply Z.leb_gt; lia).
    replace (2 <? mp + 3) with true by (symmetry; apply Z.ltb_lt; lia).
    replace ((yoe + era * 400) / 400) with era
      by (Z.div_mod_to_equations; lia).
    replace (yoe + era * 400 - era * 400) with yoe by lia.
    replace (mp + 3 - 3) with mp by lia.
    subst doy z0 doe. lia.
  - replace (mp - 9 <=? 2) with true by (symmetry; apply Z.leb_le; lia).
    replace (2 <? mp - 9) with false by (symmetry; apply Z.ltb_ge; lia).
    replace ((yoe + era * 400 + 1 - 1) / 400) with era
      by (Z.div_mod_to_equations; lia).
    replace (yoe + era * 400 + 1 - 1 - era * 400) with yoe by lia.
    replace (mp - 9 + 9) with mp by lia.
    subst doy z0 doe. lia.
Qed.

Lemma civil_month_day (z : Z) :
  let '(y, m, d) := JsDate.civil z in 1 <= m <= 12 /\ 1 <= d <= 31.
Proof.
  unfold JsDate.civil.
  set (z0 := z + 719468).
  set (era := z0 / 146097).
  set (doe := z0 - era * 146097).
  assert (Hdoe : 0 <= doe < 146097)
    by (subst doe era; Z.div_mod_to_equations; lia).
  set (yoe := (doe - doe / 1460 + doe / 36524 - doe / 146096) / 365).
  set (doy := doe - (365 * yoe + yoe / 4 - yoe / 100)).
  assert (Hy : 0 <= yoe <= 399 /\ 0 <= doy <= 365)
    by (subst yoe doy; Z.div_mod_to_equations; lia).
  set (mp := (5 * doy + 2) / 153).
  assert (Hmp : 0 <= mp <= 11) by (subst mp; Z.div_mod_to_equations; lia).
  assert (Hd : 1 <= doy - (153 * mp + 2) / 5 + 1 <= 31)
    by (subst mp; Z.div_mod_to_equations; lia).
  destruct (Z.ltb_spec mp 10); lia.
Qed.

Lemma civil_year_range (z : Z) :
  -719528 <= z < 2932897 ->
  let '(y, m, d) := JsDate.civil z in 0 <= y <= 9999.
Proof.
  intros Hz. unfold JsDate.civil.
  set (z0 := z + 719468).
  set (era := z0 / 146097).
  set (doe := z0 - era * 146097).
  assert (Hdoe : 0 <= doe < 146097)
    by (subst doe era; Z.div_mod_to_equations; lia).
  assert (Hera : -1 <= era <= 24)
    by (subst era z0; Z.div_mod_to_equations; lia).
  set (yoe := (doe - doe / 1460 + doe / 36524 - doe / 146096) / 365).
  set (doy := doe - (365 * yoe + yoe / 4 - yoe / 100)).
  assert (Hy : 0 <= yoe <= 399 /\ 0 <= doy <= 365)
    by (subst yoe doy; Z.div_mod_to_equations; lia).
  set (mp := (5 * doy + 2) / 153).
  assert (Hmp : 0 <= mp <= 11) by (subst mp; Z.div_mod_to_equations; lia).
  assert (Hlast : 146037 <= doe -> yoe = 399 /\ 10 <= mp)
    by (subst mp doy; Z.div_mod_to_equations; lia).
  assert (Hbefore : doe < 146037 -> yoe = 399 -> mp < 10)
    by (subst mp doy; Z.div_mod_to_equations; lia).
  assert (Hz0 : z0 = era * 146097 + doe) by (subst doe; lia).
  destruct (Z.ltb_spec mp 10) as [Hlt|Hge].
  - replace (mp + 3 <=? 2) with false by (symmetry; apply Z.leb_gt; lia).
    subst z0. lia.
  - replace (mp - 9 <=? 2) with true by (symmetry; apply Z.leb_le; lia).
    subst z0. lia.
Qed.

Lemma split_head_free (c : ascii) (a b : string) :
  free_of c a = true -> split_head c (a ++ b)%string = (a ++ split_head c b)%string.
Proof.
  induction a as [|x a IH]; [reflexivity|].
  cbn [free_of append split_head]. intros H. apply andb_prop in H.
  destruct H as [Hx Ha]. apply negb_true_iff in Hx. rewrite Hx. now rewrite IH.
Qed.

Lemma append_empty_r (s : string) : (s ++ "")%string = s.
Proof. induction s as [|c s IH]; [reflexivity|]. cbn. now rewrite IH. Qed.

Lemma free_of_append (c : ascii) (a b : string) :
  free_of c a = true -> free_of c b = true -> free_of c (a ++ b) = true.
Proof.
  induction a as [|x a IH]; [auto|]. cbn [free_of append]. intros H Hb.
  apply andb_prop in H. destruct H as [Hx Ha]. rewrite Hx. cbn. now apply IH.
Qed.

Lemma digit_cases (n : Z) :
  exists k, 0 <= k < 10 /\ n mod 10 = k
            /\ JsDate.digit n = ascii_of_nat (48 + Z.to_nat k).
Proof.
  exists (n mod 10). split; [apply Z.mod_pos_bound; lia|]. now split.
Qed.

Lemma digit_not_T (n : Z) : Ascii.eqb (JsDate.digit n) "T" = false.
Proof.
  destruct (digit_cases n) as (k & Hk & _ & ->).
  assert (k = 0 \/ k = 1 \/ k = 2 \/ k = 3 \/ k = 4 \/ k = 5 \/ k = 6 \/ k = 7
          \/ k = 8 \/ k = 9) as H by lia.
  repeat (destruct H as [-> | H]; [reflexivity|]). now subst.
Qed.

Lemma digit_inj (a b : Z) :
  JsDate.digit a = JsDate.digit b -> a mod 10 = b mod 10.
Proof.
  unfold JsDate.digit. intros H.
  assert (Ha : 0 <= a mod 10 < 10) by (apply Z.mod_pos_bound; lia).
  assert (Hb : 0 <= b mod 10 < 10) by (apply Z.mod_pos_bound; lia).
  apply (f_equal nat_of_ascii) in H.
  rewrite !nat_ascii_embedding in H by lia. lia.
Qed.

Lemma pad_free_of_T (w : nat) : forall n, free_of "T" (JsDate.pad w n) = true.
Proof.
  induction w as [|w IH]; intros n; [reflexivity|]. cbn [JsDate.pad].
  apply free_of_append; [apply IH|]. cbn [free_of]. now rewrite digit_not_T.
Qed.

Lemma length_append (a b : string) :
  String.length (a ++ b) = (String.length a + String.length b)%nat.
Proof. induction a as [|c a IH]; [reflexivity|]. cbn. now rewrite IH. Qed.

Lemma length_pad (w : nat) : forall n, String.length (JsDate.pad w n) = w.
Proof.
  induction w as [|w IH]; intros n; [reflexivity|]. cbn [JsDate.pad].
  rewrite length_append, IH. cbn. lia.
Qed.

Lemma append_inj_length (a a' b b' : string) :
  String.length a = String.length a' ->
  (a ++ b)%string = (a' ++ b')%string -> a = a' /\ b = b'.
Proof.
  revert a'. induction a as [|c a IH]; intros [|c' a'] Hlen H;
    try discriminate; [now split|].
  cbn in *. inversion H. destruct (IH a') as [-> ->]; [lia | assumption | now split].
Qed.

Lemma pad_inj (w : nat) : forall n n',
  0 <= n < 10 ^ Z.of_nat w -> 0 <= n' < 10 ^ Z.of_nat w ->
  JsDate.pad w n = JsDate.pad w n' -> n = n'.
Proof.
  induction w as [|w IH]; intros n n' Hn Hn' H.
  - cbn in *. lia.
  - cbn [JsDate.pad] in H.
    rewrite Nat2Z.inj_succ, Z.pow_succ_r in Hn, Hn' by lia.
    apply append_inj_length in H; [|now rewrite !length_pad].
    destruct H as [Hhigh Hlow]. inversion Hlow as [Hd]. apply digit_inj in Hd.
    assert (n / 10 = n' / 10).
    { apply IH; [| |exact Hhigh]; Z.div_mod_to_equations; lia. }
    Z.div_mod_to_equations; lia.
Qed.

Lemma year_string_four (y : Z) : 0 <= y <= 9999 -> JsDate.year_string y = JsDate.pad 4 y.
Proof.
  intros H. unfold JsDate.year_string.
  replace (0 <=? y) with true by (symmetry; apply Z.leb_le; lia).
  now replace (y <=? 9999) with true by (symmetry; apply Z.leb_le; lia).
Qed.

Lemma year_string_free_of_T (y : Z) : free_of "T" (JsDate.year_string y) = true.
Proof.
  unfold JsDate.year_string.
  destruct ((0 <=? y) && (y <=? 9999)); [apply pad_free_of_T|].
  destruct (y <? 0); cbn [append free_of]; now rewrite pad_free_of_T.
Qed.

Lemma todayDateString_isoDate (t : Z) : todayDateString t = isoDate t.
Proof.
  unfold todayDateString, JsDate.toISOString, isoDate.
  destruct (JsDate.civil (JsDate.Day t)) as [[y m] d].
  rewrite split_head_free by apply year_string_free_of_T.
  cbn [append]. cbn [split_head]. cbn [Ascii.eqb Bool.eqb]. cbv iota.
  f_equal. f_equal.
  rewrite split_head_free by apply pad_free_of_T.
  f_equal. cbn [append split_head Ascii.eqb Bool.eqb]. cbv iota. f_equal.
  rewrite split_head_free by apply pad_free_of_T.
  cbn [append split_head Ascii.eqb Bool.eqb]. cbv iota.
  reflexivity.
Qed.

Lemma civil_inj (z z' : Z) : JsDate.civil z = JsDate.civil z' -> z = z'.
Proof.
  intros H. rewrite <- (days_from_civil_civil z), <- (days_from_civil_civil z').
  now rewrite H.
Qed.

Lemma Day_four_digit_years (t : Z) :
  in_four_digit_years t -> -719528 <= JsDate.Day t < 2932897.
Proof.
  unfold in_four_digit_years, YEAR_0, YEAR_10000, JsDate.Day.
  change JsDate.msPerDay with 86400000. intros H.
  Z.div_mod_to_equations. lia.
Qed.

Lemma isoDate_four_digit (t : Z) :
  in_four_digit_years t ->
  exists y m d,
    JsDate.civil (JsDate.Day t) = (y, m, d)
    /\ 0 <= y <= 9999 /\ 1 <= m <= 12 /\ 1 <= d <= 31
    /\ isoDate t = (JsDate.pad 4 y ++ "-" ++ JsDate.pad 2 m ++ "-" ++ JsDate.pad 2 d)%string.
Proof.
  intros Ht. apply Day_four_digit_years in Ht.
  pose proof (civil_year_range (JsDate.Day t) Ht) as Hy.
  pose proof (civil_month_day (JsDate.Day t)) as Hmd.
  unfold isoDate.
  destruct (JsDate.civil (JsDate.Day t)) as [[y m] d].
  exists y, m, d. repeat split; try lia.
  now rewrite year_string_four.
Qed.

Lemma date_text_inj (a a' b b' c c' : string) :
  String.length a = String.length a' -> String.length b = String.length b' ->
  (a ++ "-" ++ b ++ "-" ++ c)%string = (a' ++ "-" ++ b' ++ "-" ++ c')%string ->
  a = a' /\ b = b' /\ c = c'.
Proof.
  intros Ha Hb H.
  apply append_inj_length in H; [|exact Ha]. destruct H as [-> H].
  injection H as H.
  apply append_inj_length in H; [|exact Hb]. destruct H as [-> H].
  injection H as H. now subst.
Qed.

Lemma isoDate_inj (t t' : Z) :
  in_four_digit_years t -> in_four_digit_years t' ->
  isoDate t = isoDate t' -> JsDate.Day t = JsDate.Day t'.
Proof.
  intros Ht Ht' H.
  destruct (isoDate_four_digit t Ht) as (y & m & d & Hc & Hy & Hm & Hd & E).
  destruct (isoDate_four_digit t' Ht') as (y' & m' & d' & Hc' & Hy' & Hm' & Hd' & E').
  rewrite E, E' in H.
  apply date_text_inj in H; [|now rewrite !length_pad..].
  destruct H as (Hyear & Hmonth & Hday).
  apply pad_inj in Hyear; [|cbn; lia|cbn; lia].
  apply pad_inj in Hmonth; [|cbn; lia|cbn; lia].
  apply pad_inj in Hday; [|cbn; lia|cbn; lia].
  apply civil_inj. rewrite Hc, Hc'. now subst.
Qed.

(** X21. The day of the usage counter is the UTC day.  Two instants of
    the same UTC day (the same quotient by 86 400 000 ms) get the same date
    string, whatever the zone of the process; and between the years 0 and
    9999 the string has ten characters and two instants with the same
    string lie in the same UTC day, so the string changes exactly at UTC
    midnight. *)
Theorem counter_day_is_utc_day :
  forall (t t' : Z),
    (JsDate.Day t = JsDate.Day t' -> todayDateString t = todayDateString t')
    /\ (in_four_digit_years t -> in_four_digit_years t' ->
        todayDateString t = todayDateString t' -> JsDate.Day t = JsDate.Day t')
    /\ (in_four_digit_years t -> String.length (todayDateString t) = 10%nat).
Proof.
  intros t t'. rewrite !todayDateString_isoDate. split; [|split].
  - intros H. unfold isoDate. now rewrite H.
  - apply isoDate_inj.
  - intros Ht. destruct (isoDate_four_digit t Ht) as (y & m & d & _ & _ & _ & _ & ->).
    rewrite !length_append, !length_pad. reflexivity.
Qed.

Local Close Scope Z_scope.

(** *** The stored record over any run *)

Lemma todayDateString_same_day (t t' : Z) :
  JsDate.Day t = JsDate.Day t' -> todayDateString t = todayDateString t'.
Proof.
  intros H. rewrite !todayDateString_isoDate. unfold isoDate. now rewrite H.
Qed.

Lemma store_invariant_read (starts : list World) (w : World) :
  store_invariant starts w ->
  store_invariant (w :: starts) (add_event EvMetafieldQuery w).
Proof.
  intros [Hlog Hval]. split.
  - intros t v b [Hin|Hin]; [discriminate|].
    destruct (Hlog t v b Hin) as (w0 & Hw0 & Hgood).
    exists w0. split; [now right | exact Hgood].
  - exact Hval.
Qed.

Lemma store_invariant_save (starts : list World) (usage : DailyUsage) (w : World) :
  (1 <= count usage <= DAILY_LIMIT)%nat ->
  date usage = todayDateString (clock w) ->
  store_invariant starts w ->
  store_invariant (w :: starts)
    (snd (save_outcome usage (add_event EvMetafieldQuery w))).
Proof.
  intros Hc Hd [Hlog Hval].
  assert (Hold : forall t v b, In (EvMetafieldsSet t v b) (trace w) ->
                   exists w0, In w0 (w :: starts) /\ good_write w0 t v).
  { intros t v b Hin. destruct (Hlog t v b Hin) as (w0 & Hw0 & Hgood).
    exists w0. split; [now right | exact Hgood]. }
  assert (Hnew : exists w0, In w0 (w :: starts)
                            /\ good_write w0 (write_time w) (JSON_stringify usage)).
  { exists w. split; [now left|]. now exists usage. }
  unfold save_outcome. cbn [shopId metafieldsSetErrors add_event].
  destruct (shopId w) as [[[|c id]|]|e];
    try (split; [intros t v b [Hin|[Hin|Hin]];
                   [discriminate | discriminate | now apply (Hold t v b)]
                | exact Hval]).
  destruct (metafieldsSetErrors w) as [[|m errors]|e]; cbn [snd]; split;
    try (intros t v b [Hin|[Hin|[Hin|Hin]]];
         [ inversion Hin; subst; exact Hnew | discriminate | discriminate
         | now apply (Hold t v b)]);
    try exact Hval.
  reflexivity.
Qed.

Lemma reached_store_invariant (starts : list World) (w : World) :
  reached starts w -> store_invariant starts w.
Proof.
  induction 1 as [w Hv Ht | starts w w' _ IH Hv Ht | starts w _ IH].
  - split; rewrite Ht; [intros t v b []|exact Hv].
  - destruct IH as [Hlog Hval]. split; rewrite Ht; [exact Hlog|].
    now rewrite Hv.
  - destruct (check_world_cases w) as [-> | (usage & Hc & Hd & ->)].
    + now apply store_invariant_read.
    + now apply store_invariant_save.
Qed.

(** C10 (amended). In every world reached from an empty store by calls of
    [checkAndIncrementUsage] (whether or not their writes succeed, the
    clock, the duration of calls and the answers of the Admin API changing
    freely in between), a stored record, when there is one, has a count
    between 1 and [DAILY_LIMIT]; it was written by the newest accepted
    write, sent by one of the calls made, and its date is the day on which
    that call began, which is the day of the write whenever the call began
    and sent its write on the same UTC day.  No call ever handed
    metafieldsSet a count above [DAILY_LIMIT]. *)
Theorem stored_record_within_limit :
  forall (starts : list World) (w : World),
    reached starts w ->
    (forall u, stored_record w = Some u ->
       (1 <= count u <= DAILY_LIMIT)%nat
       /\ exists w0,
            In w0 starts
            /\ last_stored_write (trace w) = Some (write_time w0, JSON_stringify u)
            /\ date u = todayDateString (clock w0)
            /\ (JsDate.Day (clock w0) = JsDate.Day (write_time w0) ->
                date u = todayDateString (write_time w0)))
    /\ (forall t v b, In (EvMetafieldsSet t v b) (trace w) ->
          exists u, v = JSON_stringify u /\ (count u <= DAILY_LIMIT)%nat).
Proof.
  intros starts w Hreach.
  destruct (reached_store_invariant starts w Hreach) as [Hlog Hval].
  split.
  - intros u Hs. unfold stored_record in Hs. rewrite Hval in Hs.
    destruct (last_stored_write (trace w)) as [[t v]|] eqn:Hlast; [|discriminate].
    cbn [option_map snd] in Hs.
    destruct (Hlog t v true (last_stored_write_In _ _ _ Hlast))
      as (w0 & Hw0 & u' & -> & Hc & Hd & ->).
    assert (u' = u).
    { destruct (JSON_stringify u') eqn:E; [discriminate|].
      rewrite <- E, JSON_roundtrip in Hs. now inversion Hs. }
    subst u'. split; [exact Hc|]. exists w0.
    split; [exact Hw0|]. split; [reflexivity|]. split; [exact Hd|].
    intros Hday. rewrite Hd. now apply todayDateString_same_day.
  - intros t v b Hin. destruct (Hlog t v b Hin) as (w0 & _ & u & -> & Hc & _).
    exists u. split; [reflexivity | lia].
Qed.

(** X22. The counter follows the UTC day.  Take a stored record dated at
    time [t0] (its date is the date string of [t0], the time at which the
    call that wrote it read the clock) and a call begun at time [clock w]
    on a store that answers, both between the years 0 and 9999.  If the
    call falls on another UTC day than [t0] it starts the day afresh:
    allowed, count 1, whatever the stored count.  If it falls on the same
    UTC day it goes on counting: allowed with the stored count plus one
    below the limit, denied with the stored count otherwise. *)
Theorem counter_follows_utc_day :
  forall (w : World) (u : DailyUsage) (t0 : Z),
    metafieldQueryError w = None -> write_ok w = true ->
    stored_record w = Some u -> date u = todayDateString t0 ->
    in_four_digit_years t0 -> in_four_digit_years (clock w) ->
    (JsDate.Day (clock w) <> JsDate.Day t0 ->
       fst (checkAndIncrementUsage w) = Ok (mkDecision true 1)
       /\ stored_record (snd (checkAndIncrementUsage w))
          = Some (mkDailyUsage 1 (todayDateString (clock w))))
    /\ (JsDate.Day (clock w) = JsDate.Day t0 ->
        fst (checkAndIncrementUsage w)
          = Ok (if (count u <? DAILY_LIMIT)%nat
                then mkDecision true (count u + 1)
                else mkDecision false (count u))).
Proof.
  intros w u t0 Hq Hw Hs Hd Ht0 Ht. split.
  - intros Hday.
    assert (Hne : date u <> todayDateString (clock w)).
    { rewrite Hd, !todayDateString_isoDate. intros E. apply Hday.
      symmetry. now apply isoDate_inj. }
    rewrite (check_reset w Hq) by (right; now exists u).
    rewrite (save_and_allow_ok _ _ Hw). cbn [fst snd].
    split; [reflexivity | apply stored_record_after_write].
  - intros Hday.
    assert (He : date u = todayDateString (clock w)).
    { rewrite Hd, !todayDateString_isoDate. unfold isoDate. now rewrite Hday. }
    destruct (Nat.ltb_spec (count u) DAILY_LIMIT) as [Hlt|Hge].
    + now rewrite (check_increment w u Hq Hs He Hlt), (save_and_allow_ok _ _ Hw).
    + now rewrite (check_deny w u Hq Hs He Hge).
Qed.

End Engine.

(** ** The reference codec satisfies the JSON assumptions *)

Lemma strip_prefix_app (p s : string) : UsageJson.strip_prefix p (p ++ s) = Some s.
Proof.
  induction p as [|a p IH]; [reflexivity|].
  cbn. now rewrite Ascii.eqb_refl.
Qed.

Lemma span_digits_uint (u : Decimal.uint) (rest : string) :
  UsageJson.span_digits (NilEmpty.string_of_uint u ++ UsageJson.date_prefix ++ rest)
    = (NilEmpty.string_of_uint u, UsageJson.date_prefix ++ rest).
Proof.
  induction u as [|u IH|u IH|u IH|u IH|u IH|u IH|u IH|u IH|u IH|u IH];
    [reflexivity | ..];
    cbn [NilEmpty.string_of_uint append UsageJson.span_digits];
    change (UsageJson.is_digit _) with true; cbv iota; now rewrite IH.
Qed.

Lemma read_string_escape (d rest : string) :
  UsageJson.read_string (UsageJson.escape d ++ String UsageJson.dquote rest)
    = Some (d, rest).
Proof.
  induction d as [|c d IH].
  - reflexivity.
  - cbn [UsageJson.escape]. destruct (UsageJson.is_special c) eqn:E.
    + cbn [append UsageJson.read_string].
      change (Ascii.eqb UsageJson.backslash UsageJson.dquote) with false.
      change (Ascii.eqb UsageJson.backslash UsageJson.backslash) with true.
      cbv iota. now rewrite E, IH.
    + cbn [append UsageJson.read_string].
      unfold UsageJson.is_special in E. apply orb_false_elim in E.
      destruct E as [E1 E2]. now rewrite E1, E2, IH.
Qed.

Lemma decimal_nonempty (n : nat) : UsageJson.decimal n <> "".
Proof.
  unfold UsageJson.decimal.
  assert (H : Nat.to_uint n <> Decimal.Nil).
  { rewrite <- (DecimalNat.Unsigned.of_to n) at 1.
    rewrite DecimalNat.Unsigned.to_of. apply DecimalFacts.unorm_nonnil. }
  now destruct (Nat.to_uint n).
Qed.

Lemma UsageJson_roundtrip (u : DailyUsage) :
  UsageJson.parse (UsageJson.stringify u) = Some u.
Proof.
  destruct u as [n d]. unfold UsageJson.parse, UsageJson.stringify.
  cbn [count date].
  pose proof (decimal_nonempty n) as Hne. unfold UsageJson.decimal in *.
  rewrite strip_prefix_app, span_digits_uint.
  destruct (NilEmpty.string_of_uint (Nat.to_uint n)) as [|c ds] eqn:E; [congruence|].
  rewrite <- E, NilEmpty.usu, strip_prefix_app, read_string_escape.
  now rewrite DecimalNat.Unsigned.of_to.
Qed.

Lemma UsageJson_nonempty (u : DailyUsage) : UsageJson.stringify u <> "".
Proof. discriminate. Qed.

(** ** The theorems at work on the example worlds *)

Lemma sequential_calls_example :
  stored_record UsageJson.parse fresh_shop = None
  /\ fst (calls_at UsageJson.parse UsageJson.stringify
            [example_time; example_time + 60000; example_time + 7200000]%Z
            fresh_shop)
     = [Ok (mkDecision true 1); Ok (mkDecision true 2); Ok (mkDecision true 3)].
Proof.
  split; [reflexivity|].
  refine (proj1 (sequential_calls_within_a_day
                   UsageJson.parse UsageJson.stringify
                   UsageJson_roundtrip UsageJson_nonempty
                   fresh_shop "2025-11-02" _ eq_refl eq_refl eq_refl _)).
  repeat constructor.
Defined.

Lemma stale_record_example :
  UsageJson.parse (UsageJson.stringify (mkDailyUsage 250 "2025-11-01"))
    = Some (mkDailyUsage 250 "2025-11-01")
  /\ fst (checkAndIncrementUsage UsageJson.parse UsageJson.stringify stale_shop)
     = Ok (mkDecision true 1)
  /\ stored_record UsageJson.parse
       (snd (checkAndIncrementUsage UsageJson.parse UsageJson.stringify stale_shop))
     = Some (mkDailyUsage 1 "2025-11-02").
Proof.
  split; [vm_compute; reflexivity|].
  assert (Hstale :
    metafieldValue stale_shop = None
    \/ metafieldValue stale_shop = Some ""
    \/ (exists text, metafieldValue stale_shop = Some text
                     /\ UsageJson.parse text = None)
    \/ (exists text u,
          metafieldValue stale_shop = Some text /\ text <> ""
          /\ UsageJson.parse text = Some u
          /\ date u <> todayDateString (clock stale_shop))).
  { right. right. right.
    exists (UsageJson.stringify (mkDailyUsage 250 "2025-11-01")),
           (mkDailyUsage 250 "2025-11-01").
    split; [reflexivity|]. split; [discriminate|].
    split; [vm_compute; reflexivity|]. vm_compute. discriminate. }
  destruct (proj2 (proj2 (stale_or_missing_record_resets
                            UsageJson.parse UsageJson.stringify
                            UsageJson_roundtrip UsageJson_nonempty
                            stale_shop eq_refl Hstale)) eq_refl)
    as (Hres & _ & Hrec).
  split; [exact Hres | exact Hrec].
Defined.

Lemma stored_record_example :
  let w1 := snd (checkAndIncrementUsage UsageJson.parse UsageJson.stringify
                   fresh_shop) in
  let w2 := snd (checkAndIncrementUsage UsageJson.parse UsageJson.stringify w1) in
  reached UsageJson.parse UsageJson.stringify [w1; fresh_shop] w2
  /\ stored_record UsageJson.parse w2 = Some (mkDailyUsage 2 "2025-11-02")
  /\ (1 <= 2 <= DAILY_LIMIT)%nat.
Proof.
  intros w1 w2.
  assert (Hreach : reached UsageJson.parse UsageJson.stringify [w1; fresh_shop] w2)
    by (apply reach_call, reach_call, reach_init; reflexivity).
  split; [exact Hreach|]. split; [vm_compute; reflexivity|].
  refine (proj1 (proj1 (stored_record_within_limit
                          UsageJson.parse UsageJson.stringify
                          UsageJson_roundtrip [w1; fresh_shop] w2 Hreach)
                   (mkDailyUsage 2 "2025-11-02") _)).
  vm_compute; reflexivity.
Defined.

Lemma createSubscription_example :
  fst (createSubscription "https://example.myshopify.com/app" rejected_offer_shop)
    = Throw "Failed to create subscription: Price is too low, Return URL is invalid".
Proof.
  refine (proj1 (proj1 (createSubscription_outcomes
                          "https://example.myshopify.com/app" rejected_offer_shop
                          _ eq_refl) _)).
  discriminate.
Defined.

Lemma undated_trial_example :
  fst (checkActiveSubscription utc_zone undated_trial_shop)
    = Ok (mkEntitlement true true None).
Proof.
  exact (trial_without_createdAt_fails_open utc_zone undated_trial_shop
           _ _ eq_refl eq_refl (or_introl eq_refl) eq_refl).
Defined.

Lemma classification_example :
  fst (checkActiveSubscription utc_zone (exact_trial_shop 5))
    = Ok (mkEntitlement true true (Some 9%Z))
  /\ fst (checkActiveSubscription utc_zone (exact_trial_shop 20))
     = Ok (mkEntitlement false false None).
Proof.
  assert (Hrange : (Z.abs (resolver_now (exact_trial_shop 5) + 9 * JsDate.msPerDay)
                    <= JsDate.MAX_TIME)%Z)
    by (vm_compute; discriminate).
  assert (Hzone : offsets_within_a_day utc_zone)
    by (intros t b; vm_compute; discriminate).
  split.
  - exact (proj1 (proj2 (proj2 (subscription_classification_table
                                  utc_zone (exact_trial_shop 5) _ eq_refl)
                           _ eq_refl))
             eq_refl eq_refl eq_refl eq_refl Hrange).
  - exact (proj1 (proj2 (proj2 (proj2 (subscription_classification_table
                                         utc_zone (exact_trial_shop 20) _ eq_refl)
                                  _ eq_refl)))
             eq_refl eq_refl eq_refl Hzone).
Defined.

(** C2 (as stated, refuted). In New York, at noon of 2025-10-30, a plan
    subscription ACCEPTED exactly five days earlier with 14 trial days: the
    trial ends at noon local time of 2025-11-08, after the clocks have gone
    back an hour, that is nine days and one hour later, and the resolver
    answers 10 days remaining. *)
Lemma autumn_trial_has_ten_days :
  resolver_now autumn_trial_shop = autumn_time
  /\ activeSubscriptions autumn_trial_shop
     = Ok [mkSubscription PLAN_NAME "ACCEPTED"
             (Some (resolver_now autumn_trial_shop - 5 * JsDate.msPerDay)%Z)
             (Some 14%Z)]
  /\ new_york_zone (autumn_time - 5 * JsDate.msPerDay)%Z true = (- 4 * msPerHour)%Z
  /\ new_york_zone (autumn_time + 9 * JsDate.msPerDay - 4 * msPerHour)%Z false
     = (- 5 * msPerHour)%Z
  /\ setDate_plus new_york_zone (autumn_time - 5 * JsDate.msPerDay)%Z 14
     = Some (autumn_time + 9 * JsDate.msPerDay + msPerHour)%Z
  /\ fst (checkActiveSubscription new_york_zone autumn_trial_shop)
     = Ok (mkEntitlement true true (Some 10%Z)).
Proof. repeat split. Qed.

Lemma counter_failure_example :
  metafieldQueryError unreadable_shop = Some "fetch failed"
  /\ fst (action UsageJson.parse UsageJson.stringify utc_zone
            example_request unreadable_shop)
     = Ok (mkActionData "" (Some USAGE_CHECK_FAILED)).
Proof.
  split; [reflexivity|].
  assert (Hgate : forall st,
             fst (checkActiveSubscription utc_zone (authenticated unreadable_shop))
               = Ok st ->
             hasAccess st = true).
  { intros st H. vm_compute in H. now inversion H. }
  assert (Hm : "Great product, fast delivery!" <> "") by discriminate.
  assert (Ht : "Friendly" <> "") by discriminate.
  exact (proj1 (proj2 (proj1 (proj2 (usage_counter_failure_denies
                                       UsageJson.parse UsageJson.stringify utc_zone
                                       example_request unreadable_shop _ _
                                       eq_refl Hm eq_refl Ht eq_refl Hgate))
                         "fetch failed" eq_refl))).
Defined.

Lemma billing_failure_example :
  fst (checkActiveSubscription utc_zone (authenticated billing_down_shop))
    = Throw "billing unavailable"
  /\ fst (action UsageJson.parse UsageJson.stringify utc_zone
            example_request billing_down_shop)
     = Ok (mkActionData "Thank you for your feedback." None)
  /\ fst (loader UsageJson.parse utc_zone example_request billing_down_shop)
     = Ok (mkLoaderData true None 0 false None).
Proof.
  pose proof (subscription_check_failure_fails_open
                UsageJson.parse UsageJson.stringify utc_zone
                example_request billing_down_shop "billing unavailable"
                eq_refl eq_refl)
    as (_ & _ & Hloader & Haction & _).
  split; [reflexivity|]. split.
  - rewrite Haction. reflexivity.
  - rewrite Hloader. reflexivity.
Defined.

(** C4 (the code departs from the claim). A plan subscription ACCEPTED one
    day ago for which the provider gives 0 trial days: the claim's window,
    the creation date plus 0 days, is over, yet the resolver takes 0 for a
    missing figure, uses [DEFAULT_TRIAL_DAYS] and answers access on trial
    with 13 days remaining. *)
Theorem zero_trial_days_replaced_by_default :
  let w := trial_shop 1 (Some 0%Z) in
  let created := (example_time - 1 * JsDate.msPerDay)%Z in
  activeSubscriptions w
    = Ok [mkSubscription PLAN_NAME "ACCEPTED" (Some created) (Some 0%Z)]
  /\ (created + 0 * JsDate.msPerDay < clock w)%Z
  /\ fst (checkActiveSubscription utc_zone w)
     = Ok (mkEntitlement true true (Some 13%Z)).
Proof. repeat split. Qed.

(** C6 (as stated, refuted). The shop's metafield query throws, the
    request is authenticated, the subscription gate is passed and the form
    is complete: the action does not go on to the generation; it answers
    the generic usage-check failure after two calls, the subscriptions
    query and the metafield query. *)
Lemma read_failure_blocks_generation :
  fst (getDailyUsage UsageJson.parse unreadable_shop) = Throw "fetch failed"
  /\ authentication unreadable_shop example_request = Ok tt
  /\ fst (checkActiveSubscription utc_zone (authenticated unreadable_shop))
     = Ok (mkEntitlement true false None)
  /\ fst (action UsageJson.parse UsageJson.stringify utc_zone
            example_request unreadable_shop)
     = Ok (mkActionData "" (Some USAGE_CHECK_FAILED))
  /\ trace (snd (action UsageJson.parse UsageJson.stringify utc_zone
                   example_request unreadable_shop))
     = [EvMetafieldQuery; EvActiveSubscriptions].
Proof. repeat split. Qed.

(** C10 (as stated, refuted). A first call of the day begun a tenth of a
    second before UTC midnight, each awaited call taking 120 ms: the day is
    read before midnight, the write is sent 140 ms after it and accepted,
    and the stored record carries the date of the day before the one on
    which it was written. *)
Lemma midnight_write_keeps_previous_day :
  let w := snd (checkAndIncrementUsage UsageJson.parse UsageJson.stringify
                  late_evening_shop) in
  reached UsageJson.parse UsageJson.stringify [late_evening_shop] w
  /\ stored_record UsageJson.parse w = Some (mkDailyUsage 1 "2025-11-01")
  /\ last_stored_write (trace w)
     = Some ((example_time + 140)%Z,
             UsageJson.stringify (mkDailyUsage 1 "2025-11-01"))
  /\ todayDateString (example_time + 140)%Z = "2025-11-02".
Proof.
  intros w. split; [apply reach_call, reach_init; reflexivity|].
  subst w. vm_compute. repeat split.
Qed.

(** ** The further properties at work on the example worlds *)

Lemma shown_count_example :
  fst (getCurrentUsageCount UsageJson.parse
         (set_clock (example_time + 3600000)%Z
            (snd (checkAndIncrementUsage UsageJson.parse UsageJson.stringify
                    fresh_shop))))
    = Ok 1%nat.
Proof.
  refine (reported_count_is_shown_count
            UsageJson.parse UsageJson.stringify
            UsageJson_roundtrip UsageJson_nonempty
            fresh_shop (mkDecision true 1) (example_time + 3600000)%Z _ _);
    vm_compute; reflexivity.
Defined.

Lemma todays_record_example :
  stored_record UsageJson.parse counting_shop = Some (mkDailyUsage 99 "2025-11-02")
  /\ fst (checkAndIncrementUsage UsageJson.parse UsageJson.stringify counting_shop)
     = Ok (mkDecision true 100).
Proof.
  assert (Hs : stored_record UsageJson.parse counting_shop
               = Some (mkDailyUsage 99 "2025-11-02"))
    by (vm_compute; reflexivity).
  assert (Hd : date (mkDailyUsage 99 "2025-11-02")
               = todayDateString (clock counting_shop))
    by (vm_compute; reflexivity).
  assert (Hlt : (count (mkDailyUsage 99 "2025-11-02") < DAILY_LIMIT)%nat)
    by (unfold DAILY_LIMIT; cbn [count]; lia).
  split; [exact Hs|].
  exact (proj1 (proj1 (call_on_todays_record
                         UsageJson.parse UsageJson.stringify
                         UsageJson_roundtrip UsageJson_nonempty
                         counting_shop _ eq_refl eq_refl Hs Hd) Hlt)).
Defined.

Lemma save_then_get_example :
  fst (getDailyUsage UsageJson.parse
         (snd (saveDailyUsage UsageJson.stringify
                 (mkDailyUsage 5 "2025-11-02") stale_shop)))
    = Ok (Some (mkDailyUsage 5 "2025-11-02")).
Proof.
  exact (proj2 (save_then_get UsageJson.parse UsageJson.stringify
                  UsageJson_roundtrip UsageJson_nonempty
                  (mkDailyUsage 5 "2025-11-02") stale_shop eq_refl eq_refl)).
Defined.

Lemma entitlement_shape_example :
  fst (checkActiveSubscription utc_zone (trial_shop 5 (Some 14%Z)))
    = Ok (mkEntitlement true true (Some 9%Z))
  /\ (0 <= 9)%Z.
Proof.
  assert (H : fst (checkActiveSubscription utc_zone (trial_shop 5 (Some 14%Z)))
              = Ok (mkEntitlement true true (Some 9%Z)))
    by (vm_compute; reflexivity).
  split; [exact H|].
  exact (proj2 (proj2 (proj2 (proj2 (entitlement_shape utc_zone _ _ H))
                         9%Z eq_refl))).
Defined.

Lemma entitlement_decays_example :
  let w := trial_shop 5 (Some 14%Z) in
  let w' := set_clock (example_time + 3 * JsDate.msPerDay)%Z w in
  fst (checkActiveSubscription utc_zone w') = Ok (mkEntitlement true true (Some 6%Z))
  /\ (6 <= 9)%Z.
Proof.
  intros w w'.
  assert (H : fst (checkActiveSubscription utc_zone w)
              = Ok (mkEntitlement true true (Some 9%Z)))
    by (vm_compute; reflexivity).
  assert (H' : fst (checkActiveSubscription utc_zone w')
               = Ok (mkEntitlement true true (Some 6%Z)))
    by (vm_compute; reflexivity).
  assert (Hclock : (resolver_now w <= resolver_now w')%Z)
    by (vm_compute; discriminate).
  split; [exact H'|].
  exact (proj2 (proj2 (entitlement_decays utc_zone w w' _ _ eq_refl Hclock H H'))
           9%Z 6%Z eq_refl eq_refl).
Defined.

Lemma days_remaining_example : (0 <= 9 <= 14)%Z.
Proof.
  assert (Hpast : (example_time - 5 * JsDate.msPerDay
                   <= resolver_now (trial_shop 5 (Some 14%Z)))%Z)
    by (vm_compute; discriminate).
  assert (H : fst (checkActiveSubscription utc_zone (trial_shop 5 (Some 14%Z)))
              = Ok (mkEntitlement true true (Some 9%Z)))
    by (vm_compute; reflexivity).
  exact (days_remaining_within_trial utc_zone 0%Z (fun _ _ => eq_refl)
           (trial_shop 5 (Some 14%Z)) _ _ _ 9%Z _
           eq_refl eq_refl eq_refl Hpast H eq_refl).
Defined.

Lemma shadowed_subscription_example :
  fst (checkActiveSubscription utc_zone shadowed_shop)
    = Ok (mkEntitlement false false None).
Proof.
  assert (Hothers : forall s,
             In s [mkSubscription "other_plan" "ACTIVE" None None] ->
             name s <> PLAN_NAME)
    by (intros s [<- | []]; discriminate).
  rewrite (proj1 (first_named_subscription_decides utc_zone shadowed_shop
                    [mkSubscription "other_plan" "ACTIVE" None None]
                    [mkSubscription PLAN_NAME "ACTIVE" None None]
                    (mkSubscription PLAN_NAME "CANCELLED" None None) Hothers)
             eq_refl eq_refl).
  reflexivity.
Defined.

Lemma offer_example :
  exists offerName offerDays,
    since fresh_shop
      (snd (createSubscription "https://example.myshopify.com/app" fresh_shop))
    = [EvSubscriptionCreate offerName offerDays "https://example.myshopify.com/app"].
Proof.
  destruct (proj2 (offer_matches_resolver utc_zone 0%Z (fun _ _ => eq_refl)
                     "https://example.myshopify.com/app" fresh_shop))
    as (offerName & offerDays & Hsent & _).
  now exists offerName, offerDays.
Defined.

Lemma loader_offer_example :
  fst (loader UsageJson.parse utc_zone example_request no_plan_shop)
    = Ok (mkLoaderData false (Some "https://admin.shopify.com/confirm") 0 false None).
Proof.
  exact (proj1 (proj1 (proj2 (loader_outcomes UsageJson.parse utc_zone
                                example_request no_plan_shop
                                (mkEntitlement false false None) eq_refl eq_refl))
                  eq_refl "https://admin.shopify.com/confirm" eq_refl)).
Defined.

Lemma signed_out_loader_example :
  fst (loader UsageJson.parse utc_zone example_request signed_out_shop)
    = Throw "302 /auth/login"
  /\ since signed_out_shop
       (snd (loader UsageJson.parse utc_zone example_request signed_out_shop))
     = [].
Proof.
  exact (proj1 (loader_throws_only_unauthenticated
                  UsageJson.parse utc_zone example_request signed_out_shop)
           "302 /auth/login" eq_refl).
Defined.

Lemma unreadable_form_example :
  fst (action UsageJson.parse UsageJson.stringify utc_zone json_request fresh_shop)
    = Throw "Could not parse content as FormData."
  /\ since fresh_shop
       (snd (action UsageJson.parse UsageJson.stringify utc_zone
               json_request fresh_shop))
     = [EvActiveSubscriptions].
Proof.
  assert (Hgate : forall st,
             fst (checkActiveSubscription utc_zone (authenticated fresh_shop)) = Ok st ->
             hasAccess st = true).
  { intros st H. vm_compute in H. now inversion H. }
  destruct (proj1 (proj2 (action_throws_only_outside_try
                            UsageJson.parse UsageJson.stringify utc_zone
                            json_request fresh_shop))
              "Could not parse content as FormData." eq_refl Hgate eq_refl)
    as (Hres & Hcalls & _).
  split; [exact Hres | exact Hcalls].
Defined.

Lemma missing_tone_example :
  fst (action UsageJson.parse UsageJson.stringify utc_zone
         incomplete_request fresh_shop)
    = Ok (mkActionData "" (Some FIELDS_REQUIRED)).
Proof.
  assert (Hgate : forall st,
             fst (checkActiveSubscription utc_zone (authenticated fresh_shop)) = Ok st ->
             hasAccess st = true).
  { intros st H. vm_compute in H. now inversion H. }
  exact (proj1 (missing_fields_cost_nothing
                  UsageJson.parse UsageJson.stringify utc_zone
                  incomplete_request fresh_shop _ eq_refl Hgate eq_refl
                  (or_intror eq_refl))).
Defined.

Lemma failed_generation_example :
  fst (action UsageJson.parse UsageJson.stringify utc_zone
         example_request failing_generation_shop)
    = Ok (mkActionData "" (Some "No reply generated from OpenAI"))
  /\ metafieldValue
       (snd (action UsageJson.parse UsageJson.stringify utc_zone
               example_request failing_generation_shop))
     = Some (UsageJson.stringify (mkDailyUsage 1 "2025-11-02")).
Proof.
  assert (Hgate : forall st,
             fst (checkActiveSubscription utc_zone
                    (authenticated failing_generation_shop)) = Ok st ->
             hasAccess st = true).
  { intros st H. vm_compute in H. now inversion H. }
  assert (Hm : "Great product, fast delivery!" <> "") by discriminate.
  assert (Ht : "Friendly" <> "") by discriminate.
  assert (Hd : fst (checkAndIncrementUsage UsageJson.parse UsageJson.stringify
                      (form_read utc_zone example_request failing_generation_shop))
               = Ok (mkDecision true 1))
    by (vm_compute; reflexivity).
  destruct (generation_failure_still_counts
              UsageJson.parse UsageJson.stringify utc_zone
              example_request failing_generation_shop _ _ _
              eq_refl Hm eq_refl Ht eq_refl Hgate Hd eq_refl)
    as (Hres & Hval & _).
  split; [exact Hres|]. rewrite Hval. vm_compute. reflexivity.
Defined.

Lemma openai_rejected_key_example :
  fst (OpenAI.generateAIReply OpenAI.trim_ascii rejecting_openai
         "Great product, fast delivery!" "Friendly")
    = Throw "OpenAI API error: Incorrect API key provided. Please check your API key and try again.".
Proof.
  assert (Hm : "Great product, fast delivery!" <> "") by discriminate.
  assert (Ht : "Friendly" <> "") by discriminate.
  exact (proj1 (proj1 (openai_error_messages OpenAI.trim_ascii rejecting_openai
                         _ _ eq_refl Hm Ht)
                  401%Z "Incorrect API key provided" eq_refl)).
Defined.

Lemma action_generation_example :
  formMessage example_request = Some "Great product, fast delivery!"
  /\ formTone example_request = Some "Friendly".
Proof.
  assert (Hin : In (EvGenerate "Great product, fast delivery!" "Friendly")
                   (since fresh_shop
                      (snd (action UsageJson.parse UsageJson.stringify utc_zone
                              example_request fresh_shop))))
    by (vm_compute; left; reflexivity).
  destruct (action_generates_from_form_fields
              UsageJson.parse UsageJson.stringify utc_zone
              example_request fresh_shop _ _ Hin)
    as (Hm & _ & Ht & _).
  now split.
Defined.

Lemma new_utc_day_example :
  fst (checkAndIncrementUsage UsageJson.parse UsageJson.stringify stale_shop)
    = Ok (mkDecision true 1).
Proof.
  assert (Hs : stored_record UsageJson.parse stale_shop
               = Some (mkDailyUsage 250 "2025-11-01"))
    by (vm_compute; reflexivity).
  assert (Hd : date (mkDailyUsage 250 "2025-11-01")
               = todayDateString (example_time - JsDate.msPerDay)%Z)
    by (vm_compute; reflexivity).
  assert (Ht0 : in_four_digit_years (example_time - JsDate.msPerDay)%Z)
    by (vm_compute; split; [discriminate | reflexivity]).
  assert (Ht : in_four_digit_years (clock stale_shop))
    by (vm_compute; split; [discriminate | reflexivity]).
  assert (Hday : JsDate.Day (clock stale_shop)
                 <> JsDate.Day (example_time - JsDate.msPerDay)%Z)
    by (vm_compute; discriminate).
  exact (proj1 (proj1 (counter_follows_utc_day
                         UsageJson.parse UsageJson.stringify
                         UsageJson_roundtrip UsageJson_nonempty
                         stale_shop _ _ eq_refl eq_refl Hs Hd Ht0 Ht) Hday)).
Defined.
